(** * Yearly "wrapped" statistics: a shallow embedding of [StatsCalculator]

    The development follows [StatsCalculator] (stats-calculator service of
    the backend) method by method.  JavaScript values are embedded as
    follows.

    - Integral numbers (Unix seconds, rating keys, counters) are [Z].
    - Quantities obtained by [/ 60] are exact rationals [Q]; the binary
      rounding of IEEE-754 sums is not represented.  [Math.round] is
      [Qfloor (q + 1/2)].
    - A plain object used as a dictionary is an association list of its
      own properties in insertion order; [Object.keys/values/entries]
      enumerate array-index keys first, in ascending numeric order, then
      the remaining keys in insertion order (OrdinaryOwnPropertyKeys).
      Properties inherited from [Object.prototype] are not represented.
    - [Array.prototype.sort] is a stable sort (ECMAScript 2019).
    - A [Date] is read through the offset of the process time zone; a
      calendar date ([format(d, 'yyyy-MM-dd')]) is represented by its day
      number, counted from 1970-01-01 in local time.  For the four-digit
      years of a Unix-seconds history the rendered strings are in
      bijection with day numbers and their code-unit order is the
      chronological one; [parse] followed by [differenceInDays] yields
      the difference of the day numbers. *)

From Stdlib Require Import List ZArith NArith QArith Qround String Ascii Bool Lia Lqa.
From Stdlib Require Import DecimalString Sorting.Sorted Permutation.
From Stdlib Require OrderedTypeEx.
Import ListNotations.

Set Implicit Arguments.
Open Scope Z_scope.

(* ================================================================== *)
(** * JavaScript runtime fragments used by the calculator              *)
(* ================================================================== *)

Module JS.

(** ** Numbers *)

(** Result of a division that may hit [0/0] or [x/0]. *)
Inductive number : Type :=
| Num (q : Q)
| NaN
| Infinity
| NegInfinity.

(** [a / b] on finite operands. *)
Definition div (a b : Q) : number :=
  if Qeq_bool b 0 then
    if Qeq_bool a 0 then NaN
    else if Qle_bool 0 a then Infinity else NegInfinity
  else Num (a / b).

(** [x * c] for a finite positive constant [c]. *)
Definition times (x : number) (c : Q) : number :=
  match x with
  | Num q => Num (q * c)
  | other => other
  end.

(** [Math.round]: nearest integer, halves towards +infinity. *)
Definition Math_round (q : Q) : Z := Qfloor (q + (1 # 2)).

(** [parseFloat(x.toFixed(1))]: nearest multiple of 1/10, the larger
    one on a tie, computed on the absolute value. *)
Definition toFixed1 (x : number) : number :=
  match x with
  | Num q =>
      if Qle_bool 0 q
      then Num (inject_Z (Qfloor (q * 10 + (1 # 2))) / 10)
      else Num (- (inject_Z (Qfloor ((- q) * 10 + (1 # 2))) / 10))
  | other => other
  end.

(** Decimal rendering of an integral number inside a template literal. *)
Definition toString (z : Z) : string := NilZero.string_of_int (Z.to_int z).

(** ** Arrays *)

Section Arrays.
Context {A : Type}.

(** [after a b] stands for [compareFn(a, b) > 0]. *)
Variable after : A -> A -> bool.

Fixpoint insert (x : A) (l : list A) : list A :=
  match l with
  | [] => [x]
  | y :: l' => if after x y then y :: insert x l' else x :: l
  end.

(** [Array.prototype.sort(compareFn)], stable. *)
Fixpoint sort (l : list A) : list A :=
  match l with
  | [] => []
  | x :: l' => insert x (sort l')
  end.

(** [arr.slice(0, n)]. *)
Definition slice0 (n : nat) (l : list A) : list A := firstn n l.
End Arrays.

(** ** [Set] *)

Section Sets.
Context {A : Type}.
Variable eq_dec : forall a b : A, {a = b} + {a <> b}.

Definition Set_add (s : list A) (x : A) : list A :=
  if in_dec eq_dec x s then s else s ++ [x].

(** [new Set(iterable)]: members in insertion order. *)
Definition Set_of (l : list A) : list A := fold_left Set_add l [].

Definition size (s : list A) : Z := Z.of_nat (List.length s).
End Sets.

(** ** Plain objects used as dictionaries *)

Section Objects.
Context {K V : Type}.
Variable eq_dec : forall a b : K, {a = b} + {a <> b}.

(** Array index denoted by a property key, if any. *)
Variable index : K -> option N.

Definition obj := list (K * V).

Fixpoint get (o : obj) (k : K) : option V :=
  match o with
  | [] => None
  | (k', v) :: o' => if eq_dec k k' then Some v else get o' k
  end.

(** [o[k] = v]: overwrite in place, or append a new own property. *)
Fixpoint set (o : obj) (k : K) (v : V) : obj :=
  match o with
  | [] => [(k, v)]
  | (k', v') :: o' =>
      if eq_dec k k' then (k', v) :: o' else (k', v') :: set o' k v
  end.

Definition is_index (e : K * V) : bool :=
  match index (fst e) with Some _ => true | None => false end.

Definition index_rank (e : K * V) : N :=
match index (fst e) with Some i => i | None => 0%N end.

Definition index_after (a b : K * V) : bool :=
(index_rank b <? index_rank a)%N.

(** [Object.entries(o)]. *)
Definition Object_entries (o : obj) : list (K * V) :=
  sort index_after (filter is_index o)
    ++ filter (fun e => negb (is_index e)) o.

(** [Object.values(o)]. *)
Definition Object_values (o : obj) : list V := map snd (Object_entries o).
End Objects.

(** Property key of a number used as a key ([ToString] of an integer is
    an array index exactly for 0 .. 2^32 - 2). *)
Definition number_index (k : Z) : option N :=
  if (0 <=? k) && (k <? 4294967295) then Some (Z.to_N k) else None.

(** Property key of a string: an array index when it is the canonical
    decimal rendering of an integer in 0 .. 2^32 - 2. *)
Definition string_index (s : string) : option N :=
  match NilZero.uint_of_string s with
  | Some u =>
      let n := N.of_uint u in
      if (n <? 4294967295)%N
         && String.eqb (NilZero.string_of_uint (N.to_uint n)) s
      then Some n else None
  | None => None
  end.

(** [s.split(c)[0]] and [s.split(c)[1]] for a one-character separator. *)
Fixpoint split0 (c : ascii) (s : string) : string :=
  match s with
  | EmptyString => EmptyString
  | String a s' =>
      if Ascii.eqb a c then EmptyString else String a (split0 c s')
  end.

Fixpoint split1 (c : ascii) (s : string) : string :=
  match s with
  | EmptyString => "undefined"
  | String a s' => if Ascii.eqb a c then split0 c s' else split1 c s'
  end.

End JS.

(* ================================================================== *)
(** * Dates (the [Date] object and the date-fns calls of the source)   *)
(* ================================================================== *)

Module DateFns.

(** Civil date (year, month 1..12, day 1..31) of a day number counted
    from 1970-01-01, proleptic Gregorian calendar. *)
Definition civil_from_days (z : Z) : Z * Z * Z :=
  let z := z + 719468 in
  let era := z / 146097 in
  let doe := z - era * 146097 in
  let yoe := (doe - doe / 1460 + doe / 36524 - doe / 146096) / 365 in
  let y := yoe + era * 400 in
  let doy := doe - (365 * yoe + yoe / 4 - yoe / 100) in
  let mp := (5 * doy + 2) / 153 in
  let d := doy - (153 * mp + 2) / 5 + 1 in
  let m := if mp <? 10 then mp + 3 else mp - 9 in
  (if m <=? 2 then y + 1 else y, m, d).

Definition monthNames : list string :=
  ["January"; "February"; "March"; "April"; "May"; "June"; "July";
   "August"; "September"; "October"; "November"; "December"]%string.

(** [addLeadingZeros(n, width)] for a non-negative [n]. *)
Fixpoint padStart0 (width : nat) (s : string) : string :=
  match width with
  | O => s
  | S w => if (String.length s <? width)%nat
           then String "0" (padStart0 w s) else s
  end.

Definition addLeadingZeros (n : Z) (width : nat) : string :=
  ((if (n <? 0)%Z then "-" else "") ++ padStart0 width (JS.toString (Z.abs n)))%string.

Section LocalTime.
(** Offset of local time from UTC, in seconds, at a given instant. *)
Variable tzOffset : Z -> Z.

(** Local wall-clock seconds of [new Date(t * 1000)]. *)
Definition localSeconds (t : Z) : Z := t + tzOffset t.

(** The calendar date [format(new Date(t * 1000), 'yyyy-MM-dd')]. *)
Definition localDay (t : Z) : Z := localSeconds t / 86400.

(** [new Date(t * 1000).getHours()]. *)
Definition getHours (t : Z) : Z := (localSeconds t mod 86400) / 3600.

(** [new Date(t * 1000).getDay()]; 1970-01-01 was a Thursday. *)
Definition getDay (t : Z) : Z := (localDay t + 4) mod 7.

Definition getFullYear (t : Z) : Z := fst (fst (civil_from_days (localDay t))).
Definition getMonth1 (t : Z) : Z := snd (fst (civil_from_days (localDay t))).

(** [format(new Date(t * 1000), 'MMMM')]. *)
Definition format_MMMM (t : Z) : string :=
  nth (Z.to_nat (getMonth1 t - 1)) monthNames "January"%string.

(** [format(new Date(t * 1000), 'yyyy-MM')]. *)
Definition format_yyyy_MM (t : Z) : string :=
  let y := getFullYear t in
  (addLeadingZeros (if (0 <? y)%Z then y else (1 - y)%Z) 4 ++ "-"
     ++ addLeadingZeros (getMonth1 t) 2)%string.
End LocalTime.

(** The UTC zone. *)
Definition utc : Z -> Z := fun _ => 0.

End DateFns.

(* ================================================================== *)
(** * Data model                                                       *)
(* ================================================================== *)

Inductive MediaType : Type := movie | episode | track | photo | clip.

Definition MediaType_eqb (a b : MediaType) : bool :=
  match a, b with
  | movie, movie | episode, episode | track, track
  | photo, photo | clip, clip => true
  | _, _ => false
  end.

(** The fields of [TautulliHistoryRecord] read by the calculator.  An
    optional or possibly missing field is an [option]. *)
Record TautulliHistoryRecord : Type := {
  started : Z;
  stopped : Z;
  duration : Z;
  platform : string;
  player : string;
  media_type : MediaType;
  rating_key : Z;
  grandparent_rating_key : Z;
  title : string;
  grandparent_title : string;
  year : Z;
  media_index : Z;
  parent_media_index : Z;
  thumb : string;
  grandparent_thumb : string;
  transcode_decision : option string;
  stream_video_resolution : option string;
  genres : option (list string);
  directors : option (list string);
  actors : option (list string)
}.

(** The fields of [OverseerrUserRequestStats] read by the rules. *)
Record OverseerrUserRequestStats : Type := {
  totalRequests : Z;
  averageApprovalTimeHours : option Q
}.

Module TopMovie.
Record t : Type := {
  title : string; year : Z; plays : Z; durationMinutes : Z;
  thumb : string; ratingKey : Z; genres : option (list string) }.
End TopMovie.

Module TopShow.
Record t : Type := {
  title : string; plays : Z; episodes : Z; durationMinutes : Z;
  thumb : string; ratingKey : Z; genres : option (list string) }.
End TopShow.

Module TopEpisode.
Record t : Type := {
  title : string; show : string; season : Z; episode : Z;
  plays : Z; thumb : string }.
End TopEpisode.

Module TopGenre.
Record t : Type := {
  genre : string; count : Z; minutes : Z; percentage : JS.number }.
End TopGenre.

Module TopPerson.
Record t : Type := { name : string; count : Z; titles : list string }.
End TopPerson.

Module DeviceStat.
Record t : Type := {
  device : string; platform : string; plays : Z; minutes : Z }.
End DeviceStat.

Module PlatformStat.
Record t : Type := { platform : string; plays : Z; minutes : Z }.
End PlatformStat.

(** A value of the resolution table.  The table is declared with
    numbers, but the idiom that fills it, [o[k] = (o[k] || 0) + 1], stores
    a string when [k] names a method that the table inherits from
    [Object.prototype]: the text of that method followed by "1", and by
    one more "1" at each further event. *)
Inductive Frequency : Type :=
| Count (n : Z)
| MethodText (ones : nat).

(** [resolutions] lists the entries of the table in the order of their
    creation; the order in which the object enumerates its keys (those
    spelled as array indices first) is not represented. *)
Module QualityStats.
Record t : Type := {
  directPlay : Z; transcode : Z; directStream : Z;
  resolutions : list (string * Frequency) }.
End QualityStats.

Module MonthlyStat.
Record t : Type := {
  month : string; monthName : string; plays : Z; minutes : Z }.
End MonthlyStat.

Module Badge.
Record t : Type := { name : string; description : string; icon : string }.
End Badge.

(** A [Date] value, as its epoch milliseconds. *)
Definition Date := Z.

Module ProcessedStats.
Record t : Type := {
  totalWatchTimeMinutes : Z;
  totalPlays : Z;
  totalMovies : Z;
  totalTvEpisodes : Z;
  uniqueMovies : Z;
  uniqueShows : Z;
  daysActive : Z;
  mostActiveMonth : string;
  mostActiveDayOfWeek : string;
  mostActiveHour : Z;
  longestStreakDays : Z;
  longestBingeMinutes : Z;
  longestBingeShow : option string;
  topMovies : list TopMovie.t;
  topShows : list TopShow.t;
  topEpisodes : list TopEpisode.t;
  topGenres : list TopGenre.t;
  topActors : list TopPerson.t;
  topDirectors : list TopPerson.t;
  topDevices : list DeviceStat.t;
  topPlatforms : list PlatformStat.t;
  qualityStats : QualityStats.t;
  monthlyStats : list MonthlyStat.t;
  contentSharedWith : Z;
  percentageOfLibraryWatched : Z;
  totalSeasonsCompleted : Z;
  rewatches : Z;
  firstWatchTitle : option string;
  firstWatchDate : option Date;
  lastWatchTitle : option string;
  lastWatchDate : option Date;
  mostMemorableDayDate : option Date;
  mostMemorableDayMinutes : Z;
  funFacts : list string;
  badges : list Badge.t;
  overseerrStats : option OverseerrUserRequestStats
}.
End ProcessedStats.

(* ================================================================== *)
(** * StatsCalculator                                                  *)
(* ================================================================== *)

Definition string_eq_dec := String.string_dec.

(** [x || 0] on a counter read from a dictionary. *)
Definition or0 (x : option Z) : Z :=
  match x with Some c => c | None => 0 end.

(** [x || fallback] on a string that may be missing or empty. *)
Definition orString (x : option string) (fallback : string) : string :=
  match x with
  | Some s => if String.eqb s "" then fallback else s
  | None => fallback
  end.

(** [x || []]. *)
Definition orNil (x : option (list string)) : list string :=
  match x with Some l => l | None => [] end.

(** [record.duration / 60].  The source computes minutes as
    double-precision numbers, this development as rationals; the two
    agree where the division and the sums are exact, as they are on the
    histories of [exactMinutes] below. *)
Definition minutesOf (r : TautulliHistoryRecord) : Q := inject_Z (duration r) / 60.

(** [if (!o[k]) o[k] = init; update(o[k])], for a key that the object
    does not inherit.  Under the name of a member of [Object.prototype]
    the source finds that member, creates no entry and updates the
    member instead; such keys are outside this definition (see
    [inheritedName] below). *)
Definition upsert {K V : Type} (eq_dec : forall a b : K, {a = b} + {a <> b})
    (o : list (K * V)) (k : K) (init : V) (update : V -> V) : list (K * V) :=
  match JS.get eq_dec o k with
  | Some v => JS.set eq_dec o k (update v)
  | None => JS.set eq_dec o k (update init)
  end.

(** [o[k] = (o[k] || 0) + 1], for a key that the object does not
    inherit; [bumpAny] below covers every key. *)
Definition bump {K : Type} (eq_dec : forall a b : K, {a = b} + {a <> b})
    (o : list (K * Z)) (k : K) : list (K * Z) :=
  JS.set eq_dec o k (or0 (JS.get eq_dec o k) + 1).

(** The methods of [Object.prototype]: a dictionary written as [{}]
    answers a lookup of these names with a function although it has no
    such key; [__proto__] is answered with the prototype itself. *)
Definition inheritedMethods : list string :=
  [ "constructor"; "__defineGetter__"; "__defineSetter__"; "hasOwnProperty";
    "__lookupGetter__"; "__lookupSetter__"; "isPrototypeOf";
    "propertyIsEnumerable"; "toString"; "valueOf"; "toLocaleString" ]%string.

Definition inheritedMethod (k : string) : bool :=
  existsb (String.eqb k) inheritedMethods.

Definition inheritedName (k : string) : bool :=
  String.eqb k "__proto__" || inheritedMethod k.

(** [(o[k] || 0) + 1], where [held] is what [o] has under [k] as a key
    of its own.  A count grows by one and a string by "1".  Without a
    key of its own the lookup reaches [Object.prototype]: a method found
    there is truthy, and [+ 1] turns it into its text followed by "1";
    any other name is undefined and starts at 1. *)
Definition plusOne (k : string) (held : option Frequency) : Frequency :=
  match held with
  | Some (Count n) => Count (n + 1)
  | Some (MethodText ones) => MethodText (S ones)
  | None =>
      if inheritedMethod k then MethodText 1 else Count 1
  end.

(** [o[k] = (o[k] || 0) + 1] on a dictionary whose keys are arbitrary
    strings.  Under [__proto__] the lookup finds the prototype, and the
    assignment of the resulting string goes to the inherited setter,
    which stores nothing. *)
Definition bumpAny (o : list (string * Frequency)) (k : string)
  : list (string * Frequency) :=
  if String.eqb k "__proto__" then o
  else JS.set string_eq_dec o k (plusOne k (JS.get string_eq_dec o k)).

(** Comparators of the source, as "must come after" tests. *)
Definition byDescending {A : Type} (metric : A -> Z) (a b : A) : bool :=
  0 <? metric b - metric a.

Definition byDescendingQ {A : Type} (metric : A -> Q) (a b : A) : bool :=
  negb (Qle_bool (metric b - metric a) 0).

Definition byAscending {A : Type} (metric : A -> Z) (a b : A) : bool :=
  0 <? metric a - metric b.

Module BasicStats.
Record t : Type := {
  totalWatchTimeMinutes : Z; totalPlays : Z; totalMovies : Z;
  totalTvEpisodes : Z; uniqueMovies : Z; uniqueShows : Z; daysActive : Z }.
End BasicStats.

Module ViewingPatterns.
Record t : Type := {
  mostActiveMonth : string; mostActiveDayOfWeek : string;
  mostActiveHour : Z; longestStreakDays : Z;
  longestBingeMinutes : Z; longestBingeShow : option string }.
End ViewingPatterns.

(** Accumulators of [calculateTopContent]. *)
Record MoviePlays : Type := {
  mp_count : Z; mp_duration : Z; mp_record : TautulliHistoryRecord }.

Record ShowPlays : Type := {
  sp_count : Z; sp_duration : Z; sp_episodes : list Z;
  sp_record : TautulliHistoryRecord }.

Record EpisodePlays : Type := {
  ep_count : Z; ep_record : TautulliHistoryRecord }.

Record GenreStats : Type := { gs_count : Z; gs_minutes : Q }.

Record PersonCounts : Type := { pc_count : Z; pc_titles : list string }.

Record DeviceAcc : Type := { da_plays : Z; da_minutes : Q; da_platform : string }.

Record PlatformAcc : Type := { pa_plays : Z; pa_minutes : Q }.

Record DayAcc : Type := { dy_minutes : Q; dy_date : Date }.

Definition dayNames : list string :=
  ["Sunday"; "Monday"; "Tuesday"; "Wednesday"; "Thursday"; "Friday";
   "Saturday"]%string.

(** Keys that are never array indices (rendered dates). *)
Definition no_index {K : Type} (k : K) : option N := None.

(** The streak loop of [calculateViewingPatterns]: [prev] is
    [sortedDays[i - 1]], [rest] starts at [sortedDays[i]]. *)
Fixpoint streakLoop (prev : Z) (rest : list Z) (longestStreak currentStreak : Z)
  : Z * Z :=
  match rest with
  | [] => (longestStreak, currentStreak)
  | curr :: rest' =>
      let diff := curr - prev in
      if diff =? 1
      then streakLoop curr rest' longestStreak (currentStreak + 1)
      else streakLoop curr rest' (Z.max longestStreak currentStreak) 1
  end.

Definition longestStreakOf (sortedDays : list Z) : Z :=
  match sortedDays with
  | [] => Z.max 0 1
  | first :: rest =>
      let '(longestStreak, currentStreak) := streakLoop first rest 0 1 in
      Z.max longestStreak currentStreak
  end.

(** The binge loop over one show's episodes, sorted by start time;
    [best] is the pair ([longestBingeMinutes], [longestBingeShow]). *)
Definition closeBinge (currentBinge : Q) (e : TautulliHistoryRecord)
    (best : Z * option string) : Z * option string :=
  if negb (Qle_bool currentBinge (inject_Z (fst best)))
  then (JS.Math_round currentBinge, Some (grandparent_title e))
  else best.

Fixpoint bingeLoop (sorted : list TautulliHistoryRecord) (currentBinge : Q)
    (best : Z * option string) : Z * option string :=
  match sorted with
  | [] => best
  | e :: rest =>
      let currentBinge := (currentBinge + minutesOf e)%Q in
      match rest with
      | next :: _ =>
          let gap := started next - stopped e in
          if 3600 <? gap
          then bingeLoop rest 0%Q (closeBinge currentBinge e best)
          else bingeLoop rest currentBinge best
      | [] => closeBinge currentBinge e best
      end
  end.

Definition groupByShow (episodes : list TautulliHistoryRecord)
  : list (Z * list TautulliHistoryRecord) :=
  fold_left
    (fun grouped ep =>
       upsert Z.eq_dec grouped (grandparent_rating_key ep) []
         (fun l => l ++ [ep]))
    episodes [].

Definition longestBinge (history : list TautulliHistoryRecord)
  : Z * option string :=
  let episodes := filter (fun r => MediaType_eqb (media_type r) episode) history in
  fold_left
    (fun best entry =>
       let sorted := JS.sort (byAscending started) (snd entry) in
       bingeLoop sorted 0%Q best)
    (JS.Object_entries JS.number_index (groupByShow episodes))
    (0, None).

Section StatsCalculator.
(** Time zone of the process. *)
Variable tzOffset : Z -> Z.

Definition calculateBasicStats (history : list TautulliHistoryRecord)
  : BasicStats.t :=
  let totalWatchTimeMinutes :=
    JS.Math_round (fold_left (fun sum r => sum + minutesOf r)%Q history 0%Q) in
  let totalPlays := Z.of_nat (List.length history) in
  let movies := filter (fun r => MediaType_eqb (media_type r) movie) history in
  let episodes := filter (fun r => MediaType_eqb (media_type r) episode) history in
  let uniqueMovies := JS.size (JS.Set_of Z.eq_dec (map rating_key movies)) in
  let uniqueShows :=
    JS.size (JS.Set_of Z.eq_dec (map grandparent_rating_key episodes)) in
  let uniqueDays :=
    JS.size (JS.Set_of Z.eq_dec
               (map (fun r => DateFns.localDay tzOffset (started r)) history)) in
  {| BasicStats.totalWatchTimeMinutes := totalWatchTimeMinutes;
     BasicStats.totalPlays := totalPlays;
     BasicStats.totalMovies := Z.of_nat (List.length movies);
     BasicStats.totalTvEpisodes := Z.of_nat (List.length episodes);
     BasicStats.uniqueMovies := uniqueMovies;
     BasicStats.uniqueShows := uniqueShows;
     BasicStats.daysActive := uniqueDays |}.

Definition monthCounts (history : list TautulliHistoryRecord) : list (string * Z) :=
  fold_left
    (fun o r => bump string_eq_dec o (DateFns.format_MMMM tzOffset (started r)))
    history [].

Definition dayOfWeekCounts (history : list TautulliHistoryRecord)
  : list (string * Z) :=
  fold_left
    (fun o r =>
       bump string_eq_dec o
         (nth (Z.to_nat (DateFns.getDay tzOffset (started r))) dayNames
            "undefined"%string))
    history [].

Definition hourCounts (history : list TautulliHistoryRecord) : list (Z * Z) :=
  fold_left
    (fun o r => bump Z.eq_dec o (DateFns.getHours tzOffset (started r)))
    history [].

(** The distinct active days in ascending order.  The source holds them
    as 'yyyy-MM-dd' texts, which it sorts as texts and parses back inside
    the loop; they are day numbers here, which amounts to the same as
    long as the years are written with four digits (see
    [fourDigitYears] below). *)
Definition sortedDays (history : list TautulliHistoryRecord) : list Z :=
  JS.sort (fun a b => b <? a)
    (JS.Set_of Z.eq_dec
       (map (fun r => DateFns.localDay tzOffset (started r)) history)).

Definition calculateViewingPatterns (history : list TautulliHistoryRecord)
  : ViewingPatterns.t :=
  let mostActiveMonth :=
    orString
      (option_map fst
         (hd_error (JS.sort (byDescending snd)
                      (JS.Object_entries JS.string_index (monthCounts history)))))
      "January" in
  let mostActiveDayOfWeek :=
    orString
      (option_map fst
         (hd_error (JS.sort (byDescending snd)
                      (JS.Object_entries JS.string_index
                         (dayOfWeekCounts history)))))
      "Saturday" in
  let mostActiveHour :=
    match hd_error (JS.sort (byDescending snd)
                      (JS.Object_entries JS.number_index (hourCounts history)))
    with
    | Some (hour, _) => hour
    | None => 20
    end in
  let longestStreak := longestStreakOf (sortedDays history) in
  let '(longestBingeMinutes, longestBingeShow) := longestBinge history in
  {| ViewingPatterns.mostActiveMonth := mostActiveMonth;
     ViewingPatterns.mostActiveDayOfWeek := mostActiveDayOfWeek;
     ViewingPatterns.mostActiveHour := mostActiveHour;
     ViewingPatterns.longestStreakDays := longestStreak;
     ViewingPatterns.longestBingeMinutes := longestBingeMinutes;
     ViewingPatterns.longestBingeShow := longestBingeShow |}.
End StatsCalculator.

(** ** Top content, genres, people, devices *)

Definition moviePlays (history : list TautulliHistoryRecord) : list (Z * MoviePlays) :=
  fold_left
    (fun o r =>
       upsert Z.eq_dec o (rating_key r)
         {| mp_count := 0; mp_duration := 0; mp_record := r |}
         (fun m => {| mp_count := mp_count m + 1;
                      mp_duration := mp_duration m + duration r;
                      mp_record := mp_record m |}))
    (filter (fun r => MediaType_eqb (media_type r) movie) history) [].

Definition rankedMovies (history : list TautulliHistoryRecord) : list MoviePlays :=
  JS.slice0 10
    (JS.sort (byDescending mp_count)
       (JS.Object_values JS.number_index (moviePlays history))).

(** The arrow function of the final [map]. *)
Definition toTopMovie (m : MoviePlays) : TopMovie.t :=
  {| TopMovie.title := title (mp_record m);
     TopMovie.year := year (mp_record m);
     TopMovie.plays := mp_count m;
     TopMovie.durationMinutes := JS.Math_round (inject_Z (mp_duration m) / 60);
     TopMovie.thumb := thumb (mp_record m);
     TopMovie.ratingKey := rating_key (mp_record m);
     TopMovie.genres := genres (mp_record m) |}.

Definition topMovies (history : list TautulliHistoryRecord) : list TopMovie.t :=
  map toTopMovie (rankedMovies history).

Definition showPlays (history : list TautulliHistoryRecord) : list (Z * ShowPlays) :=
  fold_left
    (fun o r =>
       let key := grandparent_rating_key r in
       upsert Z.eq_dec o key
         {| sp_count := 0; sp_duration := 0; sp_episodes := []; sp_record := r |}
         (fun s => {| sp_count := sp_count s + 1;
                      sp_duration := sp_duration s + duration r;
                      sp_episodes := JS.Set_add Z.eq_dec (sp_episodes s) (rating_key r);
                      sp_record := sp_record s |}))
    (filter (fun r => MediaType_eqb (media_type r) episode) history) [].

Definition rankedShows (history : list TautulliHistoryRecord) : list ShowPlays :=
  JS.slice0 10
    (JS.sort (byDescending sp_count)
       (JS.Object_values JS.number_index (showPlays history))).

(** The arrow function of the final [map]. *)
Definition toTopShow (s : ShowPlays) : TopShow.t :=
  {| TopShow.title := grandparent_title (sp_record s);
     TopShow.plays := sp_count s;
     TopShow.episodes := JS.size (sp_episodes s);
     TopShow.durationMinutes := JS.Math_round (inject_Z (sp_duration s) / 60);
     TopShow.thumb := grandparent_thumb (sp_record s);
     TopShow.ratingKey := grandparent_rating_key (sp_record s);
     TopShow.genres := genres (sp_record s) |}.

Definition topShows (history : list TautulliHistoryRecord) : list TopShow.t :=
  map toTopShow (rankedShows history).

Definition episodePlays (history : list TautulliHistoryRecord)
  : list (Z * EpisodePlays) :=
  fold_left
    (fun o r =>
       upsert Z.eq_dec o (rating_key r)
         {| ep_count := 0; ep_record := r |}
         (fun e => {| ep_count := ep_count e + 1; ep_record := ep_record e |}))
    (filter (fun r => MediaType_eqb (media_type r) episode) history) [].

Definition rankedEpisodes (history : list TautulliHistoryRecord) : list EpisodePlays :=
  JS.slice0 5
    (JS.sort (byDescending ep_count)
       (JS.Object_values JS.number_index (episodePlays history))).

(** The arrow function of the final [map]. *)
Definition toTopEpisode (e : EpisodePlays) : TopEpisode.t :=
  {| TopEpisode.title := title (ep_record e);
     TopEpisode.show := grandparent_title (ep_record e);
     TopEpisode.season := parent_media_index (ep_record e);
     TopEpisode.episode := media_index (ep_record e);
     TopEpisode.plays := ep_count e;
     TopEpisode.thumb := thumb (ep_record e) |}.

Definition topEpisodes (history : list TautulliHistoryRecord) : list TopEpisode.t :=
  map toTopEpisode (rankedEpisodes history).

Module TopContent.
Record t : Type := {
  topMovies : list TopMovie.t; topShows : list TopShow.t;
  topEpisodes : list TopEpisode.t }.
End TopContent.

Definition calculateTopContent (history : list TautulliHistoryRecord) : TopContent.t :=
  {| TopContent.topMovies := topMovies history;
     TopContent.topShows := topShows history;
     TopContent.topEpisodes := topEpisodes history |}.

(** [totalMinutes] of [calculateTopGenres]. *)
Definition totalMinutes (history : list TautulliHistoryRecord) : Q :=
  fold_left (fun sum r => sum + minutesOf r)%Q history 0%Q.

Definition genreStats (history : list TautulliHistoryRecord)
  : list (string * GenreStats) :=
  fold_left
    (fun o r =>
       fold_left
         (fun o genre =>
            upsert string_eq_dec o genre
              {| gs_count := 0; gs_minutes := 0 |}
              (fun g => {| gs_count := gs_count g + 1;
                           gs_minutes := gs_minutes g + minutesOf r |}))
         (orNil (genres r)) o)
    history [].

Definition rankedGenres (history : list TautulliHistoryRecord)
  : list (string * GenreStats) :=
  JS.slice0 10
    (JS.sort (byDescendingQ (fun e => gs_minutes (snd e)))
       (JS.Object_entries JS.string_index (genreStats history))).

(** The arrow function of the final [map]. *)
Definition toTopGenre (totalMinutes : Q) (e : string * GenreStats) : TopGenre.t :=
  let '(genre, stats) := e in
  {| TopGenre.genre := genre;
     TopGenre.count := gs_count stats;
     TopGenre.minutes := JS.Math_round (gs_minutes stats);
     TopGenre.percentage :=
       JS.toFixed1
         (JS.times (JS.div (gs_minutes stats) totalMinutes) 100) |}.

Definition calculateTopGenres (history : list TautulliHistoryRecord)
  : list TopGenre.t :=
  map (toTopGenre (totalMinutes history)) (rankedGenres history).

(** One of the two dictionaries of [calculateTopPeople]; [people] selects
    [r.actors] or [r.directors]. *)
Definition personCounts (people : TautulliHistoryRecord -> option (list string))
    (history : list TautulliHistoryRecord) : list (string * PersonCounts) :=
  fold_left
    (fun o r =>
       fold_left
         (fun o person =>
            upsert string_eq_dec o person
              {| pc_count := 0; pc_titles := [] |}
              (fun p => {| pc_count := pc_count p + 1;
                           pc_titles :=
                             JS.Set_add string_eq_dec (pc_titles p) (title r) |}))
         (orNil (people r)) o)
    history [].

Definition rankedPeople (people : TautulliHistoryRecord -> option (list string))
    (history : list TautulliHistoryRecord) : list (string * PersonCounts) :=
  JS.slice0 5
    (JS.sort (byDescending (fun e => pc_count (snd e)))
       (JS.Object_entries JS.string_index (personCounts people history))).

(** The arrow function of the final [map]. *)
Definition toTopPerson (e : string * PersonCounts) : TopPerson.t :=
  let '(name, data) := e in
  {| TopPerson.name := name;
     TopPerson.count := pc_count data;
     TopPerson.titles := JS.slice0 5 (pc_titles data) |}.

Definition topPeople (people : TautulliHistoryRecord -> option (list string))
    (history : list TautulliHistoryRecord) : list TopPerson.t :=
  map toTopPerson (rankedPeople people history).

Module TopPeople.
Record t : Type := {
  topActors : list TopPerson.t; topDirectors : list TopPerson.t }.
End TopPeople.

Definition calculateTopPeople (history : list TautulliHistoryRecord) : TopPeople.t :=
  {| TopPeople.topActors := topPeople actors history;
     TopPeople.topDirectors := topPeople directors history |}.

(** ** Devices, platforms and playback quality *)

Definition deviceKey (r : TautulliHistoryRecord) : string :=
  (player r ++ "-" ++ platform r)%string.

Definition deviceStats (history : list TautulliHistoryRecord)
  : list (string * DeviceAcc) :=
  fold_left
    (fun o r =>
       upsert string_eq_dec o (deviceKey r)
         {| da_plays := 0; da_minutes := 0; da_platform := platform r |}
         (fun d => {| da_plays := da_plays d + 1;
                      da_minutes := da_minutes d + minutesOf r;
                      da_platform := da_platform d |}))
    history [].

Definition platformStats (history : list TautulliHistoryRecord)
  : list (string * PlatformAcc) :=
  fold_left
    (fun o r =>
       upsert string_eq_dec o (platform r)
         {| pa_plays := 0; pa_minutes := 0 |}
         (fun p => {| pa_plays := pa_plays p + 1;
                      pa_minutes := pa_minutes p + minutesOf r |}))
    history [].

(** [r.transcode_decision === s]. *)
Definition decisionIs (r : TautulliHistoryRecord) (s : string) : bool :=
  match transcode_decision r with
  | Some d => String.eqb d s
  | None => false
  end.

(** One iteration of the quality part of the [forEach]. *)
Definition qualityStep (q : QualityStats.t) (r : TautulliHistoryRecord)
  : QualityStats.t :=
  let q1 :=
    if decisionIs r "transcode" then
      {| QualityStats.directPlay := QualityStats.directPlay q;
         QualityStats.transcode := QualityStats.transcode q + 1;
         QualityStats.directStream := QualityStats.directStream q;
         QualityStats.resolutions := QualityStats.resolutions q |}
    else if decisionIs r "copy" then
      {| QualityStats.directPlay := QualityStats.directPlay q;
         QualityStats.transcode := QualityStats.transcode q;
         QualityStats.directStream := QualityStats.directStream q + 1;
         QualityStats.resolutions := QualityStats.resolutions q |}
    else
      {| QualityStats.directPlay := QualityStats.directPlay q + 1;
         QualityStats.transcode := QualityStats.transcode q;
         QualityStats.directStream := QualityStats.directStream q;
         QualityStats.resolutions := QualityStats.resolutions q |} in
  let res := orString (stream_video_resolution r) "unknown" in
  {| QualityStats.directPlay := QualityStats.directPlay q1;
     QualityStats.transcode := QualityStats.transcode q1;
     QualityStats.directStream := QualityStats.directStream q1;
     QualityStats.resolutions := bumpAny (QualityStats.resolutions q1) res |}.

Definition emptyQuality : QualityStats.t :=
  {| QualityStats.directPlay := 0; QualityStats.transcode := 0;
     QualityStats.directStream := 0; QualityStats.resolutions := [] |}.

Definition qualityStats (history : list TautulliHistoryRecord) : QualityStats.t :=
  fold_left qualityStep history emptyQuality.

Definition rankedDevices (history : list TautulliHistoryRecord)
  : list (string * DeviceAcc) :=
  JS.slice0 5
    (JS.sort (byDescending (fun e => da_plays (snd e)))
       (JS.Object_entries JS.string_index (deviceStats history))).

(** The arrow function of the final [map]. *)
Definition toDeviceStat (e : string * DeviceAcc) : DeviceStat.t :=
  let '(device, stats) := e in
  {| DeviceStat.device := JS.split0 "-" device;
     DeviceStat.platform := da_platform stats;
     DeviceStat.plays := da_plays stats;
     DeviceStat.minutes := JS.Math_round (da_minutes stats) |}.

Definition topDevices (history : list TautulliHistoryRecord) : list DeviceStat.t :=
  map toDeviceStat (rankedDevices history).

Definition rankedPlatforms (history : list TautulliHistoryRecord)
  : list (string * PlatformAcc) :=
  JS.slice0 5
    (JS.sort (byDescending (fun e => pa_plays (snd e)))
       (JS.Object_entries JS.string_index (platformStats history))).

(** The arrow function of the final [map]. *)
Definition toPlatformStat (e : string * PlatformAcc) : PlatformStat.t :=
  let '(platform, stats) := e in
  {| PlatformStat.platform := platform;
     PlatformStat.plays := pa_plays stats;
     PlatformStat.minutes := JS.Math_round (pa_minutes stats) |}.

Definition topPlatforms (history : list TautulliHistoryRecord) : list PlatformStat.t :=
  map toPlatformStat (rankedPlatforms history).

Module DeviceStats.
Record t : Type := {
topDevices : list DeviceStat.t; topPlatforms : list PlatformStat.t;
qualityStats : QualityStats.t }.
End DeviceStats.

Definition calculateDeviceStats (history : list TautulliHistoryRecord) : DeviceStats.t :=
  {| DeviceStats.topDevices := topDevices history;
     DeviceStats.topPlatforms := topPlatforms history;
     DeviceStats.qualityStats := qualityStats history |}.

(** ** Fun facts and badges *)

Definition isTruthyQ (x : option Q) : bool :=
  match x with Some q => negb (Qeq_bool q 0) | None => false end.

Definition showName (s : option string) : string :=
  match s with Some n => n | None => "null" end.

Definition generateFunFacts (history : list TautulliHistoryRecord)
    (basicStats : BasicStats.t) (patterns : ViewingPatterns.t)
    (overseerrStats : option OverseerrUserRequestStats) : list string :=
  let facts := [] in
  let facts :=
    if 180 <? ViewingPatterns.longestBingeMinutes patterns
    then facts ++
         [("Marathon Master - Binged "
             ++ showName (ViewingPatterns.longestBingeShow patterns) ++ " for "
             ++ JS.toString
                  (JS.Math_round
                     (inject_Z (ViewingPatterns.longestBingeMinutes patterns) / 60))
             ++ " hours!")%string]
    else facts in
  let facts :=
    if (22 <=? ViewingPatterns.mostActiveHour patterns)
       || (ViewingPatterns.mostActiveHour patterns <=? 4)
    then facts ++
         [("Night Owl - Most active viewing at "
             ++ JS.toString (ViewingPatterns.mostActiveHour patterns) ++ ":00")%string]
    else facts in
  let facts :=
    if (5 <=? ViewingPatterns.mostActiveHour patterns)
       && (ViewingPatterns.mostActiveHour patterns <=? 8)
    then facts ++
         [("Early Bird - Started the day with content at "
             ++ JS.toString (ViewingPatterns.mostActiveHour patterns)
             ++ ":00 AM")%string]
    else facts in
  let facts :=
    if 300 <? BasicStats.daysActive basicStats
    then facts ++
         [("Dedicated Viewer - Active on "
             ++ JS.toString (BasicStats.daysActive basicStats)
             ++ " days this year!")%string]
    else facts in
  let facts :=
    if 500 <? BasicStats.totalTvEpisodes basicStats
    then facts ++
         [("TV Enthusiast - Watched "
             ++ JS.toString (BasicStats.totalTvEpisodes basicStats)
             ++ " episodes this year")%string]
    else facts in
  let facts :=
    if 100 <? BasicStats.totalMovies basicStats
    then facts ++
         [("Movie Buff - Watched "
             ++ JS.toString (BasicStats.totalMovies basicStats)
             ++ " movies this year")%string]
    else facts in
  let facts :=
    match overseerrStats with
    | Some o =>
        if 20 <? totalRequests o
        then facts ++
             [("Content Curator - Requested "
                 ++ JS.toString (totalRequests o) ++ " new titles")%string]
        else facts
    | None => facts
    end in
  let facts :=
    match overseerrStats with
    | Some o =>
        match averageApprovalTimeHours o with
        | Some hours =>
            if isTruthyQ (Some hours) && negb (Qle_bool 2 hours)
            then facts ++
                 [("VIP Treatment - Average request approval in "
                     ++ JS.toString (JS.Math_round hours) ++ " hours")%string]
            else facts
        | None => facts
        end
    | None => facts
    end in
  facts.

Definition generateBadges (history : list TautulliHistoryRecord)
    (basicStats : BasicStats.t) (patterns : ViewingPatterns.t)
    (overseerrStats : option OverseerrUserRequestStats) : list Badge.t :=
  let badges := [] in
  let badges :=
    if 240 <? ViewingPatterns.longestBingeMinutes patterns
    then badges ++
         [{| Badge.name := "Marathon Master";
             Badge.description := "Binged for over 4 hours straight";
             Badge.icon := "üèÉ" |}]
    else badges in
  let badges :=
    if 30 <? ViewingPatterns.longestStreakDays patterns
    then badges ++
         [{| Badge.name := "Consistent Viewer";
             Badge.description :=
               (JS.toString (ViewingPatterns.longestStreakDays patterns)
                  ++ " day viewing streak")%string;
             Badge.icon := "üî•" |}]
    else badges in
  let badges :=
    if 500 <? BasicStats.totalTvEpisodes basicStats
    then badges ++
         [{| Badge.name := "TV Fanatic";
             Badge.description := "Watched over 500 episodes";
             Badge.icon := "üì∫" |}]
    else badges in
  let badges :=
    if 100 <? BasicStats.totalMovies basicStats
    then badges ++
         [{| Badge.name := "Cinema Enthusiast";
             Badge.description := "Watched over 100 movies";
             Badge.icon := "üé¨" |}]
    else badges in
  let badges :=
    match overseerrStats with
    | Some o =>
        if 50 <? totalRequests o
        then badges ++
             [{| Badge.name := "Content Curator";
                 Badge.description := "Requested over 50 titles";
                 Badge.icon := "üìù" |}]
        else badges
    | None => badges
    end in
  badges.

(** ** Monthly breakdown and fun statistics *)

Definition monthlyData (tzOffset : Z -> Z) (history : list TautulliHistoryRecord)
  : list (string * PlatformAcc) :=
  fold_left
    (fun o r =>
       let month := DateFns.format_yyyy_MM tzOffset (started r) in
       let monthName := DateFns.format_MMMM tzOffset (started r) in
       let key := (month ++ "|" ++ monthName)%string in
       upsert string_eq_dec o key
         {| pa_plays := 0; pa_minutes := 0 |}
         (fun p => {| pa_plays := pa_plays p + 1;
                      pa_minutes := pa_minutes p + minutesOf r |}))
    history [].

(** [a.month.localeCompare(b.month) > 0] on rendered months. *)
Definition monthAfter (a b : MonthlyStat.t) : bool :=
  match String.compare (MonthlyStat.month a) (MonthlyStat.month b) with
  | Gt => true
  | _ => false
  end.

Definition calculateMonthlyStats (tzOffset : Z -> Z)
    (history : list TautulliHistoryRecord) : list MonthlyStat.t :=
  JS.sort monthAfter
    (map (fun e =>
            let '(key, stats) := e in
            {| MonthlyStat.month := JS.split0 "|" key;
               MonthlyStat.monthName := JS.split1 "|" key;
               MonthlyStat.plays := pa_plays stats;
               MonthlyStat.minutes := JS.Math_round (pa_minutes stats) |})
         (JS.Object_entries JS.string_index (monthlyData tzOffset history))).

Module FunStats.
Record t : Type := {
percentageOfLibraryWatched : Z; totalSeasonsCompleted : Z; rewatches : Z;
firstWatchTitle : option string; firstWatchDate : option Date;
lastWatchTitle : option string; lastWatchDate : option Date;
mostMemorableDayDate : option Date; mostMemorableDayMinutes : Z }.
End FunStats.

Definition contentPlays (history : list TautulliHistoryRecord) : list (Z * Z) :=
  fold_left (fun o r => bump Z.eq_dec o (rating_key r)) history [].

Definition dayStats (tzOffset : Z -> Z) (history : list TautulliHistoryRecord)
  : list (Z * DayAcc) :=
  fold_left
    (fun o r =>
       let day := DateFns.localDay tzOffset (started r) in
       upsert Z.eq_dec o day
         {| dy_minutes := 0; dy_date := started r * 1000 |}
         (fun d => {| dy_minutes := dy_minutes d + minutesOf r;
                      dy_date := dy_date d |}))
    history [].

(** [r?.title || null]. *)
Definition titleOrNull (r : option TautulliHistoryRecord) : option string :=
  match r with
  | Some x => if String.eqb (title x) "" then None else Some (title x)
  | None => None
  end.

Definition calculateFunStats (tzOffset : Z -> Z)
    (history : list TautulliHistoryRecord) : FunStats.t :=
  let rewatches :=
    Z.of_nat (List.length
                (filter (fun count => 1 <? count)
                   (JS.Object_values JS.number_index (contentPlays history)))) in
  let sorted := JS.sort (byAscending started) history in
  let firstWatch := hd_error sorted in
  let lastWatch := nth_error sorted (List.length sorted - 1) in
  let mostMemorableDay :=
    hd_error (JS.sort (byDescendingQ dy_minutes)
                (JS.Object_values (@no_index Z) (dayStats tzOffset history))) in
  let totalSeasonsCompleted := 0 in
  {| FunStats.percentageOfLibraryWatched := 0;
     FunStats.totalSeasonsCompleted := totalSeasonsCompleted;
     FunStats.rewatches := rewatches;
     FunStats.firstWatchTitle := titleOrNull firstWatch;
     FunStats.firstWatchDate := option_map (fun r => started r * 1000) firstWatch;
     FunStats.lastWatchTitle := titleOrNull lastWatch;
     FunStats.lastWatchDate := option_map (fun r => started r * 1000) lastWatch;
     FunStats.mostMemorableDayDate := option_map dy_date mostMemorableDay;
     FunStats.mostMemorableDayMinutes :=
       JS.Math_round
         (match mostMemorableDay with Some d => dy_minutes d | None => 0%Q end) |}.

Definition getEmptyStats : ProcessedStats.t :=
  {| ProcessedStats.totalWatchTimeMinutes := 0;
     ProcessedStats.totalPlays := 0;
     ProcessedStats.totalMovies := 0;
     ProcessedStats.totalTvEpisodes := 0;
     ProcessedStats.uniqueMovies := 0;
     ProcessedStats.uniqueShows := 0;
     ProcessedStats.daysActive := 0;
     ProcessedStats.mostActiveMonth := "January";
     ProcessedStats.mostActiveDayOfWeek := "Saturday";
     ProcessedStats.mostActiveHour := 20;
     ProcessedStats.longestStreakDays := 0;
     ProcessedStats.longestBingeMinutes := 0;
     ProcessedStats.longestBingeShow := None;
     ProcessedStats.topMovies := [];
     ProcessedStats.topShows := [];
     ProcessedStats.topEpisodes := [];
     ProcessedStats.topGenres := [];
     ProcessedStats.topActors := [];
     ProcessedStats.topDirectors := [];
     ProcessedStats.topDevices := [];
     ProcessedStats.topPlatforms := [];
     ProcessedStats.qualityStats := emptyQuality;
     ProcessedStats.monthlyStats := [];
     ProcessedStats.contentSharedWith := 0;
     ProcessedStats.percentageOfLibraryWatched := 0;
     ProcessedStats.totalSeasonsCompleted := 0;
     ProcessedStats.rewatches := 0;
     ProcessedStats.firstWatchTitle := None;
     ProcessedStats.firstWatchDate := None;
     ProcessedStats.lastWatchTitle := None;
     ProcessedStats.lastWatchDate := None;
     ProcessedStats.mostMemorableDayDate := None;
     ProcessedStats.mostMemorableDayMinutes := 0;
     ProcessedStats.funFacts := [];
     ProcessedStats.badges := [];
     ProcessedStats.overseerrStats := None |}.

(** ** The orchestrator *)

(** [calculateUserStats] reads the clock and writes to the logger; both
    live in an explicit world threaded through the computation. *)
Module Effects.

Inductive Level : Type := LInfo | LWarn | LError.

Record World : Type := {
  clock : list Z;                (* successive readings of [Date.now()] *)
  logged : list (Level * string) (* lines written so far *)
}.

Definition M (A : Type) : Type := World -> A * World.

Definition ret {A : Type} (a : A) : M A := fun w => (a, w).

Definition bind {A B : Type} (c : M A) (k : A -> M B) : M B :=
  fun w => let '(a, w') := c w in k a w'.

Definition Date_now : M Z :=
  fun w =>
    match clock w with
    | t :: rest => (t, {| clock := rest; logged := logged w |})
    | [] => (0, w)
    end.

Definition logger (level : Level) (line : string) : M unit :=
  fun w => (tt, {| clock := clock w; logged := logged w ++ [(level, line)] |}).

End Effects.

Notation "x <- c ;; k" := (Effects.bind c (fun x => k))
  (at level 61, c at next level, right associativity).
Notation "c ;;; k" := (Effects.bind c (fun _ => k))
  (at level 61, right associativity).

(** Outcome of the curation-statistics collaborator for one invocation. *)
Inductive OverseerrService : Type :=
| Disabled
| Unreachable
| Responding (stats : OverseerrUserRequestStats).

Section Orchestrator.
Variable tzOffset : Z -> Z.

(** [history] is the value of [tautulli.getAllHistoryForYear(userId, year)]. *)
Definition calculateUserStats (userId year : Z)
    (history : list TautulliHistoryRecord) (overseerr : OverseerrService)
  : Effects.M ProcessedStats.t :=
  Effects.logger Effects.LInfo
    ("Calculating stats for user " ++ JS.toString userId ++ " for year "
       ++ JS.toString year)%string ;;;
  startTime <- Effects.Date_now ;;
  match history with
  | [] =>
      Effects.logger Effects.LWarn
        ("No history found for user " ++ JS.toString userId ++ " in year "
           ++ JS.toString year)%string ;;;
      Effects.ret getEmptyStats
  | _ :: _ =>
      let basicStats := calculateBasicStats tzOffset history in
      let viewingPatterns := calculateViewingPatterns tzOffset history in
      let topContent := calculateTopContent history in
      let topGenres := calculateTopGenres history in
      let topPeople := calculateTopPeople history in
      let deviceStats := calculateDeviceStats history in
      let monthlyStats := calculateMonthlyStats tzOffset history in
      let funStats := calculateFunStats tzOffset history in
      overseerrStats <-
        match overseerr with
        | Disabled => Effects.ret None
        | Unreachable =>
            Effects.logger Effects.LError "Failed to get Overseerr stats:" ;;;
            Effects.ret None
        | Responding stats => Effects.ret (Some stats)
        end ;;
      let funFacts := generateFunFacts history basicStats viewingPatterns overseerrStats in
      let badges := generateBadges history basicStats viewingPatterns overseerrStats in
      endTime <- Effects.Date_now ;;
      let duration := endTime - startTime in
      Effects.logger Effects.LInfo
        ("Stats calculation completed in " ++ JS.toString duration
           ++ "ms for user " ++ JS.toString userId)%string ;;;
      Effects.ret
        {| ProcessedStats.totalWatchTimeMinutes :=
             BasicStats.totalWatchTimeMinutes basicStats;
           ProcessedStats.totalPlays := BasicStats.totalPlays basicStats;
           ProcessedStats.totalMovies := BasicStats.totalMovies basicStats;
           ProcessedStats.totalTvEpisodes := BasicStats.totalTvEpisodes basicStats;
           ProcessedStats.uniqueMovies := BasicStats.uniqueMovies basicStats;
           ProcessedStats.uniqueShows := BasicStats.uniqueShows basicStats;
           ProcessedStats.daysActive := BasicStats.daysActive basicStats;
           ProcessedStats.mostActiveMonth :=
             ViewingPatterns.mostActiveMonth viewingPatterns;
           ProcessedStats.mostActiveDayOfWeek :=
             ViewingPatterns.mostActiveDayOfWeek viewingPatterns;
           ProcessedStats.mostActiveHour :=
             ViewingPatterns.mostActiveHour viewingPatterns;
           ProcessedStats.longestStreakDays :=
             ViewingPatterns.longestStreakDays viewingPatterns;
           ProcessedStats.longestBingeMinutes :=
             ViewingPatterns.longestBingeMinutes viewingPatterns;
           ProcessedStats.longestBingeShow :=
             ViewingPatterns.longestBingeShow viewingPatterns;
           ProcessedStats.topMovies := TopContent.topMovies topContent;
           ProcessedStats.topShows := TopContent.topShows topContent;
           ProcessedStats.topEpisodes := TopContent.topEpisodes topContent;
           ProcessedStats.topGenres := topGenres;
           ProcessedStats.topActors := TopPeople.topActors topPeople;
           ProcessedStats.topDirectors := TopPeople.topDirectors topPeople;
           ProcessedStats.topDevices := DeviceStats.topDevices deviceStats;
           ProcessedStats.topPlatforms := DeviceStats.topPlatforms deviceStats;
           ProcessedStats.qualityStats := DeviceStats.qualityStats deviceStats;
           ProcessedStats.monthlyStats := monthlyStats;
           ProcessedStats.contentSharedWith := 0;
           ProcessedStats.percentageOfLibraryWatched :=
             FunStats.percentageOfLibraryWatched funStats;
           ProcessedStats.totalSeasonsCompleted :=
             FunStats.totalSeasonsCompleted funStats;
           ProcessedStats.rewatches := FunStats.rewatches funStats;
           ProcessedStats.firstWatchTitle := FunStats.firstWatchTitle funStats;
           ProcessedStats.firstWatchDate := FunStats.firstWatchDate funStats;
           ProcessedStats.lastWatchTitle := FunStats.lastWatchTitle funStats;
           ProcessedStats.lastWatchDate := FunStats.lastWatchDate funStats;
           ProcessedStats.mostMemorableDayDate :=
             FunStats.mostMemorableDayDate funStats;
           ProcessedStats.mostMemorableDayMinutes :=
             FunStats.mostMemorableDayMinutes funStats;
           ProcessedStats.funFacts := funFacts;
           ProcessedStats.badges := badges;
           ProcessedStats.overseerrStats := overseerrStats |}
  end.

(** The report of one run, the world left aside. *)
Definition report (userId year : Z) (history : list TautulliHistoryRecord)
    (overseerr : OverseerrService) (w : Effects.World) : ProcessedStats.t :=
  fst (calculateUserStats userId year history overseerr w).
End Orchestrator.

(* ================================================================== *)
(** * A sample record                                                  *)
(* ================================================================== *)

(** A play of the given kind, rating key, show key, titles, start, stop
    and duration; the other fields at fixed values. *)
Definition play (kind : MediaType) (key show : Z) (name showName : string)
    (start stop dur : Z) : TautulliHistoryRecord :=
  {| started := start; stopped := stop; duration := dur;
     platform := "Roku"; player := "TV";
     media_type := kind; rating_key := key; grandparent_rating_key := show;
     title := name; grandparent_title := showName; year := 2024;
     media_index := 1; parent_media_index := 1;
     thumb := "/t"; grandparent_thumb := "/g";
     transcode_decision := Some "direct play"%string;
     stream_video_resolution := Some "1080"%string;
     genres := None; directors := None; actors := None |}.

(* ================================================================== *)
(** * Order of appearance in a list                                    *)
(* ================================================================== *)

(** [precedes l a b]: some occurrence of [a] in [l] comes before some
    occurrence of [b]. *)
Inductive precedes {A : Type} : list A -> A -> A -> Prop :=
| precedes_here : forall a b l, In b l -> precedes (a :: l) a b
| precedes_later : forall x a b l, precedes l a b -> precedes (x :: l) a b.

(** [first_seen_before l a b]: the first occurrence of [a] in [l] comes
    before any occurrence of [b]. *)
Definition first_seen_before {A : Type} (l : list A) (a b : A) : Prop :=
  exists l1 l2, l = l1 ++ a :: l2 /\ ~ In a l1 /\ ~ In b l1 /\ a <> b.

(** Enumeration order of two own property keys: array indices first, in
    ascending order, then the other keys in order of creation. *)
Definition own_property_order {K : Type} (index : K -> option N)
    (seen : list K) (ka kb : K) : Prop :=
  match index ka, index kb with
  | Some i, Some j => (i < j)%N
  | Some _, None => True
  | None, Some _ => False
  | None, None => first_seen_before seen ka kb
  end.




(* ================================================================== *)
(** * Notions used to state the properties, and sample histories       *)
(* ================================================================== *)







Definition isMovie (r : TautulliHistoryRecord) : bool :=
  MediaType_eqb (media_type r) movie.

Definition isEpisode (r : TautulliHistoryRecord) : bool :=
  MediaType_eqb (media_type r) episode.

(** An idle world: no clock readings left, nothing logged. *)
Definition idle : Effects.World := {| Effects.clock := []; Effects.logged := [] |}.

(** Two movies played once each, the one with the larger rating key
    first. *)
Definition twoMovies : list TautulliHistoryRecord :=
  [ play movie 2 0 "Brazil" "" 1704067200 1704070800 3600;
    play movie 1 0 "Alien" "" 1704153600 1704157200 3600 ].

(** The well-formedness the specification asks of an event. *)
Definition wellFormed_spec (r : TautulliHistoryRecord) : bool :=
  (0 <=? duration r) && (started r <=? stopped r).

(** The normalizer the specification describes: keep the well-formed
    events, in order. *)
Definition normalize_spec (history : list TautulliHistoryRecord)
  : list TautulliHistoryRecord :=
  filter wellFormed_spec history.

(** One play with a negative duration that stops before it starts. *)
Definition malformedPlay : list TautulliHistoryRecord :=
  [ play movie 1 0 "Alien" "" 1704070800 1704067200 (-60) ].

(** Number of events whose value on an axis is [k]. *)
Definition occurrences {K : Type} (eq_dec : forall a b : K, {a = b} + {a <> b})
    (k : K) (axis : list K) : Z :=
  Z.of_nat (count_occ eq_dec axis k).

(** [best] is a peak of [axis]: it occurs, no value occurs more often,
    and it wins against every other value occurring as often by [tie]. *)
Definition peak {K : Type} (eq_dec : forall a b : K, {a = b} + {a <> b})
    (axis : list K) (best : K) (tie : K -> K -> Prop) : Prop :=
  In best axis /\
  forall k,
    occurrences eq_dec k axis <= occurrences eq_dec best axis
    /\ (occurrences eq_dec k axis = occurrences eq_dec best axis ->
        k <> best -> tie best k).

(** Position of a name in a list of names. *)
Fixpoint position (names : list string) (s : string) : nat :=
  match names with
  | [] => O
  | n :: names' => if String.eqb n s then O else S (position names' s)
  end.

(** The weekday name read by [calculateViewingPatterns]. *)
Definition dayNameOf (tzOffset : Z -> Z) (r : TautulliHistoryRecord) : string :=
  nth (Z.to_nat (DateFns.getDay tzOffset (started r))) dayNames "undefined"%string.

(** A frequency table: [o[key(r)] = (o[key(r)] || 0) + 1] for each record. *)
Definition tally {K R : Type} (eq_dec : forall a b : K, {a = b} + {a <> b})
    (key : R -> K) (rs : list R) : list (K * Z) :=
  fold_left (fun o r => bump eq_dec o (key r)) rs [].

(** A play on Monday 2024-02-05 followed by one on Sunday 2024-01-07,
    both at midnight UTC. *)
Definition februaryThenJanuary : list TautulliHistoryRecord :=
  [ play movie 1 0 "Alien" "" 1707091200 1707094800 3600;
    play movie 2 0 "Brazil" "" 1704585600 1704589200 3600 ].

(** The sessions the specification describes for one show: its episodes
    in order of start, cut wherever the gap between one episode's stop
    and the next one's start exceeds 3600 seconds. *)
Fixpoint sessions_spec (sorted : list TautulliHistoryRecord)
  : list (list TautulliHistoryRecord) :=
  match sorted with
  | [] => []
  | e :: rest =>
      match rest with
      | [] => [[e]]
      | next :: _ =>
          if started next - stopped e <=? 3600
          then match sessions_spec rest with
               | s :: ss => (e :: s) :: ss
               | [] => [[e]]
               end
          else [e] :: sessions_spec rest
      end
  end.

(** Total minutes of a session. *)
Definition sessionMinutes_spec (s : list TautulliHistoryRecord) : Q :=
  fold_left (fun total e => total + minutesOf e)%Q s 0%Q.

(** Show title of a session (that of its last episode). *)
Definition sessionShow_spec (s : list TautulliHistoryRecord) : option string :=
  option_map grandparent_title (nth_error s (List.length s - 1)).

(** All sessions of a history, show by show. *)
Definition allSessions_spec (history : list TautulliHistoryRecord)
  : list (list TautulliHistoryRecord) :=
  flat_map (fun entry => sessions_spec (JS.sort (byAscending started) (snd entry)))
    (JS.Object_entries JS.number_index
       (groupByShow (filter isEpisode history))).

(** The best session total of a history, in whole minutes (0 when there
    is no session). *)
Definition maxSessionMinutes_spec (history : list TautulliHistoryRecord) : Z :=
  fold_left (fun best s => Z.max best (JS.Math_round (sessionMinutes_spec s)))
    (allSessions_spec history) 0.

(** One episode of show "X" lasting 624 s and, a day later, one episode
    of show "Y" lasting 618 s. *)
Definition twoShortSessions : list TautulliHistoryRecord :=
  [ play episode 10 1 "Pilot" "X" 1704067200 1704067824 624;
    play episode 20 2 "Pilot" "Y" 1704153600 1704154218 618 ].

(** Number of events satisfying a test. *)
Definition countIf (f : TautulliHistoryRecord -> bool)
    (history : list TautulliHistoryRecord) : Z :=
  Z.of_nat (List.length (filter f history)).

(** Sum of the frequencies of a table. *)
Definition total {K : Type} (o : list (K * Z)) : Z :=
  fold_right Z.add 0 (map snd o).


(** Number of distinct values of a list. *)
Definition distinct (l : list Z) : Z :=
  Z.of_nat (List.length (nodup Z.eq_dec l)).

(** A zone one hour east of UTC, without daylight saving. *)
Definition utcPlusOne : Z -> Z := fun _ => 3600.

(** Two plays on 2024-01-01, at 22:30 and at 23:30 UTC. *)
Definition lateEvening : list TautulliHistoryRecord :=
  [ play movie 1 0 "Alien" "" 1704148200 1704150000 1800;
    play movie 2 0 "Brazil" "" 1704151800 1704153600 1800 ].

(** [run dates start len]: the [len] consecutive calendar days from
    [start] on are all active. *)
Definition run (dates : list Z) (start len : Z) : Prop :=
  forall i, 0 <= i < len -> In (start + i) dates.

(** [n] is the length of the longest run of consecutive active days. *)
Definition longest_run_spec (dates : list Z) (n : Z) : Prop :=
  (exists start, run dates start n)
  /\ (forall start m, run dates start m -> m <= n).

(** Plays on 2024-01-01, 2024-01-02 and 2024-01-04 (UTC). *)
Definition threeActiveDays : list TautulliHistoryRecord :=
  [ play movie 1 0 "Alien" "" 1704103200 1704106800 3600;
    play movie 2 0 "Brazil" "" 1704189600 1704193200 3600;
    play movie 3 0 "Contact" "" 1704362400 1704366000 3600 ].

(** How often an event lists a genre. *)
Definition genreWeight (g : string) (r : TautulliHistoryRecord) : Z :=
  Z.of_nat (count_occ string_eq_dec (orNil (genres r)) g).

(** A genre's summed minutes: every event adds its minutes once for each
    time it lists the genre. *)
Definition genreMinutes_spec (g : string) (history : list TautulliHistoryRecord) : Q :=
  fold_right (fun r acc => inject_Z (genreWeight g r) * minutesOf r + acc)%Q
    0%Q history.

(** Total minutes across all events. *)
Definition totalMinutes_spec (history : list TautulliHistoryRecord) : Q :=
  fold_right (fun r acc => minutesOf r + acc)%Q 0%Q history.



(** A movie play of the given duration listed under the given genres. *)
Definition listed (dur : Z) (under : list string) : TautulliHistoryRecord :=
  {| started := 1704067200; stopped := 1704070800; duration := dur;
     platform := "Roku"; player := "TV";
     media_type := movie; rating_key := 1; grandparent_rating_key := 0;
     title := "Alien"; grandparent_title := ""; year := 1979;
     media_index := 0; parent_media_index := 0;
     thumb := "/t"; grandparent_thumb := "";
     transcode_decision := Some "direct play"%string;
     stream_video_resolution := Some "1080"%string;
     genres := Some under; directors := None; actors := None |}.

(** One hour-long play listed under two genres. *)
Definition twoGenres : list TautulliHistoryRecord :=
  [ listed 3600 ["Horror"; "Science Fiction"]%string ].




(** Minutes recorded so far for a genre. *)
Definition recorded (o : list (string * GenreStats)) (g : string) : Q :=
  match JS.get string_eq_dec o g with
  | Some s => gs_minutes s
  | None => 0%Q
  end.

Definition genreStep (r : TautulliHistoryRecord) (o : list (string * GenreStats))
    (genre : string) : list (string * GenreStats) :=
  upsert string_eq_dec o genre {| gs_count := 0; gs_minutes := 0 |}
    (fun g => {| gs_count := gs_count g + 1;
                 gs_minutes := gs_minutes g + minutesOf r |}).

(** Total duration of a history, in seconds. *)
Definition totalSeconds (history : list TautulliHistoryRecord) : Z :=
  fold_right Z.add 0 (map duration history).

(** ** Histories on which the arithmetic of the source is exact

    The source adds minutes as double-precision numbers, where this
    development adds rationals.  For a duration that is a non-negative
    multiple of 15 seconds, [duration / 60] is a multiple of a quarter;
    a double holds every multiple of a quarter below 2^51 exactly, so the
    sums and differences of such numbers, their comparisons and their
    [Math.round] are those of the rationals.  The bound on the total
    keeps every sum below 2^53 / 60. *)
Definition quarterMinutes (history : list TautulliHistoryRecord) : bool :=
  forallb (fun e => (0 <=? duration e) && (duration e mod 15 =? 0)) history.

Definition exactMinutes (history : list TautulliHistoryRecord) : bool :=
  quarterMinutes history && (totalSeconds history <=? 2 ^ 53).

(** Total duration of the genre listings: an event counts once for each
    genre it lists. *)
Definition listedSeconds (history : list TautulliHistoryRecord) : Z :=
  fold_right Z.add 0
    (map (fun e => duration e * Z.of_nat (List.length (orNil (genres e))))
       history).

Definition exactGenreMinutes (history : list TautulliHistoryRecord) : bool :=
  exactMinutes history && (listedSeconds history <=? 2 ^ 53).

(** No event of the history has a key that a plain object inherits. *)
Definition ownNames (key : TautulliHistoryRecord -> string)
    (history : list TautulliHistoryRecord) : bool :=
  forallb (fun e => negb (inheritedName (key e))) history.

(** Every event starts in a year that is written with four digits, in
    the time zone of the process: the rendered dates then sort as text
    in the order of the days, and are parsed back to the same days. *)
Definition fourDigitYears (tzOffset : Z -> Z)
    (history : list TautulliHistoryRecord) : bool :=
  forallb (fun e => (1000 <=? DateFns.getFullYear tzOffset (started e))
                    && (DateFns.getFullYear tzOffset (started e) <=? 9999))
    history.

(** Sum of an integer weight over the records with a given key. *)
Definition sumForZ {K R : Type} (eq_dec : forall a b : K, {a = b} + {a <> b})
    (key : R -> K) (weight : R -> Z) (k : K) (rs : list R) : Z :=
  fold_right (fun r acc => (if eq_dec (key r) k then weight r else 0) + acc) 0 rs.

(** Sum of a rational weight over the records with a given key. *)
Definition sumForQ {K R : Type} (eq_dec : forall a b : K, {a = b} + {a <> b})
    (key : R -> K) (weight : R -> Q) (k : K) (rs : list R) : Q :=
  fold_right (fun r acc => (if eq_dec (key r) k then weight r else 0) + acc)%Q
    0%Q rs.

(** Sum of an integer measure over the entries of a dictionary. *)
Definition sumEntries {K V : Type} (measure : V -> Z) (o : list (K * V)) : Z :=
  fold_right Z.add 0 (map (fun e => measure (snd e)) o).

(** The first record with a given key. *)
Definition firstFor {K R : Type} (eq_dec : forall a b : K, {a = b} + {a <> b})
    (key : R -> K) (k : K) (rs : list R) : option R :=
  find (fun r => if eq_dec (key r) k then true else false) rs.

(** The local calendar day of an event. *)
Definition dayOf (tzOffset : Z -> Z) (r : TautulliHistoryRecord) : Z :=
  DateFns.localDay tzOffset (started r).

(** Minutes watched on a local calendar day. *)
Definition dayMinutes (tzOffset : Z -> Z) (history : list TautulliHistoryRecord)
    (day : Z) : Q :=
  sumForQ Z.eq_dec (dayOf tzOffset) minutesOf day history.

(** What the pair ([longestBingeMinutes], [longestBingeShow]) satisfies
    at every point of the loop. *)
Definition bingeInvariant (episodes : list TautulliHistoryRecord)
    (best : Z * option string) : Prop :=
  0 <= fst best
  /\ (snd best = None -> fst best = 0)
  /\ (forall s, snd best = Some s ->
        exists e, In e episodes /\ grandparent_title e = s).

(** The enrichment statistics that reach the report. *)
Definition enrichmentOf (overseerr : OverseerrService)
  : option OverseerrUserRequestStats :=
  match overseerr with
  | Responding stats => Some stats
  | Disabled | Unreachable => None
  end.

(** A badge of the given name is listed. *)
Definition hasBadge (name : string) (badges : list Badge.t) : bool :=
  existsb (fun b => String.eqb (Badge.name b) name) badges.

(** A fun fact with the given heading is listed. *)
Definition hasFact (heading : string) (facts : list string) : bool :=
  existsb (String.prefix heading) facts.

(** [facts.push(x)] under [if (c)]. *)
Definition whenever {A : Type} (c : bool) (x : A) : list A :=
  if c then [x] else [].

(** The two facts on requests, each listed when its condition holds. *)
Definition curatedFacts (overseerrStats : option OverseerrUserRequestStats)
  : list string * list string :=
  match overseerrStats with
  | Some o =>
      (whenever (20 <? totalRequests o)
         ("Content Curator - Requested "
            ++ JS.toString (totalRequests o) ++ " new titles")%string,
       match averageApprovalTimeHours o with
       | Some hours =>
           whenever (isTruthyQ (Some hours) && negb (Qle_bool 2 hours))
             ("VIP Treatment - Average request approval in "
                ++ JS.toString (JS.Math_round hours) ++ " hours")%string
       | None => []
       end)
  | None => ([], [])
  end.


(** [r.stream_video_resolution || 'unknown']. *)
Definition resolutionOf (r : TautulliHistoryRecord) : string :=
  orString (stream_video_resolution r) "unknown".

(** The events counted in a resolution table: the sum of its numbers. *)
Definition countOf (v : Frequency) : Z :=
  match v with
  | Count n => n
  | MethodText _ => 0
  end.

Definition counted (o : list (string * Frequency)) : Z :=
  fold_right Z.add 0 (map (fun e => countOf (snd e)) o).

(** A table holds numbers under its plain keys and texts under the names
    of inherited methods. *)
Definition wellKinded (o : list (string * Frequency)) : Prop :=
  forall k v,
    JS.get string_eq_dec o k = Some v ->
    match v with
    | Count _ => inheritedName k = false
    | MethodText _ => inheritedMethod k = true
    end.

(** What a table that started empty holds under [k] after [n] events
    with that resolution. *)
Definition heldAfter (k : string) (n : nat) : option Frequency :=
  match n with
  | O => None
  | S _ =>
      if String.eqb k "__proto__" then None
      else if inheritedMethod k then Some (MethodText n)
      else Some (Count (Z.of_nat n))
  end.

(** Three half-hour plays of two episodes of show "X": the second
    episode starts ten minutes after the first has stopped, and the
    first is played again the day after. *)
Definition rewatchedEpisode : list TautulliHistoryRecord :=
  [ play episode 10 1 "Pilot" "X" 1704067200 1704069000 1800;
    play episode 11 1 "Second" "X" 1704069600 1704071400 1800;
    play episode 10 1 "Pilot" "X" 1704153600 1704155400 1800 ].

(** One play whose stream resolution is reported as 'constructor'. *)
Definition namedConstructor : list TautulliHistoryRecord :=
  [ {| started := 1704067200; stopped := 1704070800; duration := 3600;
       platform := "Roku"; player := "TV";
       media_type := movie; rating_key := 1; grandparent_rating_key := 0;
       title := "Alien"; grandparent_title := ""; year := 2024;
       media_index := 1; parent_media_index := 1;
       thumb := "/t"; grandparent_thumb := "/g";
       transcode_decision := Some "direct play"%string;
       stream_video_resolution := Some "constructor"%string;
       genres := None; directors := None; actors := None |} ].

(** A movie play that lists its cast. *)
Definition withCast : list TautulliHistoryRecord :=
  [ {| started := 1704067200; stopped := 1704074220; duration := 7020;
       platform := "Roku"; player := "TV";
       media_type := movie; rating_key := 1; grandparent_rating_key := 0;
       title := "Alien"; grandparent_title := ""; year := 1979;
       media_index := 0; parent_media_index := 0;
       thumb := "/t"; grandparent_thumb := "";
       transcode_decision := Some "direct play"%string;
       stream_video_resolution := Some "1080"%string;
       genres := Some ["Horror"; "Science Fiction"]%string;
       directors := Some ["Ridley Scott"]%string;
       actors := Some ["Sigourney Weaver"; "John Hurt"]%string |} ].

(** The key under which [calculateMonthlyStats] groups an event. *)
Definition monthKey (tzOffset : Z -> Z) (r : TautulliHistoryRecord) : string :=
  (DateFns.format_yyyy_MM tzOffset (started r) ++ "|"
     ++ DateFns.format_MMMM tzOffset (started r))%string.

(** [s.includes(c)] for a one-character [c]. *)
Fixpoint includes (c : ascii) (s : string) : bool :=
  match s with
  | EmptyString => false
  | String a s' => Ascii.eqb a c || includes c s'
  end.

(** The genre listings of a history: one pair for each genre an event
    lists, in the order of the events and of their lists. *)
Definition genreListings (history : list TautulliHistoryRecord)
  : list (string * TautulliHistoryRecord) :=
  flat_map (fun r => map (fun genre => (genre, r)) (orNil (genres r))) history.

(* ================================================================== *)
(** * The history service: one year's history, page by page            *)
(* ================================================================== *)

(** [Date.UTC(y, m - 1, d) / 86400000]: the day number, counted from
    1970-01-01, of a civil date of the proleptic Gregorian calendar. *)
Definition days_from_civil (y m d : Z) : Z :=
  let y := if m <=? 2 then y - 1 else y in
  let era := y / 400 in
  let yoe := y - era * 400 in
  let doy := (153 * (if 2 <? m then m - 3 else m + 9) + 2) / 5 + d - 1 in
  let doe := yoe * 365 + yoe / 4 - yoe / 100 + doy in
  era * 146097 + doe - 719468.

Module TautulliService.

(** The two bounds of [getAllHistoryForYear], for a year that the
    template literal renders with four digits (1000 to 9999), so that
    the date string is in the ISO format. *)
Definition startTimestamp (year : Z) : Z := days_from_civil year 1 1 * 86400.
Definition endTimestamp (year : Z) : Z := days_from_civil year 12 31 * 86400 + 86399.

Definition pageSize : Z := 1000.

Section History.
(** A history row, and [parseInt(record.date)] of it. *)
Variable Row : Type.
Variable date : Row -> Z.

Record TautulliHistory : Type := {
  data : list Row;
  recordsFiltered : Z
}.

(** [getUserHistory(userId, { start, length })] for the user at hand:
    the page served, or [None] when the call is rejected. *)
Variable getUserHistory : Z -> Z -> option TautulliHistory.

(** How an invocation ends: the promise is fulfilled, it is rejected, or
    the loop is still running when the steps allowed are used up. *)
Inductive Outcome : Type :=
| Fulfilled (allData : list Row)
| Rejected
| Running.

(** The test of the [filter] on a page. *)
Definition inYear (year : Z) (record : Row) : bool :=
  (startTimestamp year <=? date record) && (date record <=? endTimestamp year).

(** The [while (hasMore)] loop, one request for each unit of [fuel];
    the lines it logs are left out. *)
Fixpoint fetchPages (fuel : nat) (year : Z) (allData : list Row) (start : Z)
  : Outcome :=
  match fuel with
  | O => Running
  | S fuel' =>
      match getUserHistory start pageSize with
      | None => Rejected
      | Some result =>
          let yearData := filter (inYear year) (data result) in
          let allData := allData ++ yearData in
          let start := start + pageSize in
          let hasMore :=
            (Z.of_nat (List.length (data result)) =? pageSize)
            && (start <? recordsFiltered result) in
          if hasMore then fetchPages fuel' year allData start
          else Fulfilled allData
      end
  end.

Definition getAllHistoryForYear (fuel : nat) (year : Z) : Outcome :=
  fetchPages fuel year [] 0.

End History.

Arguments Rejected {Row}.
Arguments Running {Row}.

(** A server holding a fixed table of rows, which it serves in slices. *)
Definition tableServer {Row : Type} (table : list Row) (start length : Z)
  : option (TautulliHistory Row) :=
  Some {| data := firstn (Z.to_nat length) (skipn (Z.to_nat start) table);
          recordsFiltered := Z.of_nat (List.length table) |}.

End TautulliService.

(** The calendar year of a day within its 400-year era, from the day's
    position in the era (eras start on a first of March). *)
Definition yearOfEra (doe : Z) : Z :=
  let yoe := (doe - doe / 1460 + doe / 36524 - doe / 146096) / 365 in
  let doy := doe - (365 * yoe + yoe / 4 - yoe / 100) in
  let mp := (5 * doy + 2) / 153 in
  let m := if mp <? 10 then mp + 3 else mp - 9 in
  if m <=? 2 then yoe + 1 else yoe.

(** The position in its era of the first of January of a year of the
    era (the years 1 to 400 of the era start in it). *)
Definition januaryOfEra (c : Z) : Z :=
  365 * (c - 1) + (c - 1) / 4 - (c - 1) / 100 + 306.

(** Three rows dated 2023-12-31T23:59:59Z, 2024-01-01T00:00:00Z and
    2024-12-31T23:59:59Z, each row being its own date. *)
Definition aroundNewYear : list Z := [1704067199; 1704067200; 1735689599].

(* ================================================================== *)
(** * The error middleware                                             *)
(* ================================================================== *)

Module ErrorMiddleware.

(** An error as [errorHandler] reads it: [statusCode] and [code] may be
    missing, as they are on a plain [Error]. *)
Record ApiError : Type := {
  message : string;
  statusCode : option Z;
  code : option string
}.

(** [new Error(text)]. *)
Definition plainError (text : string) : ApiError :=
  {| message := text; statusCode := None; code := None |}.

(** What a call does: it returns a value or throws. *)
Inductive Attempt (A : Type) : Type :=
| Returns (value : A)
| Throws (error : ApiError).

Arguments Throws {A}.

(** The answer of [errorHandler]: the status and the two fields of its
    body that do not depend on the environment (the stack, added outside
    production, is left out). *)
Record ErrorResponse : Type := {
  status : Z;
  error : string;
  errorCode : string
}.

Definition errorHandler (err : ApiError) : ErrorResponse :=
  {| status :=
       match statusCode err with
       | Some c => if c =? 0 then 500 else c
       | None => 500
       end;
     error := orString (Some (message err)) "Internal server error";
     errorCode := orString (code err) "INTERNAL_ERROR" |}.

End ErrorMiddleware.

(* ================================================================== *)
(** * The health routes and the checks they call                       *)
(* ================================================================== *)

Module Health.

(** How an awaited promise settles; a rejection carries [error.message]. *)
Inductive Promise (A : Type) : Type :=
| Resolves (value : A)
| Rejects (message : option string).

Arguments Rejects {A}.

(** [await p.catch(() => fallback)]. *)
Definition catch {A : Type} (p : Promise A) (fallback : A) : A :=
  match p with
  | Resolves value => value
  | Rejects _ => fallback
  end.

Record ServiceHealth : Type := {
  healthy : bool;
  message : option string
}.

(** [redisHealthCheck] of the cache configuration; [client] is [None]
    when no client was created, and else holds how [client.ping()]
    settles. *)
Definition redisHealthCheck (client : option (Promise string)) : Promise bool :=
  match client with
  | None => Resolves false
  | Some (Resolves pong) => Resolves (String.eqb pong "PONG")
  | Some (Rejects _) => Resolves false
  end.

Record TautulliServerInfo : Type := {
  pms_name : string;
  pms_version : string
}.

(** [TautulliService.healthCheck]; [getServerInfo] is how
    [this.getServerInfo()] settles. *)
Definition healthCheck (getServerInfo : Promise TautulliServerInfo)
  : Promise ServiceHealth :=
  match getServerInfo with
  | Resolves serverInfo =>
      Resolves
        {| healthy := true;
           message := Some ("Connected to " ++ pms_name serverInfo ++ " v"
                              ++ pms_version serverInfo)%string |}
  | Rejects error_message =>
      Resolves {| healthy := false; message := error_message |}
  end.

(** The response of [GET /api/health/detailed]. *)
Record DetailedHealth : Type := {
  statusCode : Z;
  status : string;
  timestamp : string;
  database : ServiceHealth;
  redis : ServiceHealth;
  tautulli : ServiceHealth;
  overseerr : ServiceHealth;
  overseerrEnabled : bool
}.

(** The handler of [GET /api/health/detailed], once both services are
    at hand: [dbHealthCheck] and [overseerrHealthCheck] are how the
    checks of the database and of the request service settle, [now] is
    [new Date().toISOString()]. *)
Definition detailed (dbHealthCheck : Promise bool)
    (client : option (Promise string))
    (getServerInfo : Promise TautulliServerInfo)
    (overseerrHealthCheck : Promise ServiceHealth) (isEnabled : bool)
    (now : string) : DetailedHealth :=
  let database := catch dbHealthCheck false in
  let redis := catch (redisHealthCheck client) false in
  let tautulliCheck :=
    catch (healthCheck getServerInfo)
      {| healthy := false; message := Some "Connection failed"%string |} in
  let overseerrCheck :=
    catch overseerrHealthCheck
      {| healthy := false; message := Some "Connection failed"%string |} in
  let allHealthy := database && redis && healthy tautulliCheck in
  {| statusCode := if allHealthy then 200 else 503;
     status := if allHealthy then "healthy" else "unhealthy";
     timestamp := now;
     database :=
       {| healthy := database;
          message := Some (if database then "Connected" else "Disconnected")%string |};
     redis :=
       {| healthy := redis;
          message := Some (if redis then "Connected" else "Disconnected")%string |};
     tautulli :=
       {| healthy := healthy tautulliCheck; message := message tautulliCheck |};
     overseerr :=
       {| healthy := healthy overseerrCheck; message := message overseerrCheck |};
     overseerrEnabled := isEnabled |}.

(** [getRedisClient()]; [client] is [None] when no client was created. *)
Definition getRedisClient {Client : Type} (client : option Client)
  : ErrorMiddleware.Attempt Client :=
  match client with
  | Some c => ErrorMiddleware.Returns c
  | None =>
      ErrorMiddleware.Throws
        (ErrorMiddleware.plainError
           "Redis client not initialized. Call createRedisClient first.")
  end.

(** [getCacheService()], as far as it can fail: an instance made earlier
    is returned, a new one needs the client. *)
Definition getCacheService {Client : Type} (cacheServiceInstance : bool)
    (client : option Client) : ErrorMiddleware.Attempt unit :=
  if cacheServiceInstance then ErrorMiddleware.Returns tt
  else
    match getRedisClient client with
    | ErrorMiddleware.Returns _ => ErrorMiddleware.Returns tt
    | ErrorMiddleware.Throws err => ErrorMiddleware.Throws err
    end.

(** [new TautulliService()]: the constructor throws without a URL or an
    API key in the environment, and when it cannot get the cache
    service; [service] is the instance it builds otherwise. *)
Definition newTautulliService {Client Service : Type}
    (TAUTULLI_URL TAUTULLI_API_KEY : option string)
    (cacheServiceInstance : bool) (client : option Client)
    (service : Service) : ErrorMiddleware.Attempt Service :=
  let baseUrl := orString TAUTULLI_URL "" in
  let apiKey := orString TAUTULLI_API_KEY "" in
  if String.eqb baseUrl "" || String.eqb apiKey "" then
    ErrorMiddleware.Throws
      (ErrorMiddleware.plainError "Tautulli URL and API key are required")
  else
    match getCacheService cacheServiceInstance client with
    | ErrorMiddleware.Returns _ => ErrorMiddleware.Returns service
    | ErrorMiddleware.Throws err => ErrorMiddleware.Throws err
    end.

(** [getTautulliService()]: the instance made by an earlier call, or a
    new one. *)
Definition getTautulliService {Client Service : Type}
    (tautulliServiceInstance : option Service)
    (TAUTULLI_URL TAUTULLI_API_KEY : option string)
    (cacheServiceInstance : bool) (client : option Client)
    (service : Service) : ErrorMiddleware.Attempt Service :=
  match tautulliServiceInstance with
  | Some instance => ErrorMiddleware.Returns instance
  | None =>
      newTautulliService TAUTULLI_URL TAUTULLI_API_KEY cacheServiceInstance
        client service
  end.

(** The request service as the route uses it: how its [healthCheck]
    settles, and its [isEnabled()]. *)
Record OverseerrService : Type := {
  overseerrHealthCheck : Promise ServiceHealth;
  isEnabled : bool
}.

(** What the client of [GET /api/health/detailed] receives: the report
    of the handler, or the answer of [errorHandler] when the handler
    throws ([asyncHandler] passes the error on). *)
Inductive Answer : Type :=
| Detailed (response : DetailedHealth)
| Failed (response : ErrorMiddleware.ErrorResponse).

(** [GET /api/health/detailed]: the handler first asks for the two
    services, outside any [catch]; [tautulli] and [overseerr] are what
    [getTautulliService()] and [getOverseerrService()] do, the history
    service standing for how its [getServerInfo] settles. *)
Definition detailedRoute
    (tautulli : ErrorMiddleware.Attempt (Promise TautulliServerInfo))
    (overseerr : ErrorMiddleware.Attempt OverseerrService)
    (dbHealthCheck : Promise bool) (client : option (Promise string))
    (now : string) : Answer :=
  match tautulli with
  | ErrorMiddleware.Throws err => Failed (ErrorMiddleware.errorHandler err)
  | ErrorMiddleware.Returns getServerInfo =>
      match overseerr with
      | ErrorMiddleware.Throws err => Failed (ErrorMiddleware.errorHandler err)
      | ErrorMiddleware.Returns service =>
          Detailed
            (detailed dbHealthCheck client getServerInfo
               (overseerrHealthCheck service) (isEnabled service) now)
      end
  end.

(** The [reconnectStrategy] of the cache client: the delay before the
    next attempt, or [None] for the error that ends the attempts. *)
Definition reconnectStrategy (retries : Z) : option Z :=
  if 10 <? retries then None
  else Some (Z.min (retries * 100) 3000).

End Health.

(* ================================================================== *)
(** * Facts on the order of appearance                                 *)
(* ================================================================== *)

(** The listings of persons of a history: one pair for each person an
    event lists under [people], in the order of the events and of their
    lists. *)
Definition personListings (people : TautulliHistoryRecord -> option (list string))
    (history : list TautulliHistoryRecord)
  : list (string * TautulliHistoryRecord) :=
  flat_map (fun r => map (fun person => (person, r)) (orNil (people r))) history.

Section PrecedesFacts.
Context {A : Type}.

Lemma precedes_In_l : forall (l : list A) a b, precedes l a b -> In a l.
Proof. induction 1; simpl; auto. Qed.

Lemma precedes_In_r : forall (l : list A) a b, precedes l a b -> In b l.
Proof. induction 1; simpl; auto. Qed.

Lemma precedes_cons_inv : forall (x : A) l a b,
  precedes (x :: l) a b -> (a = x /\ In b l) \/ precedes l a b.
Proof. intros x l a b H; inversion H; subst; auto. Qed.

Lemma precedes_app_inv : forall (l1 l2 : list A) a b,
  precedes (l1 ++ l2) a b ->
  precedes l1 a b \/ precedes l2 a b \/ (In a l1 /\ In b l2).
Proof.
  induction l1 as [|x l1 IH]; simpl; intros l2 a b H.
  - auto.
  - apply precedes_cons_inv in H. destruct H as [[-> Hb] | H].
    + apply in_app_or in Hb. destruct Hb as [Hb | Hb].
      * left. now constructor.
      * right; right. split; simpl; auto.
    + destruct (IH _ _ _ H) as [H1 | [H2 | [Ha Hb]]].
      * left. now apply precedes_later.
      * auto.
      * right; right. simpl; auto.
Qed.

Lemma In_firstn : forall n (l : list A) x, In x (firstn n l) -> In x l.
Proof.
  induction n as [|n IH]; intros [|y l] x; simpl; try tauto.
  intros [-> | H]; auto.
Qed.


Lemma precedes_filter : forall (f : A -> bool) l a b,
  precedes (filter f l) a b -> precedes l a b.
Proof.
  induction l as [|x l IH]; simpl; intros a b H.
  - inversion H.
  - destruct (f x).
    + apply precedes_cons_inv in H. destruct H as [[-> Hb] | H].
      * constructor. apply filter_In in Hb. tauto.
      * apply precedes_later. auto.
    + apply precedes_later. auto.
Qed.

Lemma precedes_NoDup_neq : forall (l : list A) a b,
  NoDup l -> precedes l a b -> a <> b.
Proof.
  induction l as [|x l IH]; intros a b Hnd H.
  - inversion H.
  - inversion Hnd; subst. apply precedes_cons_inv in H.
    destruct H as [[-> Hb] | H].
    + intros ->. contradiction.
    + now apply IH.
Qed.

Lemma precedes_antisym : forall (l : list A) a b,
  NoDup l -> precedes l a b -> ~ precedes l b a.
Proof.
  induction l as [|x l IH]; intros a b Hnd H H'.
  - inversion H.
  - inversion Hnd; subst.
    apply precedes_cons_inv in H. apply precedes_cons_inv in H'.
    destruct H as [[-> Hb] | H], H' as [[-> Ha] | H'].
    + contradiction.
    + apply precedes_In_r in H'. contradiction.
    + apply precedes_In_r in H. contradiction.
    + exact (IH _ _ H3 H H').
Qed.
End PrecedesFacts.


Lemma precedes_map : forall {A B : Type} (f : A -> B) l a b,
  precedes l a b -> precedes (map f l) (f a) (f b).
Proof.
  induction 1; simpl.
  - constructor. now apply in_map.
  - now apply precedes_later.
Qed.

(* ================================================================== *)
(** * The stable sort                                                  *)
(* ================================================================== *)

Section SortFacts.
Context {A : Type}.
Variable after : A -> A -> bool.
Hypothesis after_asym : forall a b, after a b = true -> after b a = false.
Hypothesis after_ntrans :
  forall a b c, after a b = false -> after b c = false -> after a c = false.

Lemma insert_In : forall x (l : list A) y,
  In y (JS.insert after x l) <-> y = x \/ In y l.
Proof.
  induction l as [|z l IH]; simpl; intros y.
  - intuition.
  - destruct (after x z); simpl; rewrite ?IH; intuition.
Qed.

Lemma sort_In : forall (l : list A) y, In y (JS.sort after l) <-> In y l.
Proof.
  induction l as [|x l IH]; simpl; intros y.
  - tauto.
  - rewrite insert_In, IH. intuition.
Qed.

Lemma insert_length : forall x (l : list A),
  List.length (JS.insert after x l) = S (List.length l).
Proof.
  induction l as [|z l IH]; simpl; auto.
  destruct (after x z); simpl; auto.
Qed.

Lemma sort_length : forall l : list A,
  List.length (JS.sort after l) = List.length l.
Proof.
  induction l as [|x l IH]; simpl; auto.
  now rewrite insert_length, IH.
Qed.

Lemma insert_Permutation : forall x (l : list A),
  Permutation (x :: l) (JS.insert after x l).
Proof.
  induction l as [|z l IH]; simpl; auto.
  destruct (after x z); auto.
  eapply perm_trans; [apply perm_swap|]. now constructor.
Qed.

Lemma sort_Permutation : forall l : list A, Permutation l (JS.sort after l).
Proof.
  induction l as [|x l IH]; simpl; auto.
  eapply perm_trans; [|apply insert_Permutation]. now constructor.
Qed.

(** Where a pair of the result of an insertion comes from. *)
Lemma insert_precedes : forall x (s : list A) a b,
  (forall u v, precedes s u v -> after u v = false) ->
  precedes (JS.insert after x s) a b ->
  precedes s a b
  \/ (a = x /\ In b s /\ after x b = false)
  \/ (b = x /\ In a s /\ after x a = true).
Proof.
  induction s as [|y s IH]; simpl; intros a b Hs H.
  - apply precedes_cons_inv in H. destruct H as [[_ []] | H]; inversion H.
  - destruct (after x y) eqn:Hxy.
    + apply precedes_cons_inv in H. destruct H as [[-> Hb] | H].
      * apply insert_In in Hb. destruct Hb as [-> | Hb].
        -- right; right. simpl; auto.
        -- left. now constructor.
      * destruct (IH a b) as [H1 | [[-> [Hb Hab]] | [-> [Ha Hab]]]]; auto.
        -- intros u v Huv. apply Hs. now apply precedes_later.
        -- left. now apply precedes_later.
        -- right; left. simpl; auto.
        -- right; right. simpl; auto.
    + apply precedes_cons_inv in H. destruct H as [[-> Hb] | H]; auto.
      right; left. repeat split; auto.
      destruct Hb as [<- | Hb]; auto.
      apply after_ntrans with y; auto. apply Hs. now constructor.
Qed.

(** The result is ordered, and elements the comparator does not
    separate keep their relative order (stability). *)
Theorem sort_precedes : forall (l : list A) a b,
  precedes (JS.sort after l) a b ->
  after a b = false /\ (after b a = false -> precedes l a b).
Proof.
  induction l as [|x l IH]; simpl; intros a b H.
  - inversion H.
  - apply insert_precedes in H.
    + destruct H as [H | [[-> [Hb Hab]] | [-> [Ha Hab]]]].
      * destruct (IH _ _ H) as [H1 H2]. split; auto.
        intros Hba. apply precedes_later. auto.
      * split; auto. intros _. constructor. exact (proj1 (sort_In _ _) Hb).
      * split; auto. intros Hba. congruence.
    + intros u v Huv. now apply IH in Huv.
Qed.

(** The head of the sorted list is a maximal element, and the first of
    the maximal ones. *)
Lemma sort_head : forall (l : list A) h t e,
  JS.sort after l = h :: t -> In e l ->
  e = h \/ (after h e = false /\ (after e h = false -> precedes l h e)).
Proof.
  intros l h t e Hs He.
  apply sort_In in He. rewrite Hs in He. destruct He as [<- | He]; auto.
  right. apply sort_precedes. rewrite Hs. now constructor.
Qed.
End SortFacts.

Lemma sort_nonempty : forall {A : Type} (after : A -> A -> bool) (l : list A),
  l <> [] -> exists h t, JS.sort after l = h :: t.
Proof.
  intros A after l Hl.
  destruct (JS.sort after l) as [|h t] eqn:E; eauto.
  exfalso. apply Hl. apply (f_equal (@List.length A)) in E.
  rewrite sort_length in E. now destruct l.
Qed.

Lemma sort_map : forall {A B : Type} (f : A -> B) (after : B -> B -> bool) l,
  JS.sort after (map f l) = map f (JS.sort (fun a b => after (f a) (f b)) l).
Proof.
  induction l as [|x l IH]; simpl; auto.
  rewrite IH. generalize (JS.sort (fun a b => after (f a) (f b)) l).
  induction l0 as [|y s IHs]; simpl; auto.
  destruct (after (f x) (f y)); simpl; auto. now rewrite IHs.
Qed.

(* ================================================================== *)
(** * Sets and dictionaries                                            *)
(* ================================================================== *)

Section SetFacts.
Context {A : Type}.
Variable eq_dec : forall a b : A, {a = b} + {a <> b}.

Lemma Set_add_In : forall (s : list A) x y,
  In y (JS.Set_add eq_dec s x) <-> In y s \/ y = x.
Proof.
  intros s x y. unfold JS.Set_add.
  destruct (in_dec eq_dec x s) as [Hin | Hout].
  - split; [auto | intros [H | ->]; auto].
  - rewrite in_app_iff. simpl. intuition.
Qed.

Lemma Set_add_NoDup : forall (s : list A) x,
  NoDup s -> NoDup (JS.Set_add eq_dec s x).
Proof.
  intros s x Hs. unfold JS.Set_add.
  destruct (in_dec eq_dec x s) as [Hin | Hout]; auto.
  apply NoDup_app; auto.
  - repeat constructor. simpl. tauto.
  - intros y Hy [<- | []]. contradiction.
Qed.

Lemma fold_Set_add_In : forall (l acc : list A) y,
  In y (fold_left (JS.Set_add eq_dec) l acc) <-> In y acc \/ In y l.
Proof.
  induction l as [|x l IH]; simpl; intros acc y.
  - tauto.
  - rewrite IH, Set_add_In. intuition.
Qed.

Lemma fold_Set_add_NoDup : forall (l acc : list A),
  NoDup acc -> NoDup (fold_left (JS.Set_add eq_dec) l acc).
Proof.
  induction l as [|x l IH]; simpl; intros acc Hacc; auto.
  apply IH. now apply Set_add_NoDup.
Qed.

Lemma Set_of_In : forall (l : list A) y, In y (JS.Set_of eq_dec l) <-> In y l.
Proof. intros. unfold JS.Set_of. rewrite fold_Set_add_In. simpl. tauto. Qed.

Lemma Set_of_NoDup : forall l : list A, NoDup (JS.Set_of eq_dec l).
Proof. intros. apply fold_Set_add_NoDup. constructor. Qed.

Lemma first_seen_before_cons : forall (x : A) l a b,
  x <> a -> x <> b -> first_seen_before l a b -> first_seen_before (x :: l) a b.
Proof.
  intros x l a b Ha Hb [l1 [l2 [-> [H1 [H2 H3]]]]].
  exists (x :: l1), l2. simpl. intuition.
Qed.

(** Members are kept in order of first insertion. *)
Lemma fold_Set_add_precedes : forall (l acc : list A) a b,
  precedes (fold_left (JS.Set_add eq_dec) l acc) a b ->
  precedes acc a b
  \/ (In a acc /\ ~ In b acc /\ In b l)
  \/ (~ In a acc /\ ~ In b acc /\ first_seen_before l a b).
Proof.
  induction l as [|x l IH]; simpl; intros acc a b H; auto.
  apply IH in H. unfold JS.Set_add in H.
  destruct (in_dec eq_dec x acc) as [Hin | Hout].
  - destruct H as [H | [[Ha [Hb Hl]] | [Ha [Hb Hf]]]].
    + now left.
    + right; left. auto.
    + right; right. repeat split; auto.
      apply first_seen_before_cons; auto; intros ->; contradiction.
  - destruct H as [H | [[Ha [Hb Hl]] | [Ha [Hb Hf]]]].
    + apply precedes_app_inv in H. destruct H as [H | [H | [Ha Hb]]]; auto.
      * apply precedes_cons_inv in H. destruct H as [[_ []] | H]; inversion H.
      * destruct Hb as [<- | []]. right; left. auto.
    + rewrite in_app_iff in Ha, Hb. simpl in Ha, Hb.
      destruct Ha as [Ha | [<- | []]].
      * right; left. intuition.
      * right; right. repeat split; auto.
        exists [], l. simpl. repeat split; auto; intros ->; tauto.
    + rewrite in_app_iff in Ha, Hb. simpl in Ha, Hb.
      right; right. repeat split; auto.
      apply first_seen_before_cons; auto; intros ->; tauto.
Qed.

Lemma Set_of_precedes : forall (l : list A) a b,
  precedes (JS.Set_of eq_dec l) a b -> first_seen_before l a b.
Proof.
  intros l a b H. apply fold_Set_add_precedes in H.
  destruct H as [H | [[[] _] | [_ [_ H]]]]; auto. inversion H.
Qed.
End SetFacts.

Section ObjectFacts.
Context {K V : Type}.
Variable eq_dec : forall a b : K, {a = b} + {a <> b}.
Variable index : K -> option N.
Hypothesis index_inj :
  forall k1 k2 i, index k1 = Some i -> index k2 = Some i -> k1 = k2.

Lemma Set_add_head : forall (s : list K) k,
  JS.Set_add eq_dec (k :: s) k = k :: s.
Proof.
  intros s k. unfold JS.Set_add.
  destruct (in_dec eq_dec k (k :: s)) as [Hin | Hout]; auto.
  exfalso. apply Hout. now left.
Qed.

Lemma Set_add_tail : forall (s : list K) k k',
  k <> k' -> JS.Set_add eq_dec (k' :: s) k = k' :: JS.Set_add eq_dec s k.
Proof.
  intros s k k' Hne. unfold JS.Set_add.
  destruct (in_dec eq_dec k (k' :: s)) as [Hin | Hout];
    destruct (in_dec eq_dec k s) as [Hin' | Hout']; auto.
  - exfalso. destruct Hin as [E | Hin]; [now apply Hne | now apply Hout'].
  - exfalso. apply Hout. now right.
Qed.

Lemma set_keys : forall (o : list (K * V)) k v,
  map fst (JS.set eq_dec o k v) = JS.Set_add eq_dec (map fst o) k.
Proof.
  induction o as [|[k' v'] o IH]; intros k v.
  - reflexivity.
  - cbn [JS.set map fst]. destruct (eq_dec k k') as [-> | Hne].
    + cbn [map fst]. now rewrite Set_add_head.
    + cbn [map fst]. rewrite IH. now rewrite Set_add_tail.
Qed.

Lemma upsert_keys : forall (o : list (K * V)) k init update,
  map fst (upsert eq_dec o k init update) = JS.Set_add eq_dec (map fst o) k.
Proof.
  intros. unfold upsert. destruct (JS.get eq_dec o k); apply set_keys.
Qed.

Lemma get_In : forall (o : list (K * V)) k v,
  JS.get eq_dec o k = Some v -> In (k, v) o.
Proof.
  induction o as [|[k' v'] o IH]; simpl; intros k v H.
  - discriminate.
  - destruct (eq_dec k k') as [-> | Hne].
    + inversion H; subst. auto.
    + right. auto.
Qed.

Lemma get_None : forall (o : list (K * V)) k,
  JS.get eq_dec o k = None -> ~ In k (map fst o).
Proof.
  induction o as [|[k' v'] o IH]; simpl; intros k H.
  - tauto.
  - destruct (eq_dec k k') as [-> | Hne]; [discriminate|].
    intros [-> | Hin]; [tauto | now apply (IH k)].
Qed.

Lemma get_set : forall (o : list (K * V)) k v k',
  JS.get eq_dec (JS.set eq_dec o k v) k'
  = if eq_dec k' k then Some v else JS.get eq_dec o k'.
Proof.
  induction o as [|[k0 v0] o IH]; simpl; intros k v k'.
  - reflexivity.
  - destruct (eq_dec k k0) as [-> | Hne]; simpl.
    + destruct (eq_dec k' k0); auto.
    + destruct (eq_dec k' k0) as [-> | Hne'].
      * destruct (eq_dec k0 k); [congruence | auto].
      * apply IH.
Qed.

Lemma In_get : forall (o : list (K * V)) k v,
  NoDup (map fst o) -> In (k, v) o -> JS.get eq_dec o k = Some v.
Proof.
  induction o as [|[k0 v0] o IH]; simpl; intros k v Hnd Hin.
  - contradiction.
  - inversion Hnd; subst. destruct Hin as [E | Hin].
    + inversion E; subst. destruct (eq_dec k k); congruence.
    + destruct (eq_dec k k0) as [-> | Hne]; auto.
      exfalso. apply H1. change k0 with (fst (k0, v)). now apply in_map.
Qed.

End ObjectFacts.

Lemma NoDup_keys_entry : forall {K V : Type} (o : list (K * V)) a b,
  NoDup (map fst o) -> In a o -> In b o -> fst a = fst b -> a = b.
Proof.
  induction o as [|e o IH]; simpl; intros a b Hnd Ha Hb Hk.
  - contradiction.
  - inversion Hnd as [|? ? Hout Hnd']; subst.
    destruct Ha as [-> | Ha], Hb as [-> | Hb]; auto.
    + exfalso. apply Hout. rewrite Hk. now apply in_map.
    + exfalso. apply Hout. rewrite <- Hk. now apply in_map.
Qed.

Lemma NoDup_keys_NoDup : forall {K V : Type} (o : list (K * V)),
  NoDup (map fst o) -> NoDup o.
Proof. intros K V o. apply NoDup_map_inv. Qed.

Section EntriesFacts.
Context {K V : Type}.
Variable index : K -> option N.
Hypothesis index_inj :
  forall k1 k2 i, index k1 = Some i -> index k2 = Some i -> k1 = k2.

Lemma index_after_asym : forall a b : K * V,
  JS.index_after index a b = true -> JS.index_after index b a = false.
Proof.
  unfold JS.index_after. intros a b H.
  apply N.ltb_lt in H. apply N.ltb_ge. lia.
Qed.

Lemma index_after_ntrans : forall a b c : K * V,
  JS.index_after index a b = false -> JS.index_after index b c = false ->
  JS.index_after index a c = false.
Proof.
  unfold JS.index_after. intros a b c H1 H2.
  apply N.ltb_ge in H1, H2. apply N.ltb_ge. lia.
Qed.

Lemma entries_In : forall (o : list (K * V)) e,
  In e (JS.Object_entries index o) <-> In e o.
Proof.
  intros o e. unfold JS.Object_entries.
  rewrite in_app_iff, sort_In, !filter_In.
  destruct (JS.is_index index e); simpl; intuition congruence.
Qed.

Lemma entries_nonempty : forall o : list (K * V),
  o <> [] -> JS.Object_entries index o <> [].
Proof.
  intros [|e o] Hne H; [congruence|].
  assert (Hin : In e (JS.Object_entries index (e :: o)))
    by (apply entries_In; now left).
  rewrite H in Hin. contradiction.
Qed.

Lemma entries_length : forall o : list (K * V),
  List.length (JS.Object_entries index o) = List.length o.
Proof.
  intros o. unfold JS.Object_entries.
  rewrite length_app, sort_length.
  induction o as [|e o IH]; simpl; auto.
  destruct (JS.is_index index e); simpl; lia.
Qed.

(** Enumeration order of the own properties of a dictionary. *)
Lemma entries_precedes : forall (o : list (K * V)) a b,
  NoDup (map fst o) ->
  precedes (JS.Object_entries index o) a b ->
  match index (fst a), index (fst b) with
  | Some i, Some j => (i < j)%N
  | Some _, None => True
  | None, Some _ => False
  | None, None => precedes o a b
  end.
Proof.
  intros o a b Hnd H. unfold JS.Object_entries in H.
  apply precedes_app_inv in H. destruct H as [H | [H | [Ha Hb]]].
  - assert (Ha := precedes_In_l H). assert (Hb := precedes_In_r H).
    apply sort_In in Ha, Hb. apply filter_In in Ha, Hb.
    destruct Ha as [Ha Hia], Hb as [Hb Hib].
    assert (Hne : a <> b).
    { apply precedes_NoDup_neq with (2 := H).
      eapply Permutation_NoDup; [apply sort_Permutation|].
      apply NoDup_filter. now apply NoDup_keys_NoDup. }
    apply sort_precedes in H;
      [| exact index_after_asym | exact index_after_ntrans].
    destruct H as [H _]. unfold JS.index_after, JS.index_rank in H.
    unfold JS.is_index in Hia, Hib.
    destruct (index (fst a)) as [i|] eqn:Ei; [|discriminate].
    destruct (index (fst b)) as [j|] eqn:Ej; [|discriminate].
    apply N.ltb_ge in H.
    assert (i <> j).
    { intros ->. apply Hne. apply (NoDup_keys_entry o); auto.
      eapply index_inj; eauto. }
    lia.
  - assert (Ha := precedes_In_l H). assert (Hb := precedes_In_r H).
    apply filter_In in Ha, Hb. unfold JS.is_index in Ha, Hb.
    destruct Ha as [_ Hia], Hb as [_ Hib].
    destruct (index (fst a)); [discriminate|].
    destruct (index (fst b)); [discriminate|].
    eapply precedes_filter; eauto.
  - apply sort_In in Ha. apply filter_In in Ha, Hb.
    unfold JS.is_index in Ha, Hb.
    destruct Ha as [_ Hia], Hb as [_ Hib].
    destruct (index (fst a)); [|discriminate].
    destruct (index (fst b)); [discriminate|]. exact I.
Qed.

Variable eq_dec : forall a b : K, {a = b} + {a <> b}.

(** For a dictionary whose keys were created in the order of first
    appearance in [seen]. *)
Lemma entries_order : forall (o : list (K * V)) seen a b,
  map fst o = JS.Set_of eq_dec seen ->
  precedes (JS.Object_entries index o) a b ->
  own_property_order index seen (fst a) (fst b).
Proof.
  intros o seen a b Hk H.
  assert (Hnd : NoDup (map fst o)) by (rewrite Hk; apply Set_of_NoDup).
  apply entries_precedes in H; auto. unfold own_property_order.
  destruct (index (fst a)), (index (fst b)); auto.
  apply (precedes_map fst) in H. rewrite Hk in H.
  eapply Set_of_precedes; eauto.
Qed.
End EntriesFacts.

Lemma number_index_inj : forall k1 k2 i,
  JS.number_index k1 = Some i -> JS.number_index k2 = Some i -> k1 = k2.
Proof.
  unfold JS.number_index. intros k1 k2 i H1 H2.
  destruct ((0 <=? k1) && (k1 <? 4294967295)) eqn:E1; [|discriminate].
  destruct ((0 <=? k2) && (k2 <? 4294967295)) eqn:E2; [|discriminate].
  apply andb_true_iff in E1, E2.
  destruct E1 as [E1 _], E2 as [E2 _]. apply Z.leb_le in E1, E2.
  inversion H1; inversion H2; subst. lia.
Qed.

Lemma string_index_Some : forall s n,
  JS.string_index s = Some n ->
  s = NilZero.string_of_uint (N.to_uint n).
Proof.
  unfold JS.string_index. intros s n H.
  destruct (NilZero.uint_of_string s) as [u|]; [|discriminate].
  destruct ((N.of_uint u <? 4294967295)%N
            && String.eqb (NilZero.string_of_uint (N.to_uint (N.of_uint u))) s)
    eqn:E; [|discriminate].
  apply andb_true_iff in E. destruct E as [_ E].
  apply String.eqb_eq in E. inversion H; subst. now symmetry.
Qed.

Lemma string_index_inj : forall k1 k2 i,
  JS.string_index k1 = Some i -> JS.string_index k2 = Some i -> k1 = k2.
Proof.
  intros k1 k2 i H1 H2.
  apply string_index_Some in H1, H2. congruence.
Qed.

(** Keys of a dictionary filled by one [forEach]. *)
Lemma fold_keys : forall {K V R : Type}
    (eq_dec : forall a b : K, {a = b} + {a <> b})
    (step : list (K * V) -> R -> list (K * V)) (keysOf : R -> list K),
  (forall o r,
     map fst (step o r) = fold_left (JS.Set_add eq_dec) (keysOf r) (map fst o)) ->
  forall rs o,
    map fst (fold_left step rs o)
    = fold_left (JS.Set_add eq_dec) (flat_map keysOf rs) (map fst o).
Proof.
  intros K V R eq_dec step keysOf Hstep.
  induction rs as [|r rs IH]; simpl; intros o; auto.
  rewrite IH, Hstep, fold_left_app. reflexivity.
Qed.

Lemma flat_map_single : forall {A B : Type} (f : A -> B) l,
  flat_map (fun x => [f x]) l = map f l.
Proof. induction l; simpl; congruence. Qed.

Lemma fold_keys_single : forall {K V R : Type}
    (eq_dec : forall a b : K, {a = b} + {a <> b})
    (step : list (K * V) -> R -> list (K * V)) (key : R -> K),
  (forall o r, map fst (step o r) = JS.Set_add eq_dec (map fst o) (key r)) ->
  forall rs, map fst (fold_left step rs []) = JS.Set_of eq_dec (map key rs).
Proof.
  intros K V R eq_dec step key Hstep rs.
  rewrite (fold_keys eq_dec step (fun r => [key r])).
  - now rewrite flat_map_single.
  - intros o r. simpl. apply Hstep.
Qed.

(** An invariant of the entries of a dictionary filled by one [forEach]. *)
Lemma fold_get_invariant : forall {K V R : Type}
    (eq_dec : forall a b : K, {a = b} + {a <> b})
    (step : list (K * V) -> R -> list (K * V)) (P : K -> V -> Prop),
  (forall o r,
     (forall k v, JS.get eq_dec o k = Some v -> P k v) ->
     forall k v, JS.get eq_dec (step o r) k = Some v -> P k v) ->
  forall rs o,
    (forall k v, JS.get eq_dec o k = Some v -> P k v) ->
    forall k v, JS.get eq_dec (fold_left step rs o) k = Some v -> P k v.
Proof.
  intros K V R eq_dec step P Hstep.
  induction rs as [|r rs IH]; simpl; intros o Ho; auto.
  apply IH. now apply Hstep.
Qed.

(* ================================================================== *)
(** * Ranking: sort, slice, map                                        *)
(* ================================================================== *)

Lemma byDescending_asym : forall {A : Type} (m : A -> Z) a b,
  byDescending m a b = true -> byDescending m b a = false.
Proof.
  unfold byDescending. intros A m a b H.
  apply Z.ltb_lt in H. apply Z.ltb_ge. lia.
Qed.

Lemma byDescending_ntrans : forall {A : Type} (m : A -> Z) a b c,
  byDescending m a b = false -> byDescending m b c = false ->
  byDescending m a c = false.
Proof.
  unfold byDescending. intros A m a b c H1 H2.
  apply Z.ltb_ge in H1, H2. apply Z.ltb_ge. lia.
Qed.

Lemma byDescending_false : forall {A : Type} (m : A -> Z) a b,
  byDescending m a b = false <-> m b <= m a.
Proof.
  unfold byDescending. intros. rewrite Z.ltb_ge. lia.
Qed.

Lemma byDescendingQ_false : forall {A : Type} (m : A -> Q) a b,
  byDescendingQ m a b = false <-> (m b <= m a)%Q.
Proof.
  unfold byDescendingQ. intros A m a b.
  rewrite negb_false_iff, Qle_bool_iff. split; intros H; lra.
Qed.

Lemma byDescendingQ_asym : forall {A : Type} (m : A -> Q) a b,
  byDescendingQ m a b = true -> byDescendingQ m b a = false.
Proof.
  intros A m a b H. apply byDescendingQ_false.
  destruct (Qlt_le_dec (m a) (m b)) as [Hlt | Hle]; [lra|].
  apply byDescendingQ_false in Hle. congruence.
Qed.

Lemma byDescendingQ_ntrans : forall {A : Type} (m : A -> Q) a b c,
  byDescendingQ m a b = false -> byDescendingQ m b c = false ->
  byDescendingQ m a c = false.
Proof.
  intros A m a b c H1 H2. apply byDescendingQ_false in H1, H2.
  apply byDescendingQ_false. lra.
Qed.

Lemma byAscending_asym : forall {A : Type} (m : A -> Z) a b,
  byAscending m a b = true -> byAscending m b a = false.
Proof.
  unfold byAscending. intros A m a b H.
  apply Z.ltb_lt in H. apply Z.ltb_ge. lia.
Qed.

Lemma byAscending_ntrans : forall {A : Type} (m : A -> Z) a b c,
  byAscending m a b = false -> byAscending m b c = false ->
  byAscending m a c = false.
Proof.
  unfold byAscending. intros A m a b c H1 H2.
  apply Z.ltb_ge in H1, H2. apply Z.ltb_ge. lia.
Qed.


Section Ranking.
Context {K V : Type}.
Variable eq_dec : forall a b : K, {a = b} + {a <> b}.
Variable index : K -> option N.
Hypothesis index_inj :
  forall k1 k2 i, index k1 = Some i -> index k2 = Some i -> k1 = k2.




Lemma get_upsert : forall (o : list (K * V)) k init update k',
  JS.get eq_dec (upsert eq_dec o k init update) k'
  = if eq_dec k' k
    then Some (update (match JS.get eq_dec o k with
                       | Some v => v
                       | None => init
                       end))
    else JS.get eq_dec o k'.
Proof.
  intros. unfold upsert.
  destruct (JS.get eq_dec o k); apply get_set.
Qed.
End Ranking.

(* ================================================================== *)
(** * The report of a run, field by field                              *)
(* ================================================================== *)

Ltac run_orchestrator history overseerr w :=
  unfold report, calculateUserStats, Effects.bind, Effects.logger,
    Effects.Date_now, Effects.ret;
  destruct history; [| destruct overseerr ];
  destruct w as [[|? [|? ?]] ?]; cbn [fst snd Effects.clock Effects.logged].

Section ReportFields.
Variable tzOffset : Z -> Z.
Variables userId year : Z.
Variable history : list TautulliHistoryRecord.
Variable overseerr : OverseerrService.
Variable w : Effects.World.

Let r := report tzOffset userId year history overseerr w.

Lemma report_top_content :
  ProcessedStats.topMovies r = topMovies history
  /\ ProcessedStats.topShows r = topShows history
  /\ ProcessedStats.topEpisodes r = topEpisodes history
  /\ ProcessedStats.topGenres r = calculateTopGenres history.
Proof.
  subst r. run_orchestrator history overseerr w; repeat split; reflexivity.
Qed.

Lemma report_top_people_devices :
  ProcessedStats.topActors r = topPeople actors history
  /\ ProcessedStats.topDirectors r = topPeople directors history
  /\ ProcessedStats.topDevices r = topDevices history
  /\ ProcessedStats.topPlatforms r = topPlatforms history
  /\ ProcessedStats.qualityStats r = qualityStats history.
Proof.
  subst r. run_orchestrator history overseerr w; repeat split; reflexivity.
Qed.

Lemma report_basic :
  history <> [] ->
  ProcessedStats.totalPlays r
    = BasicStats.totalPlays (calculateBasicStats tzOffset history)
  /\ ProcessedStats.daysActive r
     = BasicStats.daysActive (calculateBasicStats tzOffset history).
Proof.
  intros Hne. subst r.
  run_orchestrator history overseerr w; try congruence;
    repeat split; reflexivity.
Qed.

Lemma report_patterns :
  history <> [] ->
  ProcessedStats.mostActiveMonth r
    = ViewingPatterns.mostActiveMonth (calculateViewingPatterns tzOffset history)
  /\ ProcessedStats.mostActiveDayOfWeek r
     = ViewingPatterns.mostActiveDayOfWeek
         (calculateViewingPatterns tzOffset history)
  /\ ProcessedStats.mostActiveHour r
     = ViewingPatterns.mostActiveHour (calculateViewingPatterns tzOffset history)
  /\ ProcessedStats.longestStreakDays r
     = ViewingPatterns.longestStreakDays
         (calculateViewingPatterns tzOffset history)
  /\ ProcessedStats.longestBingeMinutes r
     = ViewingPatterns.longestBingeMinutes
         (calculateViewingPatterns tzOffset history)
  /\ ProcessedStats.longestBingeShow r
     = ViewingPatterns.longestBingeShow
         (calculateViewingPatterns tzOffset history).
Proof.
  intros Hne. subst r.
  run_orchestrator history overseerr w; try congruence;
    repeat split; reflexivity.
Qed.
End ReportFields.

(* ================================================================== *)
(** * Top-N lists                                                      *)
(* ================================================================== *)






Section Dictionaries.
Context {K V R : Type}.
Variable eq_dec : forall a b : K, {a = b} + {a <> b}.

(** Keys of a dictionary filled with one key per record. *)
Lemma fold_upsert_keys : forall (key : R -> K) (init : R -> V)
    (update : R -> V -> V) rs,
  map fst (fold_left (fun o r => upsert eq_dec o (key r) (init r) (update r)) rs [])
  = JS.Set_of eq_dec (map key rs).
Proof.
  intros. apply fold_keys_single. intros. apply upsert_keys.
Qed.

(** Keys of a dictionary filled with several keys per record. *)
Lemma fold_upsert_many_keys : forall (keysOf : R -> list K) (init : V)
    (update : R -> V -> V) rs,
  map fst
    (fold_left
       (fun o r => fold_left (fun o k => upsert eq_dec o k init (update r))
                     (keysOf r) o)
       rs [])
  = JS.Set_of eq_dec (flat_map keysOf rs).
Proof.
  intros. unfold JS.Set_of.
  rewrite (fold_keys eq_dec _ keysOf); auto.
  intros o r.
  rewrite (fold_keys eq_dec (fun o k => upsert eq_dec o k init (update r))
             (fun k => [k])).
  - rewrite flat_map_single, map_id. reflexivity.
  - intros. simpl. apply upsert_keys.
Qed.

End Dictionaries.














(* ================================================================== *)
(** * Total plays                                                      *)
(* ================================================================== *)

(** C2, as the code has it: [totalPlays] is the number of events of the
    input sequence; no event is dropped before counting. *)
Theorem C2_totalPlays_counts_input :
  forall tzOffset userId year history overseerr w,
    ProcessedStats.totalPlays (report tzOffset userId year history overseerr w)
    = Z.of_nat (List.length history).
Proof.
  intros tzOffset userId year history overseerr w.
  run_orchestrator history overseerr w; reflexivity.
Qed.

(** C2 as stated fails: a malformed event (negative duration, stopped
    before started) is not dropped; it is counted as a play and feeds
    the other statistics. *)
Lemma C2_counterexample :
  normalize_spec malformedPlay = []
  /\ ProcessedStats.totalPlays
       (report DateFns.utc 7 2024 malformedPlay Disabled idle) = 1
  /\ ProcessedStats.totalPlays
       (report DateFns.utc 7 2024 malformedPlay Disabled idle)
     <> Z.of_nat (List.length (normalize_spec malformedPlay))
  /\ ProcessedStats.totalWatchTimeMinutes
       (report DateFns.utc 7 2024 malformedPlay Disabled idle) = -1
  /\ map TopMovie.plays
       (ProcessedStats.topMovies
          (report DateFns.utc 7 2024 malformedPlay Disabled idle)) = [1].
Proof.
  repeat split; try reflexivity. vm_compute. discriminate.
Qed.

(* ================================================================== *)
(** * Activity peaks                                                   *)
(* ================================================================== *)

Section Tally.
Context {K R : Type}.
Variable eq_dec : forall a b : K, {a = b} + {a <> b}.
Variable key : R -> K.

Local Abbreviation tally := (tally eq_dec key).

Lemma tally_keys : forall rs,
  map fst (tally rs) = JS.Set_of eq_dec (map key rs).
Proof.
  intros rs. unfold tally. apply fold_keys_single.
  intros o r. apply set_keys.
Qed.

Lemma fold_bump_get : forall rs o k,
  or0 (JS.get eq_dec (fold_left (fun o r => bump eq_dec o (key r)) rs o) k)
  = or0 (JS.get eq_dec o k) + occurrences eq_dec k (map key rs).
Proof.
  unfold occurrences.
  induction rs as [|r rs IH]; intros o k; cbn [fold_left map count_occ].
  - simpl. lia.
  - rewrite IH. unfold bump. rewrite get_set.
    destruct (eq_dec k (key r)) as [E | Hne];
      destruct (eq_dec (key r) k) as [E' | Hne']; try congruence.
    subst k. cbn [or0]. rewrite Nat2Z.inj_succ. lia.
Qed.

Lemma tally_count : forall rs k c,
  In (k, c) (tally rs) -> c = occurrences eq_dec k (map key rs).
Proof.
  intros rs k c Hin.
  apply In_get with (eq_dec := eq_dec) in Hin.
  - pose proof (fold_bump_get rs [] k) as H. fold (tally rs) in H.
    rewrite Hin in H. simpl in H. lia.
  - rewrite tally_keys. apply Set_of_NoDup.
Qed.

Lemma occurrences_pos : forall k (ks : list K),
  In k ks <-> 0 < occurrences eq_dec k ks.
Proof.
  intros k ks. unfold occurrences.
  rewrite (count_occ_In eq_dec). lia.
Qed.

Variable index : K -> option N.
Hypothesis index_inj :
  forall k1 k2 i, index k1 = Some i -> index k2 = Some i -> k1 = k2.

(** The first entry after the descending sort is a peak; ties go to the
    key enumerated first. *)
Lemma tally_peak : forall rs,
  rs <> [] ->
  exists k c,
    hd_error (JS.sort (byDescending snd) (JS.Object_entries index (tally rs)))
    = Some (k, c)
    /\ peak eq_dec (map key rs) k (own_property_order index (map key rs)).
Proof.
  intros rs Hne.
  assert (Ho : tally rs <> []).
  { intros E. pose proof (tally_keys rs) as Hk. rewrite E in Hk.
    destruct rs as [|r rs]; [congruence|].
    assert (Hin : In (key r) (JS.Set_of eq_dec (map key (r :: rs))))
      by (apply Set_of_In; now left).
    rewrite <- Hk in Hin. contradiction. }
  destruct (sort_nonempty (byDescending snd)
              (entries_nonempty index Ho)) as [[k c] [t Hs]].
  exists k, c. rewrite Hs. split; [reflexivity|].
  assert (Hin : In (k, c) (tally rs)).
  { apply (entries_In index). apply (sort_In (byDescending snd)).
    rewrite Hs. now left. }
  assert (Hc := tally_count _ _ _ Hin).
  assert (Hk : In k (map key rs)).
  { apply (Set_of_In eq_dec). rewrite <- tally_keys.
    change k with (fst (k, c)). now apply in_map. }
  split; [exact Hk|].
  intros k'. rewrite <- Hc.
  destruct (Z.eq_dec (occurrences eq_dec k' (map key rs)) 0) as [E0 | Hpos].
  - apply occurrences_pos in Hk. split; lia.
  - assert (Hk' : In k' (map key rs)).
    { apply occurrences_pos. unfold occurrences in *. lia. }
    apply (Set_of_In eq_dec) in Hk'. rewrite <- tally_keys in Hk'.
    apply in_map_iff in Hk'. destruct Hk' as [[k0 c'] [E Hin']].
    simpl in E. subst k0.
    rewrite <- (tally_count _ _ _ Hin').
    apply (entries_In index) in Hin'.
    destruct (@sort_head (K * Z) (byDescending snd) (byDescending_asym snd)
                (byDescending_ntrans snd) _ _ _ _ Hs Hin') as [E | [H1 H2]].
    + inversion E; subst. split; [lia | congruence].
    + apply byDescending_false in H1. simpl in H1. split; [exact H1|].
      intros Ec _.
      change k with (fst (k, c)). change k' with (fst (k', c')).
      apply entries_order with (eq_dec := eq_dec) (o := tally rs); auto.
      * apply tally_keys.
      * apply H2. apply byDescending_false. simpl. lia.
Qed.
End Tally.

Lemma peak_impl : forall {K : Type} (eq_dec : forall a b : K, {a = b} + {a <> b})
    (axis : list K) best (tie1 tie2 : K -> K -> Prop),
  peak eq_dec axis best tie1 ->
  (forall k, In k axis -> tie1 best k -> tie2 best k) ->
  peak eq_dec axis best tie2.
Proof.
  intros K eq_dec axis best tie1 tie2 [Hin H] Himp. split; auto.
  intros k. destruct (H k) as [H1 H2]. split; auto.
  intros E Hne. apply Himp; auto.
  apply (occurrences_pos eq_dec). rewrite E.
  now apply occurrences_pos.
Qed.

Lemma nth_In_or_default : forall {A : Type} n (l : list A) d,
  In (nth n l d) l \/ nth n l d = d.
Proof.
  induction n as [|n IH]; intros [|x l] d; simpl; auto.
  destruct (IH l d); auto.
Qed.

Lemma month_name_plain : forall tzOffset t,
  JS.string_index (DateFns.format_MMMM tzOffset t) = None
  /\ DateFns.format_MMMM tzOffset t <> ""%string.
Proof.
  intros tzOffset t. unfold DateFns.format_MMMM.
  destruct (nth_In_or_default (Z.to_nat (DateFns.getMonth1 tzOffset t - 1))
              DateFns.monthNames "January"%string) as [H | ->].
  - revert H. generalize (nth (Z.to_nat (DateFns.getMonth1 tzOffset t - 1))
                            DateFns.monthNames "January"%string).
    intros s Hs. simpl in Hs.
    repeat (destruct Hs as [<- | Hs]; [split; [reflexivity | discriminate]|]).
    contradiction.
  - split; [reflexivity | discriminate].
Qed.

Lemma day_name_plain : forall tzOffset r,
  JS.string_index (dayNameOf tzOffset r) = None
  /\ dayNameOf tzOffset r <> ""%string.
Proof.
  intros tzOffset r. unfold dayNameOf.
  destruct (nth_In_or_default (Z.to_nat (DateFns.getDay tzOffset (started r)))
              dayNames "undefined"%string) as [H | ->].
  - revert H. generalize (nth (Z.to_nat (DateFns.getDay tzOffset (started r)))
                            dayNames "undefined"%string).
    intros s Hs. simpl in Hs.
    repeat (destruct Hs as [<- | Hs]; [split; [reflexivity | discriminate]|]).
    contradiction.
  - split; [reflexivity | discriminate].
Qed.

Lemma getHours_range : forall tzOffset t, 0 <= DateFns.getHours tzOffset t < 24.
Proof.
  intros tzOffset t. unfold DateFns.getHours.
  pose proof (Z.mod_pos_bound (DateFns.localSeconds tzOffset t) 86400 ltac:(lia)).
  split.
  - apply Z.div_pos; lia.
  - apply Z.div_lt_upper_bound; lia.
Qed.

Lemma hour_index : forall tzOffset t,
  JS.number_index (DateFns.getHours tzOffset t)
  = Some (Z.to_N (DateFns.getHours tzOffset t)).
Proof.
  intros tzOffset t. pose proof (getHours_range tzOffset t) as H.
  unfold JS.number_index.
  destruct (Z.leb_spec 0 (DateFns.getHours tzOffset t)); [|lia].
  destruct (Z.ltb_spec (DateFns.getHours tzOffset t) 4294967295); [|lia].
  reflexivity.
Qed.

Section Peaks.
Variable tzOffset : Z -> Z.
Variable history : list TautulliHistoryRecord.
Hypothesis history_nonempty : history <> [].

Let months := map (fun r => DateFns.format_MMMM tzOffset (started r)) history.
Let days := map (dayNameOf tzOffset) history.
Let hours := map (fun r => DateFns.getHours tzOffset (started r)) history.

Lemma mostActiveMonth_peak :
  peak string_eq_dec months
    (ViewingPatterns.mostActiveMonth (calculateViewingPatterns tzOffset history))
    (first_seen_before months).
Proof.
  destruct (@tally_peak _ _ string_eq_dec
              (fun r => DateFns.format_MMMM tzOffset (started r))
              JS.string_index string_index_inj history history_nonempty)
    as [k [c [Hhd Hpeak]]].
  assert (Hk : exists r, k = DateFns.format_MMMM tzOffset (started r)).
  { destruct Hpeak as [Hin _]. apply in_map_iff in Hin.
    destruct Hin as [r [<- _]]. eauto. }
  destruct Hk as [r0 Hk0].
  assert (E : ViewingPatterns.mostActiveMonth
                (calculateViewingPatterns tzOffset history) = k).
  { unfold calculateViewingPatterns. destruct (longestBinge history).
    cbn [ViewingPatterns.mostActiveMonth]. unfold monthCounts.
    unfold tally in Hhd. rewrite Hhd. cbn [option_map fst orString].
    destruct (month_name_plain tzOffset (started r0)) as [_ Hne].
    rewrite <- Hk0 in Hne.
    destruct (String.eqb_spec k ""); congruence. }
  rewrite E. eapply peak_impl; [exact Hpeak|].
  intros k' Hk' Hord. unfold own_property_order in Hord.
  apply in_map_iff in Hk'. destruct Hk' as [r' [<- _]].
  rewrite Hk0 in Hord.
  rewrite (proj1 (month_name_plain tzOffset (started r0))) in Hord.
  rewrite (proj1 (month_name_plain tzOffset (started r'))) in Hord.
  rewrite Hk0. exact Hord.
Qed.

Lemma mostActiveDayOfWeek_peak :
  peak string_eq_dec days
    (ViewingPatterns.mostActiveDayOfWeek
       (calculateViewingPatterns tzOffset history))
    (first_seen_before days).
Proof.
  destruct (@tally_peak _ _ string_eq_dec (dayNameOf tzOffset)
              JS.string_index string_index_inj history history_nonempty)
    as [k [c [Hhd Hpeak]]].
  assert (Hk : exists r, k = dayNameOf tzOffset r).
  { destruct Hpeak as [Hin _]. apply in_map_iff in Hin.
    destruct Hin as [r [<- _]]. eauto. }
  destruct Hk as [r0 Hk0].
  assert (E : ViewingPatterns.mostActiveDayOfWeek
                (calculateViewingPatterns tzOffset history) = k).
  { unfold calculateViewingPatterns. destruct (longestBinge history).
    cbn [ViewingPatterns.mostActiveDayOfWeek]. unfold dayOfWeekCounts.
    unfold tally, dayNameOf in Hhd. rewrite Hhd. cbn [option_map fst orString].
    destruct (day_name_plain tzOffset r0) as [_ Hne].
    rewrite <- Hk0 in Hne.
    destruct (String.eqb_spec k ""); congruence. }
  rewrite E. eapply peak_impl; [exact Hpeak|].
  intros k' Hk' Hord. unfold own_property_order in Hord.
  apply in_map_iff in Hk'. destruct Hk' as [r' [<- _]].
  rewrite Hk0 in Hord.
  rewrite (proj1 (day_name_plain tzOffset r0)) in Hord.
  rewrite (proj1 (day_name_plain tzOffset r')) in Hord.
  rewrite Hk0. exact Hord.
Qed.

Lemma mostActiveHour_peak :
  peak Z.eq_dec hours
    (ViewingPatterns.mostActiveHour (calculateViewingPatterns tzOffset history))
    Z.lt.
Proof.
  destruct (@tally_peak _ _ Z.eq_dec
              (fun r => DateFns.getHours tzOffset (started r))
              JS.number_index number_index_inj history history_nonempty)
    as [k [c [Hhd Hpeak]]].
  assert (Hk : exists r, k = DateFns.getHours tzOffset (started r)).
  { destruct Hpeak as [Hin _]. apply in_map_iff in Hin.
    destruct Hin as [r [<- _]]. eauto. }
  destruct Hk as [r0 Hk0].
  assert (E : ViewingPatterns.mostActiveHour
                (calculateViewingPatterns tzOffset history) = k).
  { unfold calculateViewingPatterns. destruct (longestBinge history).
    cbn [ViewingPatterns.mostActiveHour]. unfold hourCounts.
    unfold tally in Hhd. rewrite Hhd. reflexivity. }
  rewrite E. eapply peak_impl; [exact Hpeak|].
  intros k' Hk' Hord. unfold own_property_order in Hord.
  apply in_map_iff in Hk'. destruct Hk' as [r' [<- _]].
  rewrite Hk0 in Hord. rewrite !hour_index in Hord.
  pose proof (getHours_range tzOffset (started r0)).
  pose proof (getHours_range tzOffset (started r')).
  rewrite Hk0. lia.
Qed.
End Peaks.

(** C3, as the code has it: each reported peak occurs in the history
    and no value of its axis has more events.  Among the months, and
    among the weekdays, that tie for the highest count the one first
    encountered in the event sequence is reported; among tying hours the
    lowest hour is reported.  Months, weekdays and hours are read in the
    time zone of the process. *)
Theorem C3_activity_peaks :
  forall tzOffset userId year history overseerr w,
    history <> [] ->
    let r := report tzOffset userId year history overseerr w in
    let months :=
      map (fun e => DateFns.format_MMMM tzOffset (started e)) history in
    let days := map (dayNameOf tzOffset) history in
    let hours := map (fun e => DateFns.getHours tzOffset (started e)) history in
    peak string_eq_dec months (ProcessedStats.mostActiveMonth r)
      (first_seen_before months)
    /\ peak string_eq_dec days (ProcessedStats.mostActiveDayOfWeek r)
         (first_seen_before days)
    /\ peak Z.eq_dec hours (ProcessedStats.mostActiveHour r) Z.lt.
Proof.
  intros tzOffset userId year history overseerr w Hne r months days hours.
  destruct (report_patterns tzOffset userId year overseerr w Hne)
    as [Hm [Hd [Hh _]]].
  subst r. rewrite Hm, Hd, Hh.
  split; [|split].
  - now apply mostActiveMonth_peak.
  - now apply mostActiveDayOfWeek_peak.
  - now apply mostActiveHour_peak.
Qed.

Lemma C3_activity_peaks_witness :
  februaryThenJanuary <> []
  /\ peak string_eq_dec
       (map (fun e => DateFns.format_MMMM DateFns.utc (started e))
          februaryThenJanuary)
       (ProcessedStats.mostActiveMonth
          (report DateFns.utc 7 2024 februaryThenJanuary Disabled idle))
       (first_seen_before
          (map (fun e => DateFns.format_MMMM DateFns.utc (started e))
             februaryThenJanuary))
  /\ peak string_eq_dec (map (dayNameOf DateFns.utc) februaryThenJanuary)
       (ProcessedStats.mostActiveDayOfWeek
          (report DateFns.utc 7 2024 februaryThenJanuary Disabled idle))
       (first_seen_before (map (dayNameOf DateFns.utc) februaryThenJanuary))
  /\ peak Z.eq_dec
       (map (fun e => DateFns.getHours DateFns.utc (started e))
          februaryThenJanuary)
       (ProcessedStats.mostActiveHour
          (report DateFns.utc 7 2024 februaryThenJanuary Disabled idle))
       Z.lt.
Proof.
  assert (Hne : februaryThenJanuary <> []) by discriminate.
  split; [exact Hne|].
  exact (C3_activity_peaks DateFns.utc 7 2024 Disabled idle Hne).
Defined.

(** C3 as stated fails: February and January tie with one event each,
    and so do Monday and Sunday; the report names February and Monday,
    the values met first, not the ones with the lowest calendar index. *)
Lemma C3_counterexample :
  let r := report DateFns.utc 7 2024 februaryThenJanuary Disabled idle in
  let months :=
    map (fun e => DateFns.format_MMMM DateFns.utc (started e)) februaryThenJanuary in
  let days := map (dayNameOf DateFns.utc) februaryThenJanuary in
  months = ["February"; "January"]%string
  /\ days = ["Monday"; "Sunday"]%string
  /\ ProcessedStats.mostActiveMonth r = "February"%string
  /\ ProcessedStats.mostActiveDayOfWeek r = "Monday"%string
  /\ ~ peak string_eq_dec months (ProcessedStats.mostActiveMonth r)
         (fun best k =>
            (position DateFns.monthNames best < position DateFns.monthNames k)%nat)
  /\ ~ peak string_eq_dec days (ProcessedStats.mostActiveDayOfWeek r)
         (fun best k => (position dayNames best < position dayNames k)%nat).
Proof.
  cbv zeta.
  split; [reflexivity|]. split; [reflexivity|].
  split; [reflexivity|]. split; [reflexivity|].
  split.
  - intros [_ H]. destruct (H "January"%string) as [_ H'].
    assert (Hlt : (1 < 0)%nat) by (apply H'; [reflexivity | discriminate]).
    lia.
  - intros [_ H]. destruct (H "Sunday"%string) as [_ H'].
    assert (Hlt : (1 < 0)%nat) by (apply H'; [reflexivity | discriminate]).
    lia.
Qed.

(* ================================================================== *)
(** * Binge sessions                                                   *)
(* ================================================================== *)

(** C4, at the failing input: the sessions are X (10.4 minutes) and
    Y (10.3 minutes); the longest one belongs to X, yet the report names
    Y, because the running maximum is kept rounded (10) and the later,
    shorter session still compares greater than it. *)
Theorem C4_binge_show_of_shorter_session :
  let r := report DateFns.utc 7 2024 twoShortSessions Disabled idle in
  map (fun s => (sessionShow_spec s, Qred (sessionMinutes_spec s)))
    (allSessions_spec twoShortSessions)
  = [ (Some "X"%string, 52 # 5); (Some "Y"%string, 103 # 10) ]
  /\ (103 # 10 < 52 # 5)%Q
  /\ ProcessedStats.longestBingeMinutes r = 10
  /\ ProcessedStats.longestBingeShow r = Some "Y"%string.
Proof.
  cbv zeta. split; [reflexivity|]. split; [reflexivity|].
  split; reflexivity.
Qed.

(** The two boundary cases of the gap test, on one show's episodes in
    start order: a gap of exactly 3600 s keeps one running session, a
    gap of exactly 3601 s closes it and opens a new one. *)
Lemma binge_gap_boundary : forall e1 e2 best,
  (started e2 - stopped e1 = 3600 ->
   bingeLoop [e1; e2] 0%Q best
   = closeBinge (0 + minutesOf e1 + minutesOf e2)%Q e2 best
   /\ sessions_spec [e1; e2] = [[e1; e2]])
  /\ (started e2 - stopped e1 = 3601 ->
      bingeLoop [e1; e2] 0%Q best
      = closeBinge (0 + minutesOf e2)%Q e2
          (closeBinge (0 + minutesOf e1)%Q e1 best)
      /\ sessions_spec [e1; e2] = [[e1]; [e2]]).
Proof.
  intros e1 e2 best. split; intros Hgap; cbn [bingeLoop sessions_spec];
    rewrite Hgap; split; reflexivity.
Qed.

Lemma Math_round_integer : forall z : Z,
  Qfloor (inject_Z z + (1 # 2)) = z.
Proof.
  intros z.
  pose proof (Qfloor_le (inject_Z z + (1 # 2))) as Hlo.
  pose proof (Qlt_floor (inject_Z z + (1 # 2))) as Hhi.
  assert (H1 : (inject_Z (Qfloor (inject_Z z + (1 # 2))) < inject_Z (z + 1))%Q)
    by (rewrite inject_Z_plus; change (inject_Z 1) with 1%Q; lra).
  assert (H2 : (inject_Z z < inject_Z (Qfloor (inject_Z z + (1 # 2)) + 1))%Q)
    by lra.
  rewrite <- Zlt_Qlt in H1, H2. lia.
Qed.

(** Closing a session keeps the larger of the stored whole minutes and
    the session's rounded total. *)
Lemma closeBinge_fst : forall q e best,
  fst (closeBinge q e best) = Z.max (fst best) (JS.Math_round q).
Proof.
  intros q e best. unfold closeBinge, JS.Math_round.
  destruct (Qle_bool q (inject_Z (fst best))) eqn:E; cbn [negb fst].
  - apply Qle_bool_iff in E.
    assert (Qfloor (q + (1 # 2)) <= fst best).
    { rewrite <- (Math_round_integer (fst best)) at 1.
      apply Qfloor_resp_le. lra. }
    lia.
  - assert (Hgt : (inject_Z (fst best) < q)%Q).
    { destruct (Qlt_le_dec (inject_Z (fst best)) q) as [Hlt | Hle]; auto.
      apply Qle_bool_iff in Hle. congruence. }
    assert (fst best <= Qfloor (q + (1 # 2))).
    { rewrite <- (Qfloor_Z (fst best)) at 1. apply Qfloor_resp_le. lra. }
    lia.
Qed.

Lemma sessions_spec_step : forall e next rest,
  sessions_spec (e :: next :: rest)
  = if started next - stopped e <=? 3600
    then match sessions_spec (next :: rest) with
         | s :: ss => (e :: s) :: ss
         | [] => [[e]]
         end
    else [e] :: sessions_spec (next :: rest).
Proof. reflexivity. Qed.

Lemma bingeLoop_step : forall e next rest currentBinge best,
  bingeLoop (e :: next :: rest) currentBinge best
  = if 3600 <? started next - stopped e
    then bingeLoop (next :: rest) 0%Q
           (closeBinge (currentBinge + minutesOf e)%Q e best)
    else bingeLoop (next :: rest) (currentBinge + minutesOf e)%Q best.
Proof. reflexivity. Qed.

Lemma sessions_spec_nonempty : forall e rest, sessions_spec (e :: rest) <> [].
Proof.
  intros e [|next rest]; [discriminate|].
  rewrite sessions_spec_step.
  destruct (started next - stopped e <=? 3600); [|discriminate].
  destruct (sessions_spec (next :: rest)); discriminate.
Qed.

(** The whole minutes kept by the binge loop over one show. *)
Lemma bingeLoop_fst : forall sorted currentBinge best,
  fst (bingeLoop sorted currentBinge best)
  = match sessions_spec sorted with
    | [] => fst best
    | s :: ss =>
        fold_left
          (fun b s' => Z.max b (JS.Math_round (sessionMinutes_spec s'))) ss
          (Z.max (fst best)
             (JS.Math_round
                (fold_left (fun total e => total + minutesOf e)%Q s currentBinge)))
    end.
Proof.
  induction sorted as [|e rest IH]; intros currentBinge best.
  - reflexivity.
  - destruct rest as [|next rest].
    + cbn [bingeLoop sessions_spec fold_left]. apply closeBinge_fst.
    + rewrite bingeLoop_step, sessions_spec_step.
      destruct (Z.ltb_spec 3600 (started next - stopped e)) as [Hgap | Hgap];
        destruct (Z.leb_spec (started next - stopped e) 3600) as [Hle | Hgt];
        try lia.
      * rewrite IH, closeBinge_fst.
        destruct (sessions_spec (next :: rest)) as [|s ss] eqn:Es;
          [exfalso; eapply sessions_spec_nonempty; exact Es|].
        reflexivity.
      * rewrite IH.
        destruct (sessions_spec (next :: rest)) as [|s ss] eqn:Es;
          [exfalso; eapply sessions_spec_nonempty; exact Es|].
        reflexivity.
Qed.

Lemma fold_bingeLoop_fst :
  forall (entries : list (Z * list TautulliHistoryRecord)) best,
    fst (fold_left
           (fun best entry =>
              bingeLoop (JS.sort (byAscending started) (snd entry)) 0%Q best)
           entries best)
    = fold_left (fun b s => Z.max b (JS.Math_round (sessionMinutes_spec s)))
        (flat_map
           (fun entry => sessions_spec (JS.sort (byAscending started) (snd entry)))
           entries)
        (fst best).
Proof.
  induction entries as [|entry entries IH]; intros best; cbn [fold_left flat_map].
  - reflexivity.
  - rewrite IH, fold_left_app. f_equal.
    rewrite bingeLoop_fst.
    destruct (sessions_spec (JS.sort (byAscending started) (snd entry)));
      reflexivity.
Qed.

(** [longestBingeMinutes] is the best session total, rounded to whole
    minutes, over all shows and all sessions, the last session of each
    show included. *)
Lemma longestBingeMinutes_max : forall history,
  fst (longestBinge history) = maxSessionMinutes_spec history.
Proof.
  intros history. unfold longestBinge, maxSessionMinutes_spec, allSessions_spec.
  apply fold_bingeLoop_fst.
Qed.

(* ================================================================== *)
(** * The empty history and repeated runs                              *)
(* ================================================================== *)

(** C5: on the empty history the run returns the fixed empty report,
    without consulting the enrichment collaborator: total plays 0, every
    top-N list empty, no fun facts, no badges, no enrichment block, and
    the log receives the opening line and the "no history" warning only. *)
Theorem C5_empty_history :
  forall tzOffset userId year overseerr w,
    let '(r, w') := calculateUserStats tzOffset userId year [] overseerr w in
    r = getEmptyStats
    /\ ProcessedStats.totalPlays r = 0
    /\ ProcessedStats.topMovies r = []
    /\ ProcessedStats.topShows r = []
    /\ ProcessedStats.topEpisodes r = []
    /\ ProcessedStats.topGenres r = []
    /\ ProcessedStats.topActors r = []
    /\ ProcessedStats.topDirectors r = []
    /\ ProcessedStats.topDevices r = []
    /\ ProcessedStats.topPlatforms r = []
    /\ ProcessedStats.funFacts r = []
    /\ ProcessedStats.badges r = []
    /\ ProcessedStats.overseerrStats r = None
    /\ map fst (Effects.logged w')
       = map fst (Effects.logged w) ++ [Effects.LInfo; Effects.LWarn].
Proof.
  intros tzOffset userId year overseerr w.
  unfold calculateUserStats, Effects.bind, Effects.logger, Effects.Date_now,
    Effects.ret.
  destruct w as [[|t clock] logged]; cbn [Effects.clock Effects.logged];
    repeat split; rewrite ?map_app, <- ?app_assoc; reflexivity.
Qed.

Lemma report_pure : forall tzOffset userId year history overseerr w,
  report tzOffset userId year history overseerr w
  = report tzOffset userId year history overseerr idle.
Proof.
  intros tzOffset userId year history overseerr w.
  run_orchestrator history overseerr w; reflexivity.
Qed.

(** C9: the report is a function of the history and of the enrichment
    outcome alone: two runs on the same input return the same report,
    whatever the clock reads and whatever was logged before; the fun
    facts and the badges agree as lists, order included. *)
Theorem C9_same_input_same_report :
  forall tzOffset userId year history overseerr w1 w2,
    let r1 := report tzOffset userId year history overseerr w1 in
    let r2 := report tzOffset userId year history overseerr w2 in
    r1 = r2
    /\ ProcessedStats.funFacts r1 = ProcessedStats.funFacts r2
    /\ ProcessedStats.badges r1 = ProcessedStats.badges r2.
Proof.
  intros tzOffset userId year history overseerr w1 w2 r1 r2.
  assert (E : r1 = r2).
  { subst r1 r2. now rewrite (report_pure _ _ _ _ _ w1), (report_pure _ _ _ _ _ w2). }
  rewrite E. repeat split.
Qed.

(* ================================================================== *)
(** * Playback quality                                                 *)
(* ================================================================== *)

Lemma total_set : forall {K : Type} (eq_dec : forall a b : K, {a = b} + {a <> b})
    (o : list (K * Z)) k v,
  total (JS.set eq_dec o k v) = total o - or0 (JS.get eq_dec o k) + v.
Proof.
  unfold total. induction o as [|[k' v'] o IH]; intros k v; simpl.
  - lia.
  - destruct (eq_dec k k') as [-> | Hne]; simpl.
    + lia.
    + rewrite IH. lia.
Qed.

Lemma total_bump : forall {K : Type} (eq_dec : forall a b : K, {a = b} + {a <> b})
    (o : list (K * Z)) k,
  total (bump eq_dec o k) = total o + 1.
Proof. intros. unfold bump. rewrite total_set. lia. Qed.

Lemma countIf_cons : forall f r history,
  countIf f (r :: history) = (if f r then 1 else 0) + countIf f history.
Proof.
  intros f r history. unfold countIf. simpl.
  destruct (f r); simpl List.length; lia.
Qed.

Lemma get_bumpAny : forall o k k',
  JS.get string_eq_dec (bumpAny o k) k'
  = if String.eqb k "__proto__" then JS.get string_eq_dec o k'
    else if string_eq_dec k' k
         then Some (plusOne k (JS.get string_eq_dec o k))
         else JS.get string_eq_dec o k'.
Proof.
  intros o k k'. unfold bumpAny.
  destruct (String.eqb k "__proto__"); [reflexivity|].
  apply get_set.
Qed.

Lemma bumpAny_keys : forall o k,
  map fst (bumpAny o k)
  = if String.eqb k "__proto__" then map fst o
    else JS.Set_add string_eq_dec (map fst o) k.
Proof.
  intros o k. unfold bumpAny.
  destruct (String.eqb k "__proto__"); [reflexivity|].
  apply set_keys.
Qed.

Lemma counted_set : forall o k v,
  counted (JS.set string_eq_dec o k v)
  = counted o
    - match JS.get string_eq_dec o k with Some v0 => countOf v0 | None => 0 end
    + countOf v.
Proof.
  unfold counted. induction o as [|[k' v'] o IH]; intros k v; simpl.
  - lia.
  - destruct (string_eq_dec k k') as [-> | Hne]; simpl.
    + lia.
    + rewrite IH. lia.
Qed.

Lemma bumpAny_wellKinded : forall o k,
  wellKinded o -> wellKinded (bumpAny o k).
Proof.
  intros o k Ho k' v. rewrite get_bumpAny.
  destruct (String.eqb_spec k "__proto__") as [-> | Hproto]; [apply Ho|].
  destruct (string_eq_dec k' k) as [-> | Hne]; [|apply Ho].
  intros E. inversion E; subst v; clear E.
  specialize (Ho k). unfold plusOne.
  destruct (JS.get string_eq_dec o k) as [[n | ones]|].
  - exact (Ho _ eq_refl).
  - exact (Ho _ eq_refl).
  - unfold inheritedName.
    destruct (inheritedMethod k) eqn:Em; [reflexivity|].
    apply String.eqb_neq in Hproto. now rewrite Hproto.
Qed.

Lemma counted_bumpAny : forall o k,
  wellKinded o ->
  counted (bumpAny o k) = counted o + (if inheritedName k then 0 else 1).
Proof.
  intros o k Ho. unfold bumpAny.
  destruct (String.eqb_spec k "__proto__") as [-> | Hproto].
  - cbn. lia.
  - rewrite counted_set. specialize (Ho k). unfold plusOne.
    destruct (JS.get string_eq_dec o k) as [[n | ones]|].
    + rewrite (Ho _ eq_refl). cbn [countOf]. lia.
    + unfold inheritedName. rewrite (Ho _ eq_refl), orb_true_r. cbn [countOf]. lia.
    + unfold inheritedName. apply String.eqb_neq in Hproto. rewrite Hproto.
      cbn [orb]. destruct (inheritedMethod k); cbn [countOf]; lia.
Qed.

Lemma qualityStats_fold : forall history q,
  wellKinded (QualityStats.resolutions q) ->
  let q' := fold_left qualityStep history q in
  QualityStats.transcode q'
  = QualityStats.transcode q
    + countIf (fun r => decisionIs r "transcode") history
  /\ QualityStats.directStream q'
     = QualityStats.directStream q
       + countIf (fun r => negb (decisionIs r "transcode")
                           && decisionIs r "copy") history
  /\ QualityStats.directPlay q'
     = QualityStats.directPlay q
       + countIf (fun r => negb (decisionIs r "transcode")
                           && negb (decisionIs r "copy")) history
  /\ counted (QualityStats.resolutions q')
     = counted (QualityStats.resolutions q)
       + countIf (fun r => negb (inheritedName (resolutionOf r))) history.
Proof.
  induction history as [|r history IH]; intros q Hq.
  - cbv zeta. unfold countIf. simpl. repeat split; lia.
  - cbv zeta. cbn [fold_left].
    assert (Hq' : wellKinded (QualityStats.resolutions (qualityStep q r))).
    { unfold qualityStep.
      destruct (decisionIs r "transcode"), (decisionIs r "copy");
        cbn [QualityStats.resolutions]; now apply bumpAny_wellKinded. }
    specialize (IH (qualityStep q r) Hq').
    cbv zeta in IH. destruct IH as [H1 [H2 [H3 H4]]].
    rewrite H1, H2, H3, H4, !countIf_cons. unfold qualityStep.
    fold (resolutionOf r).
    destruct (decisionIs r "transcode"), (decisionIs r "copy");
      cbn [QualityStats.transcode QualityStats.directStream
           QualityStats.directPlay QualityStats.resolutions negb andb];
      rewrite (counted_bumpAny _ Hq);
      destruct (inheritedName (resolutionOf r)); cbn [negb];
      repeat split; lia.
Qed.

(** The three quality buckets partition the events: [transcode] counts
    the events whose decision is 'transcode', [directStream] those whose
    decision is 'copy', [directPlay] every other event, a missing or
    unrecognized decision included, and the three add up to the number of
    events.  The numbers of the resolution table add up to the number of
    events whose resolution is not the name of a member of
    [Object.prototype], which is every event when no resolution is such
    a name. *)
Lemma quality_buckets_partition :
  forall tzOffset userId year history overseerr w,
    let q :=
      ProcessedStats.qualityStats
        (report tzOffset userId year history overseerr w) in
    QualityStats.transcode q
    = countIf (fun r => decisionIs r "transcode") history
    /\ QualityStats.directStream q = countIf (fun r => decisionIs r "copy") history
    /\ QualityStats.directPlay q
       = countIf (fun r => negb (decisionIs r "transcode")
                           && negb (decisionIs r "copy")) history
    /\ QualityStats.directPlay q + QualityStats.directStream q
       + QualityStats.transcode q
       = Z.of_nat (List.length history)
    /\ counted (QualityStats.resolutions q)
       = countIf (fun r => negb (inheritedName (resolutionOf r))) history
    /\ (ownNames resolutionOf history = true ->
        counted (QualityStats.resolutions q) = Z.of_nat (List.length history)).
Proof.
  intros tzOffset userId year history overseerr w q.
  destruct (report_top_people_devices tzOffset userId year history overseerr w)
    as [_ [_ [_ [_ Hq]]]].
  subst q. rewrite Hq. unfold qualityStats.
  assert (Hempty : wellKinded (QualityStats.resolutions emptyQuality)).
  { intros k v E. discriminate E. }
  destruct (qualityStats_fold history emptyQuality Hempty) as [H1 [H2 [H3 H4]]].
  cbv zeta in H1, H2, H3, H4. cbn in H1, H2, H3, H4.
  assert (Hcopy : countIf (fun r => negb (decisionIs r "transcode")
                                    && decisionIs r "copy") history
                  = countIf (fun r => decisionIs r "copy") history).
  { unfold countIf. f_equal. f_equal. apply filter_ext. intros r.
    unfold decisionIs. destruct (transcode_decision r) as [d|]; auto.
    destruct (String.eqb_spec d "transcode") as [-> | Hne]; auto. }
  assert (Hsum : forall l,
             countIf (fun r => negb (decisionIs r "transcode")
                               && negb (decisionIs r "copy")) l
             + countIf (fun r => negb (decisionIs r "transcode")
                                 && decisionIs r "copy") l
             + countIf (fun r => decisionIs r "transcode") l
             = Z.of_nat (List.length l)).
  { induction l as [|r l IHl].
    - reflexivity.
    - rewrite !countIf_cons. cbn [List.length]. rewrite Nat2Z.inj_succ.
      destruct (decisionIs r "transcode"), (decisionIs r "copy");
        cbn [negb andb]; lia. }
  rewrite H1, H2, H3, H4, Hcopy in *.
  split; [reflexivity|]. split; [reflexivity|]. split; [reflexivity|].
  split; [rewrite <- (Hsum history), Hcopy; lia|].
  split; [reflexivity|].
  intros Hown. unfold countIf. f_equal. f_equal.
  unfold ownNames in Hown. rewrite forallb_forall in Hown.
  clear - Hown. induction history as [|r l IHl]; [reflexivity|].
  cbn [filter]. rewrite (Hown r (or_introl eq_refl)).
  cbn [List.length]. f_equal. apply IHl. intros x Hx. apply Hown. now right.
Qed.

(** C10, at the failing input: one event whose stream resolution is
    reported as 'constructor'.  The three buckets add up to the one
    event, but the resolution table counts none: the lookup
    [resolutions['constructor']] finds the inherited constructor, which
    is truthy, so [(... || 0) + 1] stores the text of that function
    followed by "1" where the count 1 was meant. *)
Theorem C10_resolution_named_constructor :
  let q :=
    ProcessedStats.qualityStats
      (report DateFns.utc 7 2024 namedConstructor Disabled idle) in
  QualityStats.directPlay q + QualityStats.directStream q
  + QualityStats.transcode q
  = Z.of_nat (List.length namedConstructor)
  /\ QualityStats.resolutions q = [ ("constructor"%string, MethodText 1) ]
  /\ counted (QualityStats.resolutions q) = 0
  /\ counted (QualityStats.resolutions q)
     <> Z.of_nat (List.length namedConstructor).
Proof.
  cbv zeta. split; [reflexivity|]. split; [reflexivity|].
  split; [reflexivity|]. vm_compute. discriminate.
Qed.

(* ================================================================== *)
(** * Active days                                                      *)
(* ================================================================== *)

Lemma Set_of_size : forall l : list Z,
  JS.size (JS.Set_of Z.eq_dec l) = distinct l.
Proof.
  intros l. unfold JS.size, distinct. f_equal.
  apply Permutation_length. apply NoDup_Permutation.
  - apply Set_of_NoDup.
  - apply NoDup_nodup.
  - intros x. rewrite Set_of_In, nodup_In. tauto.
Qed.




(* ================================================================== *)
(** * Longest streak                                                   *)
(* ================================================================== *)

Lemma run_bound : forall dates prev longest current s m,
  run dates s m -> 1 <= m -> s + m - 1 <= prev ->
  ~ In (prev - current) dates ->
  (forall s m, 1 <= m -> run dates s m -> s + m - 1 < prev - current ->
               m <= longest) ->
  m <= Z.max longest current.
Proof.
  intros dates prev longest current s m Hrun Hm He Hout Hold.
  destruct (Z_lt_le_dec (s + m - 1) (prev - current)) as [Hlt | Hge].
  - specialize (Hold s m Hm Hrun Hlt). lia.
  - destruct (Z_le_gt_dec s (prev - current)) as [Hs | Hs].
    + exfalso. apply Hout.
      replace (prev - current) with (s + (prev - current - s)) by lia.
      apply Hrun. lia.
    + lia.
Qed.

Lemma streakLoop_spec : forall rest prev longest current dates,
  (forall a b, precedes (prev :: rest) a b -> a < b) ->
  (forall d, In d dates -> d <= prev \/ In d rest) ->
  (forall d, In d rest -> In d dates) ->
  1 <= current -> 0 <= longest ->
  run dates (prev - current + 1) current ->
  ~ In (prev - current) dates ->
  (longest = 0 \/ exists s, run dates s longest) ->
  (forall s m, 1 <= m -> run dates s m -> s + m - 1 < prev - current ->
               m <= longest) ->
  longest_run_spec dates
    (let '(l, c) := streakLoop prev rest longest current in Z.max l c).
Proof.
  induction rest as [|curr rest IH];
    intros prev longest current dates Hsorted Hcover Hrest Hcur Hlong Hrun Hout
           Hbest Hold.
  - cbn [streakLoop]. split.
    + destruct (Z_le_gt_dec longest current) as [Hle | Hgt].
      * rewrite Z.max_r by lia. eauto.
      * rewrite Z.max_l by lia. destruct Hbest as [-> | Hbest]; [lia | auto].
    + intros s m Hm.
      destruct (Z_lt_le_dec m 1) as [Hsmall | Hbig]; [lia|].
      apply run_bound with (dates := dates) (prev := prev) (s := s); auto.
      destruct (Hcover (s + (m - 1))) as [Hle | []]; [apply Hm; lia | lia].
  - assert (Hpc : prev < curr) by (apply Hsorted; constructor; now left).
    assert (Htail : forall d, In d rest -> curr < d).
    { intros d Hd. apply Hsorted. apply precedes_later. now constructor. }
    cbn [streakLoop]. cbv zeta.
    destruct (Z.eqb_spec (curr - prev) 1) as [Hone | Hgap].
    + apply IH; auto; try lia.
      * intros a b Hab. apply Hsorted. now apply precedes_later.
      * intros d Hd. destruct (Hcover d Hd) as [Hle | [<- | Hin]]; auto; lia.
      * intros d Hd. apply Hrest. now right.
      * intros i Hi. destruct (Z.eq_dec i current) as [-> | Hne].
        -- replace (curr - (current + 1) + 1 + current) with curr by lia.
           apply Hrest. now left.
        -- replace (curr - (current + 1) + 1 + i)
             with (prev - current + 1 + i) by lia.
           apply Hrun. lia.
      * replace (curr - (current + 1)) with (prev - current) by lia. exact Hout.
      * intros s m Hm Hr Hlt. apply Hold with (s := s); auto. lia.
    + assert (Hfar : forall d, In d dates -> d <= prev \/ curr <= d).
      { intros d Hd. destruct (Hcover d Hd) as [Hle | [<- | Hin]]; auto.
        - right. lia.
        - right. specialize (Htail d Hin). lia. }
      apply IH; auto; try lia.
      * intros a b Hab. apply Hsorted. now apply precedes_later.
      * intros d Hd. destruct (Hcover d Hd) as [Hle | [<- | Hin]]; auto; lia.
      * intros d Hd. apply Hrest. now right.
      * intros i Hi. replace (curr - 1 + 1 + i) with curr by lia.
        apply Hrest. now left.
      * intros Hin. destruct (Hfar _ Hin); lia.
      * right. destruct (Z_le_gt_dec longest current) as [Hle | Hgt].
        -- rewrite Z.max_r by lia. eauto.
        -- rewrite Z.max_l by lia. destruct Hbest as [-> | Hbest]; [lia | auto].
      * intros s m Hm Hr Hlt.
        apply run_bound with (dates := dates) (prev := prev) (s := s); auto.
        destruct (Hfar (s + (m - 1))) as [Hle | Hge]; [apply Hr; lia | lia | lia].
Qed.

Lemma sortedDays_increasing : forall tzOffset history a b,
  precedes (sortedDays tzOffset history) a b -> a < b.
Proof.
  intros tzOffset history a b H. unfold sortedDays in H.
  assert (Hne : a <> b).
  { apply precedes_NoDup_neq with (2 := H).
    eapply Permutation_NoDup; [apply sort_Permutation | apply Set_of_NoDup]. }
  apply sort_precedes in H.
  - destruct H as [H _]. apply Z.ltb_ge in H. lia.
  - intros x y Hxy. apply Z.ltb_lt in Hxy. apply Z.ltb_ge. lia.
  - intros x y z Hxy Hyz. apply Z.ltb_ge in Hxy, Hyz. apply Z.ltb_ge. lia.
Qed.

Lemma sortedDays_In : forall tzOffset history d,
  In d (sortedDays tzOffset history)
  <-> In d (map (fun e => DateFns.localDay tzOffset (started e)) history).
Proof.
  intros. unfold sortedDays. now rewrite sort_In, Set_of_In.
Qed.

Lemma longestStreak_spec : forall tzOffset history,
  history <> [] ->
  longest_run_spec
    (map (fun e => DateFns.localDay tzOffset (started e)) history)
    (longestStreakOf (sortedDays tzOffset history)).
Proof.
  intros tzOffset history Hne.
  pose proof (sortedDays_increasing tzOffset history) as Hsorted.
  pose proof (sortedDays_In tzOffset history) as Hin.
  destruct (sortedDays tzOffset history) as [|first rest] eqn:E.
  - exfalso. destruct history as [|e history]; [congruence|].
    apply (Hin (DateFns.localDay tzOffset (started e))). now left.
  - unfold longestStreakOf.
    assert (Hfirst : forall d, In d rest -> first < d).
    { intros d Hd. apply Hsorted. now constructor. }
    apply streakLoop_spec; auto; try lia.
    + intros d Hd. apply Hin in Hd. destruct Hd as [<- | Hd]; auto. left. lia.
    + intros d Hd. apply Hin. now right.
    + intros i Hi. replace (first - 1 + 1 + i) with first by lia.
      apply Hin. now left.
    + intros Hd. apply Hin in Hd. destruct Hd as [Hd | Hd]; [lia|].
      specialize (Hfirst _ Hd). lia.
    + intros s m Hm Hr Hlt.
      assert (Hd : In (s + (m - 1)) (first :: rest)) by (apply Hin, Hr; lia).
      destruct Hd as [Hd | Hd]; [lia|]. specialize (Hfirst _ Hd). lia.
Qed.



(* ================================================================== *)
(** * Genre percentages                                                *)
(* ================================================================== *)

Lemma recorded_step : forall r o genre g,
  (recorded (genreStep r o genre) g
   == recorded o g + (if string_eq_dec genre g then minutesOf r else 0))%Q.
Proof.
  intros r o genre g. unfold recorded, genreStep. rewrite get_upsert.
  destruct (string_eq_dec g genre) as [-> | Hne].
  - destruct (string_eq_dec genre genre); [|congruence].
    destruct (JS.get string_eq_dec o genre); simpl; ring.
  - destruct (string_eq_dec genre g); [congruence|]. ring.
Qed.

Lemma recorded_genres : forall r gs o g,
  (recorded (fold_left (genreStep r) gs o) g
   == recorded o g
      + inject_Z (Z.of_nat (count_occ string_eq_dec gs g)) * minutesOf r)%Q.
Proof.
  intros r. induction gs as [|genre gs IH]; intros o g;
    cbn [fold_left count_occ].
  - simpl. ring.
  - rewrite IH, recorded_step.
    destruct (string_eq_dec genre g).
    + rewrite Nat2Z.inj_succ. unfold Z.succ. rewrite inject_Z_plus. ring.
    + ring.
Qed.

Lemma recorded_history : forall history o g,
  (recorded
     (fold_left (fun o r => fold_left (genreStep r) (orNil (genres r)) o)
        history o) g
   == recorded o g + genreMinutes_spec g history)%Q.
Proof.
  induction history as [|r history IH]; intros o g;
    cbn [fold_left fold_right genreMinutes_spec].
  - ring.
  - rewrite IH, recorded_genres. fold (genreMinutes_spec g history).
    unfold genreWeight. ring.
Qed.

Lemma genreStats_minutes : forall history g s,
  In (g, s) (genreStats history) ->
  (gs_minutes s == genreMinutes_spec g history)%Q.
Proof.
  intros history g s Hin.
  apply In_get with (eq_dec := string_eq_dec) in Hin.
  - pose proof (recorded_history history [] g) as H.
    unfold recorded at 1 in H.
    change (fold_left _ history []) with (genreStats history) in H.
    rewrite Hin in H. rewrite H. unfold recorded. simpl. ring.
  - unfold genreStats.
    rewrite (fold_upsert_many_keys string_eq_dec (fun r => orNil (genres r))).
    apply Set_of_NoDup.
Qed.

Lemma totalMinutes_fold : forall history acc,
  (fold_left (fun sum r => sum + minutesOf r) history acc
   == acc + totalMinutes_spec history)%Q.
Proof.
  induction history as [|r history IH]; intros acc; cbn [fold_left].
  - simpl. ring.
  - rewrite IH. cbn [totalMinutes_spec fold_right].
    fold (totalMinutes_spec history). ring.
Qed.

Lemma totalMinutes_eq : forall history,
  (totalMinutes history == totalMinutes_spec history)%Q.
Proof.
  intros. unfold totalMinutes. rewrite totalMinutes_fold. ring.
Qed.










(* ================================================================== *)
(** * Basic statistics                                                 *)
(* ================================================================== *)

Lemma Set_of_length_le : forall {A : Type}
    (eq_dec : forall a b : A, {a = b} + {a <> b}) (l : list A),
  (List.length (JS.Set_of eq_dec l) <= List.length l)%nat.
Proof.
  intros A eq_dec l. apply NoDup_incl_length.
  - apply Set_of_NoDup.
  - intros x Hx. now apply Set_of_In in Hx.
Qed.

Lemma filter_kinds_length : forall history : list TautulliHistoryRecord,
  (List.length (filter isMovie history) + List.length (filter isEpisode history)
   <= List.length history)%nat.
Proof.
  induction history as [|r history IH]; simpl; [lia|].
  unfold isMovie, isEpisode in *.
  destruct (media_type r); simpl; lia.
Qed.

Section BasicFields.
Variable tzOffset : Z -> Z.
Variables userId year : Z.
Variable history : list TautulliHistoryRecord.
Variable overseerr : OverseerrService.
Variable w : Effects.World.

Lemma report_basic_all :
  let r := report tzOffset userId year history overseerr w in
  let b := calculateBasicStats tzOffset history in
  ProcessedStats.totalPlays r = BasicStats.totalPlays b
  /\ ProcessedStats.totalMovies r = BasicStats.totalMovies b
  /\ ProcessedStats.totalTvEpisodes r = BasicStats.totalTvEpisodes b
  /\ ProcessedStats.uniqueMovies r = BasicStats.uniqueMovies b
  /\ ProcessedStats.uniqueShows r = BasicStats.uniqueShows b
  /\ ProcessedStats.daysActive r = BasicStats.daysActive b
  /\ ProcessedStats.totalWatchTimeMinutes r = BasicStats.totalWatchTimeMinutes b.
Proof.
  cbv zeta. run_orchestrator history overseerr w; repeat split; reflexivity.
Qed.
End BasicFields.

(** X1: the scalar totals are consistent with each other: movies and
    episodes together never exceed the plays, distinct titles never
    exceed the plays of their kind, and active days never exceed the
    plays. *)
Theorem basic_totals_consistent :
  forall tzOffset userId year history overseerr w,
    let r := report tzOffset userId year history overseerr w in
    ProcessedStats.totalPlays r = Z.of_nat (List.length history)
    /\ ProcessedStats.totalMovies r = countIf isMovie history
    /\ ProcessedStats.totalTvEpisodes r = countIf isEpisode history
    /\ ProcessedStats.totalMovies r + ProcessedStats.totalTvEpisodes r
       <= ProcessedStats.totalPlays r
    /\ 0 <= ProcessedStats.uniqueMovies r <= ProcessedStats.totalMovies r
    /\ 0 <= ProcessedStats.uniqueShows r <= ProcessedStats.totalTvEpisodes r
    /\ 0 <= ProcessedStats.daysActive r <= ProcessedStats.totalPlays r.
Proof.
  intros tzOffset userId year history overseerr w r.
  destruct (report_basic_all tzOffset userId year history overseerr w)
    as [Hp [Hm [He [Hum [Hus [Hd _]]]]]].
  subst r. rewrite Hp, Hm, He, Hum, Hus, Hd.
  cbn [calculateBasicStats BasicStats.totalPlays BasicStats.totalMovies
       BasicStats.totalTvEpisodes BasicStats.uniqueMovies BasicStats.uniqueShows
       BasicStats.daysActive].
  change (filter (fun r => MediaType_eqb (media_type r) movie) history)
    with (filter isMovie history).
  change (filter (fun r => MediaType_eqb (media_type r) episode) history)
    with (filter isEpisode history).
  unfold JS.size, countIf.
  pose proof (filter_kinds_length history).
  pose proof (Set_of_length_le Z.eq_dec (map rating_key (filter isMovie history))) as H1.
  pose proof (Set_of_length_le Z.eq_dec
                (map grandparent_rating_key (filter isEpisode history))) as H2.
  pose proof (Set_of_length_le Z.eq_dec
                (map (fun e => DateFns.localDay tzOffset (started e)) history)) as H3.
  rewrite length_map in H1, H2, H3.
  repeat split; lia.
Qed.

Lemma totalMinutes_seconds : forall history,
  (totalMinutes_spec history == inject_Z (totalSeconds history) / 60)%Q.
Proof.
  induction history as [|r history IH];
    cbn [totalMinutes_spec totalSeconds fold_right map].
  - reflexivity.
  - fold (totalMinutes_spec history). fold (totalSeconds history).
    rewrite IH, inject_Z_plus. unfold minutesOf. field.
Qed.

Lemma Math_round_sixtieth : forall s : Z,
  JS.Math_round (inject_Z s / 60) = (s + 30) / 60.
Proof.
  intros s. unfold JS.Math_round.
  assert (E : (inject_Z s / 60 + (1 # 2) == (s + 30) # 60)%Q).
  { unfold Qeq, Qdiv, Qmult, Qplus, Qinv, inject_Z. simpl. lia. }
  rewrite E. reflexivity.
Qed.

(** X2: on a history whose minutes the source adds exactly
    ([exactMinutes]), the total watch time is the total duration in
    seconds, divided by 60 and rounded to the nearest minute, halves
    upwards: the floor of (seconds + 30) / 60. *)
Theorem total_watch_time_rounding :
  forall tzOffset userId year history overseerr w,
    exactMinutes history = true ->
    ProcessedStats.totalWatchTimeMinutes
      (report tzOffset userId year history overseerr w)
    = (totalSeconds history + 30) / 60.
Proof.
  intros tzOffset userId year history overseerr w _.
  destruct (report_basic_all tzOffset userId year history overseerr w)
    as [_ [_ [_ [_ [_ [_ Ht]]]]]].
  rewrite Ht. cbn [calculateBasicStats BasicStats.totalWatchTimeMinutes].
  fold (totalMinutes history).
  rewrite <- Math_round_sixtieth. unfold JS.Math_round.
  apply Qfloor_comp. rewrite totalMinutes_eq, totalMinutes_seconds. reflexivity.
Qed.

Lemma total_watch_time_rounding_witness :
  exactMinutes twoMovies = true
  /\ ProcessedStats.totalWatchTimeMinutes
       (report DateFns.utc 7 2024 twoMovies Disabled idle)
     = (totalSeconds twoMovies + 30) / 60.
Proof.
  split; [reflexivity|].
  apply (total_watch_time_rounding DateFns.utc 7 2024 twoMovies Disabled idle).
  reflexivity.
Defined.

(* ================================================================== *)
(** * Dictionaries that accumulate sums                                *)
(* ================================================================== *)

Section Accumulators.
Context {K V R : Type}.
Variable eq_dec : forall a b : K, {a = b} + {a <> b}.
Variable key : R -> K.
Variable init : R -> V.
Variable update : R -> V -> V.

Let step (o : list (K * V)) (r : R) : list (K * V) :=
  upsert eq_dec o (key r) (init r) (update r).

Lemma grouped_NoDup : forall rs, NoDup (map fst (fold_left step rs [])).
Proof.
  intros rs. unfold step. rewrite fold_upsert_keys. apply Set_of_NoDup.
Qed.

Lemma grouped_key_seen : forall rs e,
  In e (fold_left step rs []) -> In (fst e) (map key rs).
Proof.
  intros rs e He. apply (in_map fst) in He. unfold step in He.
  rewrite fold_upsert_keys in He. now apply Set_of_In in He.
Qed.

Lemma grouped_key_present : forall rs r,
  In r rs -> exists v, In (key r, v) (fold_left step rs []).
Proof.
  intros rs r Hr.
  assert (Hk : In (key r) (map fst (fold_left step rs []))).
  { unfold step. rewrite fold_upsert_keys. apply Set_of_In. now apply in_map. }
  apply in_map_iff in Hk. destruct Hk as [[k v] [E Hin]].
  simpl in E. subst k. eauto.
Qed.

Section IntegerMeasure.
Variable measure : V -> Z.
Variable weight : R -> Z.
Hypothesis measure_init : forall r, measure (update r (init r)) = weight r.
Hypothesis measure_update : forall r v, measure (update r v) = measure v + weight r.

Let stored (o : list (K * V)) (k : K) : Z :=
  match JS.get eq_dec o k with Some v => measure v | None => 0 end.

Lemma stored_step : forall o r k,
  stored (step o r) k = stored o k + (if eq_dec (key r) k then weight r else 0).
Proof.
  intros o r k. unfold stored, step. rewrite get_upsert.
  destruct (eq_dec k (key r)) as [-> | Hne].
  - destruct (eq_dec (key r) (key r)); [|congruence].
    destruct (JS.get eq_dec o (key r)).
    + apply measure_update.
    + rewrite measure_init. lia.
  - destruct (eq_dec (key r) k); [congruence|]. lia.
Qed.

Lemma stored_fold : forall rs o k,
  stored (fold_left step rs o) k = stored o k + sumForZ eq_dec key weight k rs.
Proof.
  induction rs as [|r rs IH]; intros o k; cbn [fold_left sumForZ fold_right].
  - lia.
  - rewrite IH, stored_step. fold (sumForZ eq_dec key weight k rs). lia.
Qed.

(** Each entry holds the sum of the weights of the records of its key. *)
Lemma grouped_sumZ : forall rs k v,
  In (k, v) (fold_left step rs []) ->
  measure v = sumForZ eq_dec key weight k rs.
Proof.
  intros rs k v Hin.
  apply In_get with (eq_dec := eq_dec) in Hin; [|apply grouped_NoDup].
  pose proof (stored_fold rs [] k) as H. unfold stored in H.
  rewrite Hin in H. simpl in H. exact H.
Qed.

Lemma sumEntries_set : forall (o : list (K * V)) k v,
  sumEntries measure (JS.set eq_dec o k v)
  = sumEntries measure o - stored o k + measure v.
Proof.
  unfold sumEntries, stored.
  induction o as [|[k' v'] o IH]; intros k v; simpl.
  - lia.
  - destruct (eq_dec k k') as [-> | Hne]; simpl.
    + lia.
    + rewrite IH. lia.
Qed.

(** The entries together hold the sum of all weights. *)
Lemma grouped_sumEntries : forall rs,
  sumEntries measure (fold_left step rs [])
  = fold_right Z.add 0 (map weight rs).
Proof.
  assert (H : forall rs o,
             sumEntries measure (fold_left step rs o)
             = sumEntries measure o + fold_right Z.add 0 (map weight rs)).
  { induction rs as [|r rs IH]; intros o; cbn [fold_left map fold_right].
    - lia.
    - rewrite IH. unfold step, upsert.
      destruct (JS.get eq_dec o (key r)) as [v0|] eqn:E;
        rewrite sumEntries_set; unfold stored; rewrite E.
      + rewrite measure_update. lia.
      + rewrite measure_init. lia. }
  intros rs. rewrite H. reflexivity.
Qed.
End IntegerMeasure.

Section RationalMeasure.
Variable measure : V -> Q.
Variable weight : R -> Q.
Hypothesis measure_init : forall r, (measure (update r (init r)) == weight r)%Q.
Hypothesis measure_update :
  forall r v, (measure (update r v) == measure v + weight r)%Q.

Let storedQ (o : list (K * V)) (k : K) : Q :=
  match JS.get eq_dec o k with Some v => measure v | None => 0%Q end.

Lemma storedQ_step : forall o r k,
  (storedQ (step o r) k
   == storedQ o k + (if eq_dec (key r) k then weight r else 0))%Q.
Proof.
  intros o r k. unfold storedQ, step. rewrite get_upsert.
  destruct (eq_dec k (key r)) as [-> | Hne].
  - destruct (eq_dec (key r) (key r)); [|congruence].
    destruct (JS.get eq_dec o (key r)).
    + apply measure_update.
    + rewrite measure_init. ring.
  - destruct (eq_dec (key r) k); [congruence|]. ring.
Qed.

Lemma storedQ_fold : forall rs o k,
  (storedQ (fold_left step rs o) k
   == storedQ o k + sumForQ eq_dec key weight k rs)%Q.
Proof.
  induction rs as [|r rs IH]; intros o k; cbn [fold_left sumForQ fold_right].
  - ring.
  - rewrite IH, storedQ_step. fold (sumForQ eq_dec key weight k rs). ring.
Qed.

Lemma grouped_sumQ : forall rs k v,
  In (k, v) (fold_left step rs []) ->
  (measure v == sumForQ eq_dec key weight k rs)%Q.
Proof.
  intros rs k v Hin.
  apply In_get with (eq_dec := eq_dec) in Hin; [|apply grouped_NoDup].
  pose proof (storedQ_fold rs [] k) as H. unfold storedQ in H.
  rewrite Hin in H. simpl in H. rewrite H. ring.
Qed.
End RationalMeasure.
End Accumulators.

Section FirstRecord.
Context {K V R X : Type}.
Variable eq_dec : forall a b : K, {a = b} + {a <> b}.
Variable key : R -> K.
Variable init : R -> V.
Variable update : R -> V -> V.
Variable kept : V -> X.
Variable taken : R -> X.
Hypothesis kept_init : forall r, kept (update r (init r)) = taken r.
Hypothesis kept_update : forall r v, kept (update r v) = kept v.

Let step (o : list (K * V)) (r : R) : list (K * V) :=
  upsert eq_dec o (key r) (init r) (update r).

Let held (o : list (K * V)) (k : K) : option X :=
  option_map kept (JS.get eq_dec o k).

Lemma held_fold : forall rs o k,
  held (fold_left step rs o) k
  = match held o k with
    | Some x => Some x
    | None => option_map taken (firstFor eq_dec key k rs)
    end.
Proof.
  induction rs as [|r rs IH]; intros o k; cbn [fold_left firstFor find].
  - now destruct (held o k).
  - rewrite IH. unfold held, step. rewrite get_upsert.
    fold (firstFor eq_dec key k rs).
    destruct (eq_dec k (key r)) as [-> | Hne].
    + destruct (eq_dec (key r) (key r)); [|congruence].
      destruct (JS.get eq_dec o (key r)); cbn [option_map].
      * now rewrite kept_update.
      * now rewrite kept_init.
    + destruct (eq_dec (key r) k); [congruence|]. reflexivity.
Qed.

(** What an entry keeps from its creation comes from the first record
    of its key. *)
Lemma grouped_first : forall rs k v,
  In (k, v) (fold_left step rs []) ->
  exists r, firstFor eq_dec key k rs = Some r /\ kept v = taken r.
Proof.
  intros rs k v Hin.
  apply In_get with (eq_dec := eq_dec) in Hin;
    [|unfold step; rewrite fold_upsert_keys; apply Set_of_NoDup].
  pose proof (held_fold rs [] k) as H. unfold held in H.
  rewrite Hin in H. cbn [JS.get option_map] in H.
  destruct (firstFor eq_dec key k rs) as [r|]; [|discriminate].
  exists r. split; [reflexivity|]. cbn [option_map] in H. congruence.
Qed.
End FirstRecord.

Lemma firstFor_Some : forall {K R : Type}
    (eq_dec : forall a b : K, {a = b} + {a <> b}) (key : R -> K) k rs r,
  firstFor eq_dec key k rs = Some r ->
  In r rs /\ key r = k
  /\ forall e, In e rs -> key e = k -> e = r \/ precedes rs r e.
Proof.
  intros K R eq_dec key k. unfold firstFor.
  induction rs as [|x rs IH]; cbn [find]; intros r H; [discriminate|].
  destruct (eq_dec (key x) k) as [E | Hne].
  - inversion H; subst. repeat split; [now left|].
    intros e [-> | He] _; auto. right. now constructor.
  - destruct (IH r H) as [Hin [Hk Hfirst]]. repeat split; auto; [now right|].
    intros e [-> | He] Hke; [congruence|].
    destruct (Hfirst e He Hke); auto. right. now apply precedes_later.
Qed.

(* ================================================================== *)
(** * What a top movie and a top show report                           *)
(* ================================================================== *)

Lemma sumForZ_count : forall {K R : Type}
    (eq_dec : forall a b : K, {a = b} + {a <> b}) (key : R -> K) k rs,
  sumForZ eq_dec key (fun _ => 1) k rs = occurrences eq_dec k (map key rs).
Proof.
  intros K R eq_dec key k. unfold occurrences.
  induction rs as [|r rs IH]; cbn [sumForZ fold_right map count_occ].
  - reflexivity.
  - fold (sumForZ eq_dec key (fun _ => 1) k rs). rewrite IH.
    destruct (eq_dec (key r) k); [rewrite Nat2Z.inj_succ|]; lia.
Qed.

Lemma ranked_value_entry : forall {K V : Type} (index : K -> option N)
    (after : V -> V -> bool) n (o : list (K * V)) v,
  In v (JS.slice0 n (JS.sort after (JS.Object_values index o))) ->
  exists k, In (k, v) o.
Proof.
  intros K V index after n o v Hv.
  apply In_firstn, sort_In in Hv. unfold JS.Object_values in Hv.
  apply in_map_iff in Hv. destruct Hv as [[k v'] [E Hin]].
  simpl in E. subst v'. apply entries_In in Hin. eauto.
Qed.

(** X3: every top movie describes one group of movie plays: its rating key
    is that of the group, its title, year, thumb and genres are those of
    the first play of the group in the history, its plays are the number
    of plays of the group (at least one), and its minutes are the
    group's total seconds divided by 60, rounded halves up. *)
Theorem top_movie_describes_group :
  forall tzOffset userId analysisYear history overseerr w t,
    In t (ProcessedStats.topMovies
            (report tzOffset userId analysisYear history overseerr w)) ->
    let movies := filter isMovie history in
    exists e,
      firstFor Z.eq_dec rating_key (TopMovie.ratingKey t) movies = Some e
      /\ TopMovie.title t = title e
      /\ TopMovie.year t = year e
      /\ TopMovie.thumb t = thumb e
      /\ TopMovie.genres t = genres e
      /\ TopMovie.plays t
         = occurrences Z.eq_dec (TopMovie.ratingKey t) (map rating_key movies)
      /\ 1 <= TopMovie.plays t
      /\ TopMovie.durationMinutes t
         = (sumForZ Z.eq_dec rating_key duration (TopMovie.ratingKey t) movies
            + 30) / 60.
Proof.
  intros tzOffset userId analysisYear history overseerr w t Ht movies.
  destruct (report_top_content tzOffset userId analysisYear history overseerr w)
    as [Hm _].
  rewrite Hm in Ht. unfold topMovies in Ht.
  apply in_map_iff in Ht. destruct Ht as [m [<- Hm']].
  unfold rankedMovies in Hm'. apply ranked_value_entry in Hm'.
  destruct Hm' as [k Hin]. unfold moviePlays in Hin. fold isMovie in Hin.
  fold movies in Hin.
  pose proof Hin as Hcount. pose proof Hin as Hdur.
  eapply grouped_first with (kept := mp_record) (taken := fun r => r) in Hin;
    [| intros; reflexivity | intros; reflexivity].
  destruct Hin as [e [Hfirst Hrec]].
  eapply grouped_sumZ with (measure := mp_count) (weight := fun _ => 1)
    in Hcount; [| intros; reflexivity | intros; reflexivity].
  eapply grouped_sumZ with (measure := mp_duration) (weight := duration)
    in Hdur; [| intros; reflexivity | intros; reflexivity].
  destruct (firstFor_Some _ _ _ _ Hfirst) as [He [Hk _]].
  cbn [toTopMovie TopMovie.ratingKey TopMovie.title TopMovie.year
       TopMovie.thumb TopMovie.genres TopMovie.plays TopMovie.durationMinutes].
  rewrite Hrec, Hk. exists e.
  rewrite sumForZ_count in Hcount.
  repeat split; auto.
  - rewrite Hcount.
    assert (Hpos : 0 < occurrences Z.eq_dec k (map rating_key movies)).
    { apply occurrences_pos. rewrite <- Hk. now apply in_map. }
    lia.
  - rewrite Hdur. apply Math_round_sixtieth.
Qed.

Lemma Set_add_length : forall {A : Type}
    (eq_dec : forall a b : A, {a = b} + {a <> b}) (s : list A) x,
  (1 <= List.length (JS.Set_add eq_dec s x) <= S (List.length s))%nat.
Proof.
  intros A eq_dec s x. unfold JS.Set_add.
  destruct (in_dec eq_dec x s) as [Hin | Hout].
  - destruct s; [contradiction | simpl; lia].
  - rewrite length_app. simpl. lia.
Qed.

Lemma showPlays_episodes : forall history k s,
  In (k, s) (showPlays history) ->
  NoDup (sp_episodes s)
  /\ 1 <= JS.size (sp_episodes s) <= sp_count s.
Proof.
  intros history k s Hin. unfold showPlays in Hin.
  apply In_get with (eq_dec := Z.eq_dec) in Hin;
    [|rewrite fold_upsert_keys; apply Set_of_NoDup].
  revert k s Hin.
  apply (fold_get_invariant Z.eq_dec _
           (fun (_ : Z) s => NoDup (sp_episodes s)
                             /\ 1 <= JS.size (sp_episodes s) <= sp_count s)).
  - intros o r Ho k s. rewrite get_upsert.
    destruct (Z.eq_dec k (grandparent_rating_key r)) as [-> | Hne]; [|apply Ho].
    intros E. inversion E; subst; clear E. cbn [sp_episodes sp_count].
    destruct (JS.get Z.eq_dec o (grandparent_rating_key r)) as [s0|] eqn:E0.
    + destruct (Ho _ _ E0) as [Hnd Hlen]. split.
      * now apply Set_add_NoDup.
      * pose proof (Set_add_length Z.eq_dec (sp_episodes s0) (rating_key r)).
        unfold JS.size in *. lia.
    + cbn [sp_episodes sp_count]. split.
      * apply Set_add_NoDup. constructor.
      * unfold JS.size. simpl. lia.
  - simpl. discriminate.
Qed.

Lemma showPlays_episode_keys : forall rs o k s,
  JS.get Z.eq_dec
    (fold_left
       (fun o r =>
          upsert Z.eq_dec o (grandparent_rating_key r)
            {| sp_count := 0; sp_duration := 0; sp_episodes := [];
               sp_record := r |}
            (fun s => {| sp_count := sp_count s + 1;
                         sp_duration := sp_duration s + duration r;
                         sp_episodes :=
                           JS.Set_add Z.eq_dec (sp_episodes s) (rating_key r);
                         sp_record := sp_record s |}))
       rs o) k = Some s ->
  forall x,
    In x (sp_episodes s)
    <-> (match JS.get Z.eq_dec o k with
         | Some s0 => In x (sp_episodes s0)
         | None => False
         end
         \/ In x (map rating_key
                    (filter (fun e => grandparent_rating_key e =? k) rs))).
Proof.
  induction rs as [|r rs IH]; intros o k s Hs x; cbn [fold_left] in Hs.
  - rewrite Hs. cbn. tauto.
  - rewrite (IH _ _ _ Hs x). rewrite get_upsert. cbn [filter].
    destruct (Z.eq_dec k (grandparent_rating_key r)) as [-> | Hne].
    + rewrite Z.eqb_refl. cbn [map sp_episodes].
      rewrite Set_add_In.
      destruct (JS.get Z.eq_dec o (grandparent_rating_key r)) as [s0|];
        cbn [sp_episodes In]; intuition.
    + destruct (Z.eqb_spec (grandparent_rating_key r) k) as [E | _];
        [congruence | tauto].
Qed.

Lemma showPlays_distinct_episodes : forall history k s,
  In (k, s) (showPlays history) ->
  JS.size (sp_episodes s)
  = distinct (map rating_key
                (filter (fun e => grandparent_rating_key e =? k)
                   (filter isEpisode history))).
Proof.
  intros history k s Hin.
  destruct (showPlays_episodes _ _ _ Hin) as [Hnd _].
  unfold showPlays in Hin. fold isEpisode in Hin.
  apply In_get with (eq_dec := Z.eq_dec) in Hin;
    [|rewrite fold_upsert_keys; apply Set_of_NoDup].
  pose proof (showPlays_episode_keys _ _ _ Hin) as Hkeys.
  unfold JS.size, distinct. f_equal.
  apply Permutation_length. apply NoDup_Permutation.
  - exact Hnd.
  - apply NoDup_nodup.
  - intros x. rewrite nodup_In, Hkeys. cbn. tauto.
Qed.

(** X4: every top show describes one group of episode plays: its rating key
    is the show's, its title that of the first play of the group, its
    plays the number of plays of the group, and its episode count the
    number of distinct rating keys among the plays of the group, which
    lies between 1 and its plays. *)
Theorem top_show_describes_group :
  forall tzOffset userId analysisYear history overseerr w t,
    In t (ProcessedStats.topShows
            (report tzOffset userId analysisYear history overseerr w)) ->
    let episodes := filter isEpisode history in
    exists e,
      firstFor Z.eq_dec grandparent_rating_key (TopShow.ratingKey t) episodes
      = Some e
      /\ TopShow.title t = grandparent_title e
      /\ TopShow.thumb t = grandparent_thumb e
      /\ TopShow.plays t
         = occurrences Z.eq_dec (TopShow.ratingKey t)
             (map grandparent_rating_key episodes)
      /\ TopShow.episodes t
         = distinct
             (map rating_key
                (filter (fun x => grandparent_rating_key x =? TopShow.ratingKey t)
                   episodes))
      /\ 1 <= TopShow.episodes t <= TopShow.plays t
      /\ TopShow.durationMinutes t
         = (sumForZ Z.eq_dec grandparent_rating_key duration
              (TopShow.ratingKey t) episodes + 30) / 60.
Proof.
  intros tzOffset userId analysisYear history overseerr w t Ht episodes.
  destruct (report_top_content tzOffset userId analysisYear history overseerr w)
    as [_ [Hs _]].
  rewrite Hs in Ht. unfold topShows in Ht.
  apply in_map_iff in Ht. destruct Ht as [s [<- Hs']].
  unfold rankedShows in Hs'. apply ranked_value_entry in Hs'.
  destruct Hs' as [k Hin].
  destruct (showPlays_episodes _ _ _ Hin) as [_ Hlen].
  pose proof (showPlays_distinct_episodes _ _ _ Hin) as Hdistinct.
  fold episodes in Hdistinct.
  unfold showPlays in Hin. fold isEpisode in Hin. fold episodes in Hin.
  pose proof Hin as Hcount. pose proof Hin as Hdur.
  eapply grouped_first with (kept := sp_record) (taken := fun r => r) in Hin;
    [| intros; reflexivity | intros; reflexivity].
  destruct Hin as [e [Hfirst Hrec]].
  eapply grouped_sumZ with (measure := sp_count) (weight := fun _ => 1)
    in Hcount; [| intros; reflexivity | intros; reflexivity].
  eapply grouped_sumZ with (measure := sp_duration) (weight := duration)
    in Hdur; [| intros; reflexivity | intros; reflexivity].
  destruct (firstFor_Some _ _ _ _ Hfirst) as [He [Hk _]].
  cbn [toTopShow TopShow.ratingKey TopShow.title TopShow.thumb TopShow.plays
       TopShow.episodes TopShow.durationMinutes].
  rewrite Hrec, Hk. exists e.
  rewrite sumForZ_count in Hcount.
  repeat split; auto; try lia.
  rewrite Hdur. apply Math_round_sixtieth.
Qed.

(* ================================================================== *)
(** * People                                                           *)
(* ================================================================== *)

Lemma personCounts_titles : forall people history name p,
  In (name, p) (personCounts people history) ->
  NoDup (pc_titles p)
  /\ (1 <= List.length (pc_titles p))%nat
  /\ Z.of_nat (List.length (pc_titles p)) <= pc_count p.
Proof.
  intros people history name p Hin. unfold personCounts in Hin.
  apply In_get with (eq_dec := string_eq_dec) in Hin;
    [|rewrite (fold_upsert_many_keys string_eq_dec
                 (fun r => orNil (people r))); apply Set_of_NoDup].
  revert name p Hin.
  apply (fold_get_invariant string_eq_dec _
           (fun (_ : string) p =>
              NoDup (pc_titles p)
              /\ (1 <= List.length (pc_titles p))%nat
              /\ Z.of_nat (List.length (pc_titles p)) <= pc_count p));
    [|simpl; discriminate].
  intros o r Ho.
  apply (fold_get_invariant string_eq_dec _
           (fun (_ : string) p =>
              NoDup (pc_titles p)
              /\ (1 <= List.length (pc_titles p))%nat
              /\ Z.of_nat (List.length (pc_titles p)) <= pc_count p));
    [|exact Ho].
  intros o' person Ho' k p. rewrite get_upsert.
  destruct (string_eq_dec k person) as [-> | Hne]; [|apply Ho'].
  intros E. inversion E; subst; clear E. cbn [pc_titles pc_count].
  destruct (JS.get string_eq_dec o' person) as [p0|] eqn:E0.
  - destruct (Ho' _ _ E0) as [Hnd [H1 Hlen]].
    pose proof (Set_add_length string_eq_dec (pc_titles p0) (title r)).
    repeat split; [now apply Set_add_NoDup | lia | lia].
  - cbn [pc_titles pc_count].
    pose proof (Set_add_length string_eq_dec (@nil string) (title r)).
    repeat split; [apply Set_add_NoDup; constructor | lia | simpl in *; lia].
Qed.

(** X5: every top actor and every top director lists between one and five
    titles, without repetition, and never more titles than its count. *)
Theorem top_people_titles :
  forall tzOffset userId analysisYear history overseerr w p,
    let r := report tzOffset userId analysisYear history overseerr w in
    In p (ProcessedStats.topActors r) \/ In p (ProcessedStats.topDirectors r) ->
    NoDup (TopPerson.titles p)
    /\ (1 <= List.length (TopPerson.titles p) <= 5)%nat
    /\ Z.of_nat (List.length (TopPerson.titles p)) <= TopPerson.count p.
Proof.
  intros tzOffset userId analysisYear history overseerr w p r Hp.
  destruct (report_top_people_devices tzOffset userId analysisYear history
              overseerr w) as [Ha [Hd _]].
  subst r. rewrite Ha, Hd in Hp.
  assert (Hsel : exists people, In p (topPeople people history)).
  { destruct Hp; eauto. }
  destruct Hsel as [people Hin]. unfold topPeople in Hin.
  apply in_map_iff in Hin. destruct Hin as [[name data] [<- Hin]].
  unfold rankedPeople in Hin. apply In_firstn, sort_In, entries_In in Hin.
  destruct (personCounts_titles _ _ _ _ Hin) as [Hnd [H1 Hlen]].
  cbn [toTopPerson TopPerson.titles TopPerson.count]. unfold JS.slice0.
  pose proof (firstn_le_length 5 (pc_titles data)) as H5.
  assert (Hf : (List.length (firstn 5 (pc_titles data))
                <= List.length (pc_titles data))%nat).
  { rewrite length_firstn. lia. }
  repeat split; try lia.
  - rewrite <- (firstn_skipn 5 (pc_titles data)) in Hnd.
    now apply NoDup_app_remove_r in Hnd.
  - rewrite length_firstn. lia.
Qed.

(* ================================================================== *)
(** * Fun statistics                                                   *)
(* ================================================================== *)

Lemma report_fun : forall tzOffset userId analysisYear history overseerr w,
  let r := report tzOffset userId analysisYear history overseerr w in
  let f := calculateFunStats tzOffset history in
  ProcessedStats.rewatches r = FunStats.rewatches f
  /\ ProcessedStats.firstWatchTitle r = FunStats.firstWatchTitle f
  /\ ProcessedStats.firstWatchDate r = FunStats.firstWatchDate f
  /\ ProcessedStats.lastWatchTitle r = FunStats.lastWatchTitle f
  /\ ProcessedStats.lastWatchDate r = FunStats.lastWatchDate f
  /\ ProcessedStats.mostMemorableDayDate r = FunStats.mostMemorableDayDate f
  /\ ProcessedStats.mostMemorableDayMinutes r
     = FunStats.mostMemorableDayMinutes f.
Proof.
  intros tzOffset userId analysisYear history overseerr w. cbv zeta.
  run_orchestrator history overseerr w; repeat split; reflexivity.
Qed.

Lemma filter_partition_Permutation : forall {A : Type} (f : A -> bool) (l : list A),
  Permutation l (filter f l ++ filter (fun x => negb (f x)) l).
Proof.
  induction l as [|x l IH]; simpl; auto.
  destruct (f x); simpl.
  - now constructor.
  - now apply Permutation_cons_app.
Qed.

Lemma entries_Permutation : forall {K V : Type} (index : K -> option N)
    (o : list (K * V)),
  Permutation o (JS.Object_entries index o).
Proof.
  intros K V index o. unfold JS.Object_entries.
  eapply perm_trans; [apply (filter_partition_Permutation (JS.is_index index))|].
  apply Permutation_app_tail. apply sort_Permutation.
Qed.

Lemma Permutation_filter_length : forall {A : Type} (f : A -> bool) (l l' : list A),
  Permutation l l' -> List.length (filter f l) = List.length (filter f l').
Proof.
  intros A f l l' H. induction H; simpl; auto.
  - destruct (f x); simpl; auto.
  - destruct (f x), (f y); reflexivity.
  - congruence.
Qed.

Lemma filter_map_length : forall {A B : Type} (f : A -> B) (p : B -> bool) l,
  List.length (filter p (map f l)) = List.length (filter (fun x => p (f x)) l).
Proof.
  induction l as [|x l IH]; simpl; auto.
  destruct (p (f x)); simpl; auto.
Qed.

Lemma tally_total : forall {K R : Type}
    (eq_dec : forall a b : K, {a = b} + {a <> b}) (key : R -> K) rs,
  total (tally eq_dec key rs) = Z.of_nat (List.length rs).
Proof.
  intros K R eq_dec key rs. unfold tally.
  assert (H : forall rs o,
             total (fold_left (fun o r => bump eq_dec o (key r)) rs o)
             = total o + Z.of_nat (List.length rs)).
  { induction rs0 as [|r rs0 IH]; intros o; cbn [fold_left List.length].
    - lia.
    - rewrite IH, total_bump, Nat2Z.inj_succ. lia. }
  rewrite H. reflexivity.
Qed.

Lemma repeated_twice : forall (counts : list Z),
  (forall c, In c counts -> 0 <= c) ->
  2 * Z.of_nat (List.length (filter (fun c => 1 <? c) counts))
  <= fold_right Z.add 0 counts.
Proof.
  induction counts as [|c counts IH]; intros Hpos; cbn [filter fold_right].
  - simpl. lia.
  - pose proof (Hpos c (or_introl eq_refl)).
    specialize (IH (fun x Hx => Hpos x (or_intror Hx))).
    destruct (Z.ltb_spec 1 c); cbn [List.length];
      rewrite ?Nat2Z.inj_succ; lia.
Qed.

(** X6: [rewatches] is the number of distinct rating keys played at least
    twice, whatever the media type: it counts titles, not repeated
    plays, and so never exceeds half the plays. *)
Theorem rewatches_counts_titles :
  forall tzOffset userId analysisYear history overseerr w,
    let r := report tzOffset userId analysisYear history overseerr w in
    let keys := map rating_key history in
    ProcessedStats.rewatches r
    = Z.of_nat
        (List.length
           (filter (fun k => 1 <? occurrences Z.eq_dec k keys)
              (nodup Z.eq_dec keys)))
    /\ 2 * ProcessedStats.rewatches r <= ProcessedStats.totalPlays r.
Proof.
  intros tzOffset userId analysisYear history overseerr w r keys.
  destruct (report_fun tzOffset userId analysisYear history overseerr w)
    as [Hr _].
  destruct (report_basic_all tzOffset userId analysisYear history overseerr w)
    as [Hp _].
  subst r. rewrite Hr, Hp.
  cbn [calculateFunStats FunStats.rewatches calculateBasicStats
       BasicStats.totalPlays].
  change (contentPlays history) with (tally Z.eq_dec rating_key history).
  set (T := tally Z.eq_dec rating_key history).
  assert (Hcnt : forall e, In e T ->
                   snd e = occurrences Z.eq_dec (fst e) keys).
  { intros [k c] He. now apply tally_count in He. }
  assert (Hvals : List.length
                    (filter (fun c => 1 <? c)
                       (JS.Object_values JS.number_index T))
                  = List.length (filter (fun c => 1 <? c) (map snd T))).
  { unfold JS.Object_values. apply Permutation_filter_length.
    apply Permutation_map, Permutation_sym, entries_Permutation. }
  rewrite Hvals. split.
  - f_equal.
    assert (Hmap : map snd T
                   = map (fun k => occurrences Z.eq_dec k keys) (map fst T)).
    { rewrite map_map. apply map_ext_in. intros e He. now apply Hcnt. }
    rewrite Hmap, filter_map_length.
    apply Permutation_filter_length. apply NoDup_Permutation.
    + unfold T. rewrite tally_keys. apply Set_of_NoDup.
    + apply NoDup_nodup.
    + intros k. unfold T. rewrite tally_keys, Set_of_In, nodup_In. tauto.
  - rewrite <- (tally_total Z.eq_dec rating_key history).
    fold T. unfold total. apply repeated_twice.
    intros c Hc. apply in_map_iff in Hc. destruct Hc as [e [<- He]].
    rewrite (Hcnt e He). unfold occurrences. lia.
Qed.

Lemma byAscending_false : forall {A : Type} (m : A -> Z) a b,
  byAscending m a b = false <-> m a <= m b.
Proof. unfold byAscending. intros. rewrite Z.ltb_ge. lia. Qed.

Lemma last_precedes : forall {A : Type} (l : list A) x,
  nth_error l (List.length l - 1) = Some x ->
  In x l /\ forall e, In e l -> e = x \/ precedes l e x.
Proof.
  induction l as [|a l IH]; intros x H.
  - discriminate.
  - destruct l as [|b l].
    + simpl in H. inversion H; subst. split; [now left|].
      intros e [-> | []]. now left.
    + assert (H' : nth_error (b :: l) (List.length (b :: l) - 1) = Some x).
      { simpl in *. now rewrite Nat.sub_0_r in *. }
      destruct (IH x H') as [Hin Hall]. split; [now right|].
      intros e [-> | He].
      * right. now constructor.
      * destruct (Hall e He); auto. right. now apply precedes_later.
Qed.

(** X7: on a non-empty history the first and the last watch are events of
    the history with the smallest and the largest start; among events
    starting at the same second, the first watch is the earliest in the
    history and the last watch the latest.  Their dates are the starts
    in milliseconds, their titles the events' titles (null when empty). *)
Theorem first_and_last_watch :
  forall tzOffset userId analysisYear history overseerr w,
    history <> [] ->
    let r := report tzOffset userId analysisYear history overseerr w in
    exists first last,
      In first history /\ In last history
      /\ ProcessedStats.firstWatchDate r = Some (started first * 1000)
      /\ ProcessedStats.lastWatchDate r = Some (started last * 1000)
      /\ ProcessedStats.firstWatchTitle r = titleOrNull (Some first)
      /\ ProcessedStats.lastWatchTitle r = titleOrNull (Some last)
      /\ (forall e, In e history ->
            started first <= started e <= started last)
      /\ (forall e, In e history -> started e = started first ->
            e = first \/ precedes history first e)
      /\ (forall e, In e history -> started e = started last ->
            e = last \/ precedes history e last).
Proof.
  intros tzOffset userId analysisYear history overseerr w Hne r.
  destruct (report_fun tzOffset userId analysisYear history overseerr w)
    as [_ [Hft [Hfd [Hlt [Hld _]]]]].
  subst r. rewrite Hft, Hfd, Hlt, Hld.
  cbn [calculateFunStats FunStats.firstWatchTitle FunStats.firstWatchDate
       FunStats.lastWatchTitle FunStats.lastWatchDate].
  set (sorted := JS.sort (byAscending started) history).
  destruct (sort_nonempty (byAscending started) Hne) as [f [t Hs]].
  fold sorted in Hs.
  assert (Hlast : exists l, nth_error sorted (List.length sorted - 1) = Some l).
  { destruct (nth_error sorted (List.length sorted - 1)) eqn:E; eauto.
    apply nth_error_None in E. rewrite Hs in E. simpl in E. lia. }
  destruct Hlast as [l Hl]. rewrite Hl. rewrite Hs. cbn [hd_error option_map].
  destruct (last_precedes _ Hl) as [Hlin Hlall].
  assert (Hfin : In f history).
  { apply (sort_In (byAscending started)). fold sorted. rewrite Hs. now left. }
  assert (Hlin' : In l history)
    by (apply (sort_In (byAscending started)); exact Hlin).
  clear Hlin. rename Hlin' into Hlin.
  assert (Hf : forall e, In e history ->
                 e = f \/ (started f <= started e
                           /\ (started e <= started f -> precedes history f e))).
  { intros e He.
    destruct (@sort_head _ (byAscending started) (byAscending_asym started)
                (byAscending_ntrans started) _ _ _ _ Hs He) as [E | [H1 H2]];
      auto.
    right. split; [now apply byAscending_false in H1|].
    intros Hle. apply H2. now apply byAscending_false. }
  assert (Hlst : forall e, In e history ->
                 e = l \/ (started e <= started l
                           /\ (started l <= started e -> precedes history e l))).
  { intros e He. apply (sort_In (byAscending started)) in He.
    destruct (Hlall e He) as [E | Hp]; auto. right.
    apply sort_precedes in Hp;
      [| apply byAscending_asym | apply byAscending_ntrans].
    destruct Hp as [H1 H2]. split; [now apply byAscending_false in H1|].
    intros Hle. apply H2. now apply byAscending_false. }
  exists f, l.
  split; [exact Hfin|]. split; [exact Hlin|].
  split; [reflexivity|]. split; [reflexivity|].
  split; [reflexivity|]. split; [reflexivity|].
  split; [|split].
  - intros e He.
    assert (started f <= started e)
      by (destruct (Hf e He) as [E | [Hle _]]; [rewrite E|]; lia).
    assert (started e <= started l)
      by (destruct (Hlst e He) as [E | [Hle _]]; [rewrite E|]; lia).
    lia.
  - intros e He Heq. destruct (Hf e He) as [E | [_ Hp]]; auto.
    right. apply Hp. lia.
  - intros e He Heq. destruct (Hlst e He) as [E | [_ Hp]]; auto.
    right. apply Hp. lia.
Qed.

Lemma first_and_last_watch_witness :
  februaryThenJanuary <> []
  /\ exists first last,
       In first februaryThenJanuary /\ In last februaryThenJanuary
       /\ ProcessedStats.firstWatchDate
            (report DateFns.utc 7 2024 februaryThenJanuary Disabled idle)
          = Some (started first * 1000)
       /\ ProcessedStats.lastWatchDate
            (report DateFns.utc 7 2024 februaryThenJanuary Disabled idle)
          = Some (started last * 1000)
       /\ started first = 1704585600 /\ started last = 1707091200.
Proof.
  assert (Hne : februaryThenJanuary <> []) by discriminate.
  split; [exact Hne|].
  destruct (first_and_last_watch DateFns.utc 7 2024 Disabled idle Hne)
    as [first [last [Hf [Hl [Hfd [Hld [_ [_ [Hb _]]]]]]]]].
  exists first, last. repeat split; auto.
  - pose proof (Hb (play movie 2 0 "Brazil" "" 1704585600 1704589200 3600)
                  (or_intror (or_introl eq_refl))) as H2.
    cbn [started play] in H2.
    destruct Hf as [<- | [<- | []]]; cbn [started play] in *; lia.
  - pose proof (Hb (play movie 1 0 "Alien" "" 1707091200 1707094800 3600)
                  (or_introl eq_refl)) as H1.
    cbn [started play] in H1.
    destruct Hl as [<- | [<- | []]]; cbn [started play] in *; lia.
Defined.

Lemma no_index_inj : forall {K : Type} (k1 k2 : K) (i : N),
  no_index k1 = Some i -> no_index k2 = Some i -> k1 = k2.
Proof. unfold no_index. discriminate. Qed.

(** X8: on a non-empty history whose minutes the source adds exactly
    ([exactMinutes]) and whose dates are written with four-digit years
    ([fourDigitYears], so that the rendered date names the day), the most
    memorable day is a local calendar day whose summed minutes no other
    day exceeds, the first such day of the history among equals; the
    reported minutes are that sum rounded, and the reported date is the
    start of the first play of that day in the history, not its
    midnight. *)
Theorem most_memorable_day :
  forall tzOffset userId analysisYear history overseerr w,
    history <> [] ->
    exactMinutes history = true ->
    fourDigitYears tzOffset history = true ->
    let r := report tzOffset userId analysisYear history overseerr w in
    exists e0,
      firstFor Z.eq_dec (dayOf tzOffset) (dayOf tzOffset e0) history = Some e0
      /\ ProcessedStats.mostMemorableDayDate r = Some (started e0 * 1000)
      /\ ProcessedStats.mostMemorableDayMinutes r
         = JS.Math_round (dayMinutes tzOffset history (dayOf tzOffset e0))
      /\ forall e, In e history ->
           (dayMinutes tzOffset history (dayOf tzOffset e)
            <= dayMinutes tzOffset history (dayOf tzOffset e0))%Q
           /\ ((dayMinutes tzOffset history (dayOf tzOffset e)
                == dayMinutes tzOffset history (dayOf tzOffset e0))%Q ->
               dayOf tzOffset e <> dayOf tzOffset e0 ->
               first_seen_before (map (dayOf tzOffset) history)
                 (dayOf tzOffset e0) (dayOf tzOffset e)).
Proof.
  intros tzOffset userId analysisYear history overseerr w Hne _ _ r.
  destruct (report_fun tzOffset userId analysisYear history overseerr w)
    as [_ [_ [_ [_ [_ [Hd Hm]]]]]].
  subst r. rewrite Hd, Hm.
  cbn [calculateFunStats FunStats.mostMemorableDayDate
       FunStats.mostMemorableDayMinutes].
  set (D := dayStats tzOffset history).
  set (E := JS.Object_entries (@no_index Z) D).
  unfold JS.Object_values. fold E.
  rewrite sort_map.
  set (after := fun a b : Z * DayAcc => byDescendingQ dy_minutes (snd a) (snd b)).
  assert (Hkeys : map fst D = JS.Set_of Z.eq_dec (map (dayOf tzOffset) history))
    by apply fold_upsert_keys.
  assert (Hmin : forall k v, In (k, v) D ->
                   (dy_minutes v == dayMinutes tzOffset history k)%Q).
  { intros k v Hin. unfold D, dayStats in Hin.
    eapply grouped_sumQ with (measure := dy_minutes) (weight := minutesOf)
      in Hin; [exact Hin | | ]; intros; cbn [dy_minutes]; ring. }
  assert (Hdate : forall k v, In (k, v) D ->
                   exists e, firstFor Z.eq_dec (dayOf tzOffset) k history = Some e
                             /\ dy_date v = started e * 1000).
  { intros k v Hin. unfold D, dayStats in Hin.
    eapply grouped_first with (kept := dy_date)
                              (taken := fun e => started e * 1000) in Hin;
      [exact Hin | | ]; intros; reflexivity. }
  assert (HD : D <> []).
  { destruct history as [|e history]; [congruence|].
    intros HDnil.
    assert (Hin : In (dayOf tzOffset e) (map fst D)).
    { rewrite Hkeys. apply Set_of_In. now left. }
    rewrite HDnil in Hin. contradiction. }
  destruct (sort_nonempty after (entries_nonempty (@no_index Z) HD))
    as [[k0 v0] [t Hs]].
  fold E in Hs. rewrite Hs. cbn [map hd_error option_map snd].
  assert (Hin0 : In (k0, v0) D).
  { apply (entries_In (@no_index Z)). fold E.
    apply (sort_In after). rewrite Hs. now left. }
  destruct (Hdate _ _ Hin0) as [e0 [Hfirst Hd0]].
  destruct (firstFor_Some _ _ _ _ Hfirst) as [He0 [Hk0 _]].
  exists e0. rewrite Hk0.
  split; [exact Hfirst|]. split; [now rewrite Hd0|]. split.
  - unfold JS.Math_round. apply Qfloor_comp. rewrite (Hmin _ _ Hin0). reflexivity.
  - intros e He.
    destruct (grouped_key_present Z.eq_dec (dayOf tzOffset)
                (fun r => {| dy_minutes := 0; dy_date := started r * 1000 |})
                (fun r d => {| dy_minutes := dy_minutes d + minutesOf r;
                               dy_date := dy_date d |}) history e He)
      as [v Hv].
    change (In (dayOf tzOffset e, v) D) in Hv.
    rewrite <- (Hmin _ _ Hv), <- (Hmin _ _ Hin0).
    assert (HvE : In (dayOf tzOffset e, v) E) by (now apply entries_In).
    destruct (@sort_head _ after
                (byDescendingQ_asym (fun x : Z * DayAcc => dy_minutes (snd x)))
                (byDescendingQ_ntrans (fun x : Z * DayAcc => dy_minutes (snd x)))
                _ _ _ _ Hs HvE) as [Eq | [H1 H2]].
    + inversion Eq; subst. split; [lra | congruence].
    + apply (byDescendingQ_false (fun x : Z * DayAcc => dy_minutes (snd x)))
        in H1. cbn [snd] in H1. split; [exact H1|].
      intros Heq _.
      assert (Hp : precedes E (k0, v0) (dayOf tzOffset e, v)).
      { apply H2.
        apply (byDescendingQ_false (fun x : Z * DayAcc => dy_minutes (snd x))).
        cbn [snd]. lra. }
      exact (@entries_order Z DayAcc (@no_index Z) (@no_index_inj Z) Z.eq_dec
               D (map (dayOf tzOffset) history) _ _ Hkeys Hp).
Qed.

Lemma most_memorable_day_witness :
  lateEvening <> []
  /\ exactMinutes lateEvening = true
  /\ fourDigitYears utcPlusOne lateEvening = true
  /\ exists e0,
       firstFor Z.eq_dec (dayOf utcPlusOne) (dayOf utcPlusOne e0) lateEvening
       = Some e0
       /\ ProcessedStats.mostMemorableDayDate
            (report utcPlusOne 7 2024 lateEvening Disabled idle)
          = Some (started e0 * 1000)
       /\ ProcessedStats.mostMemorableDayMinutes
            (report utcPlusOne 7 2024 lateEvening Disabled idle)
          = JS.Math_round (dayMinutes utcPlusOne lateEvening (dayOf utcPlusOne e0)).
Proof.
  assert (Hne : lateEvening <> []) by discriminate.
  assert (Hexact : exactMinutes lateEvening = true) by reflexivity.
  assert (Hyears : fourDigitYears utcPlusOne lateEvening = true) by reflexivity.
  split; [exact Hne|]. split; [exact Hexact|]. split; [exact Hyears|].
  destruct (most_memorable_day utcPlusOne 7 2024 Disabled idle Hne Hexact Hyears)
    as [e0 [H1 [H2 [H3 _]]]].
  exists e0. auto.
Defined.

(* ================================================================== *)
(** * The longest binge and the longest streak, bounds                 *)
(* ================================================================== *)

Lemma fold_get_invariant_In : forall {K V R : Type}
    (eq_dec : forall a b : K, {a = b} + {a <> b})
    (step : list (K * V) -> R -> list (K * V)) (P : K -> V -> Prop)
    (rs : list R),
  (forall o r, In r rs ->
     (forall k v, JS.get eq_dec o k = Some v -> P k v) ->
     forall k v, JS.get eq_dec (step o r) k = Some v -> P k v) ->
  forall o,
    (forall k v, JS.get eq_dec o k = Some v -> P k v) ->
    forall k v, JS.get eq_dec (fold_left step rs o) k = Some v -> P k v.
Proof.
  intros K V R eq_dec step P rs Hstep.
  assert (H : forall rs0, incl rs0 rs -> forall o,
             (forall k v, JS.get eq_dec o k = Some v -> P k v) ->
             forall k v, JS.get eq_dec (fold_left step rs0 o) k = Some v -> P k v).
  { induction rs0 as [|r rs0 IH]; intros Hincl o Ho; simpl; auto.
    apply IH.
    - intros x Hx. apply Hincl. now right.
    - apply Hstep; auto. apply Hincl. now left. }
  apply H. apply incl_refl.
Qed.

Lemma groupByShow_members : forall episodes k l e,
  In (k, l) (groupByShow episodes) -> In e l -> In e episodes.
Proof.
  intros episodes k l e Hin He. unfold groupByShow in Hin.
  apply In_get with (eq_dec := Z.eq_dec) in Hin;
    [|rewrite fold_upsert_keys; apply Set_of_NoDup].
  revert e He. revert k l Hin.
  apply (fold_get_invariant_In Z.eq_dec _
           (fun (_ : Z) l => forall e, In e l -> In e episodes)).
  - intros o r Hr Ho k l. rewrite get_upsert.
    destruct (Z.eq_dec k (grandparent_rating_key r)) as [-> | Hne]; [|apply Ho].
    intros E. inversion E; subst; clear E. intros e He.
    apply in_app_or in He. destruct He as [He | [<- | []]]; auto.
    destruct (JS.get Z.eq_dec o (grandparent_rating_key r)) as [l0|] eqn:E0.
    + eapply Ho; eauto.
    + contradiction.
  - simpl. discriminate.
Qed.

Lemma closeBinge_invariant : forall episodes q e best,
  In e episodes -> bingeInvariant episodes best ->
  bingeInvariant episodes (closeBinge q e best).
Proof.
  intros episodes q e best He [H0 [Hn Hs]].
  pose proof (closeBinge_fst q e best) as Hfst.
  unfold bingeInvariant. rewrite Hfst. split; [lia|].
  unfold closeBinge in *.
  destruct (negb (Qle_bool q (inject_Z (fst best)))); cbn [fst snd] in *.
  - split; [discriminate|]. intros s E. inversion E; subst. eauto.
  - split; [intros E; specialize (Hn E); lia | exact Hs].
Qed.

Lemma bingeLoop_invariant : forall episodes sorted q best,
  (forall e, In e sorted -> In e episodes) ->
  bingeInvariant episodes best ->
  bingeInvariant episodes (bingeLoop sorted q best).
Proof.
  intros episodes. induction sorted as [|e rest IH]; intros q best Hin Hb.
  - exact Hb.
  - destruct rest as [|next rest].
    + cbn [bingeLoop]. apply closeBinge_invariant; auto. apply Hin. now left.
    + rewrite bingeLoop_step.
      assert (Hrest : forall x, In x (next :: rest) -> In x episodes)
        by (intros x Hx; apply Hin; now right).
      destruct (3600 <? started next - stopped e).
      * apply IH; auto. apply closeBinge_invariant; auto. apply Hin. now left.
      * apply IH; auto.
Qed.

Lemma longestBinge_invariant : forall history,
  bingeInvariant (filter isEpisode history) (longestBinge history).
Proof.
  intros history. unfold longestBinge. fold isEpisode.
  set (episodes := filter isEpisode history).
  assert (Hall : forall entry,
             In entry (JS.Object_entries JS.number_index (groupByShow episodes)) ->
             forall e, In e (snd entry) -> In e episodes).
  { intros [k l] Hk e He. apply entries_In in Hk.
    eapply groupByShow_members; eauto. }
  revert Hall.
  generalize (JS.Object_entries JS.number_index (groupByShow episodes)).
  assert (H0 : bingeInvariant episodes (0, None)).
  { repeat split; simpl; try lia. discriminate. }
  revert H0. generalize (0, @None string).
  intros best Hb entries. revert best Hb.
  induction entries as [|entry entries IH]; intros best Hb Hall; cbn [fold_left].
  - exact Hb.
  - apply IH.
    + apply bingeLoop_invariant; auto.
      intros e He.
      eapply Hall; [now left | exact (proj1 (sort_In _ _ _) He)].
    + intros entry' He'. apply Hall. now right.
Qed.

Lemma report_binge : forall tzOffset userId analysisYear history overseerr w,
  let r := report tzOffset userId analysisYear history overseerr w in
  ProcessedStats.longestBingeMinutes r = fst (longestBinge history)
  /\ ProcessedStats.longestBingeShow r = snd (longestBinge history).
Proof.
  intros tzOffset userId analysisYear history overseerr w. cbv zeta.
  run_orchestrator history overseerr w; unfold calculateViewingPatterns;
    try (destruct (longestBinge (t :: history))); split; reflexivity.
Qed.

(** X9: on a history whose minutes the source adds exactly
    ([exactMinutes]), [longestBingeMinutes] is the best session total in
    whole minutes over all shows and sessions.  On every history it is
    never negative; a report without a binge show has zero binge
    minutes, so a binge of more than 180 minutes always names a show;
    the show named is the title of an episode play of the history. *)
Theorem longest_binge_minutes_and_show :
  forall tzOffset userId analysisYear history overseerr w,
    let r := report tzOffset userId analysisYear history overseerr w in
    (exactMinutes history = true ->
     ProcessedStats.longestBingeMinutes r = maxSessionMinutes_spec history)
    /\ 0 <= ProcessedStats.longestBingeMinutes r
    /\ (ProcessedStats.longestBingeShow r = None ->
        ProcessedStats.longestBingeMinutes r = 0)
    /\ (0 < ProcessedStats.longestBingeMinutes r ->
        exists e, In e history /\ media_type e = episode
                  /\ ProcessedStats.longestBingeShow r
                     = Some (grandparent_title e)).
Proof.
  intros tzOffset userId analysisYear history overseerr w r.
  destruct (report_binge tzOffset userId analysisYear history overseerr w)
    as [Hm Hs].
  subst r. rewrite Hm, Hs.
  destruct (longestBinge_invariant history) as [H0 [Hn Hsome]].
  split; [intros _; apply longestBingeMinutes_max|]. split; [exact H0|].
  split; [exact Hn|].
  intros Hpos. destruct (snd (longestBinge history)) as [s|] eqn:E.
  - destruct (Hsome s eq_refl) as [e [He Ht]].
    apply filter_In in He. destruct He as [He Hkind].
    exists e. repeat split; auto.
    + unfold isEpisode in Hkind. now destruct (media_type e).
    + now rewrite Ht.
  - specialize (Hn eq_refl). lia.
Qed.

Lemma longest_binge_minutes_and_show_witness :
  exactMinutes rewatchedEpisode = true
  /\ maxSessionMinutes_spec rewatchedEpisode = 60
  /\ ProcessedStats.longestBingeMinutes
       (report DateFns.utc 7 2024 rewatchedEpisode Disabled idle)
     = maxSessionMinutes_spec rewatchedEpisode.
Proof.
  split; [reflexivity|]. split; [reflexivity|].
  apply (longest_binge_minutes_and_show DateFns.utc 7 2024 rewatchedEpisode
           Disabled idle).
  reflexivity.
Defined.

Lemma run_le_distinct : forall dates start len,
  run dates start len -> len <= distinct dates.
Proof.
  intros dates start len Hrun.
  destruct (Z_le_gt_dec len 0) as [Hle | Hgt].
  { unfold distinct. lia. }
  set (l := map (fun i => start + Z.of_nat i) (seq 0 (Z.to_nat len))).
  assert (Hnd : NoDup l).
  { subst l. apply Finite.Injective_map_NoDup; [|apply seq_NoDup].
    intros a b Hab. lia. }
  assert (Hincl : incl l (nodup Z.eq_dec dates)).
  { intros x Hx. subst l. apply in_map_iff in Hx.
    destruct Hx as [i [<- Hi]]. apply in_seq in Hi.
    apply nodup_In. apply Hrun. lia. }
  pose proof (NoDup_incl_length Hnd Hincl) as Hlen.
  subst l. rewrite length_map, length_seq in Hlen.
  unfold distinct. lia.
Qed.

(** X10: the longest streak of a non-empty history lasts at least one day and
    at most as many days as the history has active days. *)
Theorem streak_within_days_active :
  forall tzOffset userId analysisYear history overseerr w,
    history <> [] ->
    let r := report tzOffset userId analysisYear history overseerr w in
    1 <= ProcessedStats.longestStreakDays r <= ProcessedStats.daysActive r.
Proof.
  intros tzOffset userId analysisYear history overseerr w Hne r.
  destruct (report_patterns tzOffset userId analysisYear overseerr w Hne)
    as [_ [_ [_ [Hs _]]]].
  destruct (report_basic tzOffset userId analysisYear overseerr w Hne)
    as [_ Hd].
  subst r. rewrite Hs, Hd.
  cbn [calculateBasicStats BasicStats.daysActive]. rewrite Set_of_size.
  unfold calculateViewingPatterns. destruct (longestBinge history).
  cbn [ViewingPatterns.longestStreakDays].
  destruct (longestStreak_spec tzOffset Hne) as [[s Hrun] Hmax].
  split.
  - destruct history as [|e history]; [congruence|].
    apply (Hmax (DateFns.localDay tzOffset (started e))).
    intros i Hi. replace (DateFns.localDay tzOffset (started e) + i)
      with (DateFns.localDay tzOffset (started e)) by lia.
    now left.
  - eapply run_le_distinct; eauto.
Qed.

Lemma streak_within_days_active_witness :
  threeActiveDays <> []
  /\ 1 <= ProcessedStats.longestStreakDays
            (report DateFns.utc 7 2024 threeActiveDays Disabled idle)
       <= ProcessedStats.daysActive
            (report DateFns.utc 7 2024 threeActiveDays Disabled idle).
Proof.
  split; [discriminate|].
  apply (streak_within_days_active DateFns.utc 7 2024 (history := threeActiveDays)
           Disabled idle).
  discriminate.
Defined.

(* ================================================================== *)
(** * Fun facts and badges                                             *)
(* ================================================================== *)

Lemma report_facts_badges : forall tzOffset userId analysisYear e history overseerr w,
  let h := e :: history in
  let r := report tzOffset userId analysisYear h overseerr w in
  ProcessedStats.funFacts r
  = generateFunFacts h (calculateBasicStats tzOffset h)
      (calculateViewingPatterns tzOffset h) (enrichmentOf overseerr)
  /\ ProcessedStats.badges r
     = generateBadges h (calculateBasicStats tzOffset h)
         (calculateViewingPatterns tzOffset h) (enrichmentOf overseerr)
  /\ ProcessedStats.overseerrStats r = enrichmentOf overseerr.
Proof.
  intros tzOffset userId analysisYear e history overseerr w h r. subst r h.
  unfold report, calculateUserStats, Effects.bind, Effects.logger,
    Effects.Date_now, Effects.ret.
  destruct overseerr; destruct w as [[|? [|? ?]] ?];
    cbn [fst snd Effects.clock Effects.logged enrichmentOf];
    repeat split; reflexivity.
Qed.

Lemma push_whenever : forall {A : Type} (c : bool) (l : list A) (x : A),
  (if c then l ++ [x] else l) = l ++ whenever c x.
Proof.
  intros A c l x. destruct c; simpl; [reflexivity | now rewrite app_nil_r].
Qed.

(** One [if (c) list.push(x)] statement of a sequence of such. *)
Ltac push_statement :=
  match goal with
  | |- (let x := ?a in @?b x) = ?rhs =>
      change (b a = rhs); cbv beta; rewrite ?push_whenever
  end.

Lemma generateFunFacts_eq : forall history basicStats patterns overseerrStats,
  exists marathon night early dedicated tv movie,
    generateFunFacts history basicStats patterns overseerrStats
    = whenever (180 <? ViewingPatterns.longestBingeMinutes patterns)
        ("Marathon Master - Binged " ++ marathon)%string
      ++ whenever ((22 <=? ViewingPatterns.mostActiveHour patterns)
                   || (ViewingPatterns.mostActiveHour patterns <=? 4))
           ("Night Owl - Most active viewing at " ++ night)%string
      ++ whenever ((5 <=? ViewingPatterns.mostActiveHour patterns)
                   && (ViewingPatterns.mostActiveHour patterns <=? 8))
           ("Early Bird - Started the day with content at " ++ early)%string
      ++ whenever (300 <? BasicStats.daysActive basicStats)
           ("Dedicated Viewer - Active on " ++ dedicated)%string
      ++ whenever (500 <? BasicStats.totalTvEpisodes basicStats)
           ("TV Enthusiast - Watched " ++ tv)%string
      ++ whenever (100 <? BasicStats.totalMovies basicStats)
           ("Movie Buff - Watched " ++ movie)%string
      ++ fst (curatedFacts overseerrStats) ++ snd (curatedFacts overseerrStats).
Proof.
  intros history basicStats patterns overseerrStats.
  do 6 eexists. unfold curatedFacts. cbv beta delta [generateFunFacts].
  do 7 push_statement.
  destruct overseerrStats as [o|];
    [destruct (averageApprovalTimeHours o) as [hours|]|];
    push_statement; cbv zeta; rewrite ?push_whenever;
    cbn [curatedFacts fst snd]; rewrite <- ?app_assoc; cbn [app];
    rewrite ?app_nil_r; reflexivity.
Qed.

Lemma generateBadges_eq : forall history basicStats patterns overseerrStats,
  exists marathon consistent tv cinema curator : Badge.t,
    (Badge.name marathon = "Marathon Master"
     /\ Badge.name consistent = "Consistent Viewer"
     /\ Badge.name tv = "TV Fanatic"
     /\ Badge.name cinema = "Cinema Enthusiast"
     /\ Badge.name curator = "Content Curator")%string
    /\ generateBadges history basicStats patterns overseerrStats
       = whenever (240 <? ViewingPatterns.longestBingeMinutes patterns) marathon
         ++ whenever (30 <? ViewingPatterns.longestStreakDays patterns) consistent
         ++ whenever (500 <? BasicStats.totalTvEpisodes basicStats) tv
         ++ whenever (100 <? BasicStats.totalMovies basicStats) cinema
         ++ match overseerrStats with
            | Some o => whenever (50 <? totalRequests o) curator
            | None => []
            end.
Proof.
  intros history basicStats patterns overseerrStats.
  do 5 eexists. split; cycle 1.
  - cbv beta delta [generateBadges].
    do 5 push_statement.
    destruct overseerrStats as [o|];
      push_statement; rewrite <- ?app_assoc; cbn [app];
      rewrite ?app_nil_r; reflexivity.
  - repeat split.
Qed.

Lemma night_owl_early_bird_exclusive : forall hour,
  ((22 <=? hour) || (hour <=? 4)) && ((5 <=? hour) && (hour <=? 8)) = false.
Proof.
  intros hour.
  destruct (Z.leb_spec 22 hour), (Z.leb_spec hour 4), (Z.leb_spec 5 hour),
    (Z.leb_spec hour 8); try reflexivity; lia.
Qed.

Lemma length_whenever : forall {A : Type} (c : bool) (x : A),
  List.length (whenever c x) = if c then 1%nat else 0%nat.
Proof. intros A c x. now destruct c. Qed.

Lemma existsb_whenever : forall {A : Type} (p : A -> bool) (c : bool) (x : A),
  existsb p (whenever c x) = c && p x.
Proof. intros A p c x. destruct c; simpl; [apply orb_false_r | reflexivity]. Qed.

Lemma prefix_append : forall heading rest : string,
  String.prefix heading (heading ++ rest) = true.
Proof.
  induction heading as [|a heading IH]; intros rest; simpl;
    [now destruct rest|].
  destruct (ascii_dec a a); [apply IH | congruence].
Qed.

Lemma prefix_empty : forall s : string, String.prefix "" s = true.
Proof. now destruct s. Qed.

Lemma generateFunFacts_bounded : forall history basicStats patterns overseerrStats,
  let facts := generateFunFacts history basicStats patterns overseerrStats in
  (List.length facts <= 7)%nat
  /\ (overseerrStats = None -> List.length facts <= 5)%nat
  /\ hasFact "Night Owl - " facts && hasFact "Early Bird - " facts = false.
Proof.
  intros history basicStats patterns overseerrStats facts. subst facts.
  destruct (generateFunFacts_eq history basicStats patterns overseerrStats)
    as (marathon & night & early & dedicated & tv & movie & ->).
  pose proof (night_owl_early_bird_exclusive
                (ViewingPatterns.mostActiveHour patterns)) as Hex.
  revert Hex.
  generalize ((22 <=? ViewingPatterns.mostActiveHour patterns)
              || (ViewingPatterns.mostActiveHour patterns <=? 4)).
  generalize ((5 <=? ViewingPatterns.mostActiveHour patterns)
              && (ViewingPatterns.mostActiveHour patterns <=? 8)).
  intros isEarly isNight Hex.
  assert (Hcurated :
            (List.length (fst (curatedFacts overseerrStats)) <= 1
             /\ List.length (snd (curatedFacts overseerrStats)) <= 1
             /\ (overseerrStats = None ->
                 List.length (fst (curatedFacts overseerrStats)) = 0
                 /\ List.length (snd (curatedFacts overseerrStats)) = 0))%nat).
  { destruct overseerrStats as [o|]; cbn [curatedFacts fst snd].
    - rewrite length_whenever.
      destruct (averageApprovalTimeHours o); [rewrite length_whenever|].
      + destruct (20 <? totalRequests o), (isTruthyQ (Some q) && negb (Qle_bool 2 q));
          repeat split; simpl; try lia; discriminate.
      + destruct (20 <? totalRequests o); repeat split; simpl; try lia; discriminate.
    - simpl. repeat split; lia. }
  split; [|split].
  - rewrite !length_app, !length_whenever.
    destruct Hcurated as [H1 [H2 _]].
    destruct (180 <? _), isNight, isEarly, (300 <? _), (500 <? _), (100 <? _);
      try discriminate Hex; lia.
  - intros Hnone. rewrite !length_app, !length_whenever.
    destruct Hcurated as [_ [_ H]]. destruct (H Hnone) as [H1 H2].
    destruct (180 <? _), isNight, isEarly, (300 <? _), (500 <? _), (100 <? _);
      try discriminate Hex; lia.
  - unfold hasFact. rewrite !existsb_app, !existsb_whenever.
    assert (Hc : forall heading,
               (heading = "Night Owl - " \/ heading = "Early Bird - ")%string ->
               existsb (String.prefix heading) (fst (curatedFacts overseerrStats))
                 = false
               /\ existsb (String.prefix heading) (snd (curatedFacts overseerrStats))
                  = false).
    { intros heading Hh.
      destruct overseerrStats as [o|]; cbn [curatedFacts fst snd];
        [|split; reflexivity].
      rewrite existsb_whenever.
      destruct (averageApprovalTimeHours o); [rewrite existsb_whenever|];
        destruct Hh as [-> | ->]; split;
        cbn [existsb]; rewrite ?andb_false_r; reflexivity. }
    destruct (Hc "Night Owl - "%string (or_introl eq_refl)) as [-> ->].
    destruct (Hc "Early Bird - "%string (or_intror eq_refl)) as [-> ->].
    cbn. rewrite ?andb_false_r, ?andb_true_r, ?orb_false_r.
    destruct isNight, isEarly; try discriminate Hex; reflexivity.
Qed.

Lemma generateBadges_backed : forall history basicStats patterns overseerrStats,
  let facts := generateFunFacts history basicStats patterns overseerrStats in
  let badges := generateBadges history basicStats patterns overseerrStats in
  (List.length badges <= 5)%nat
  /\ NoDup (map Badge.name badges)
  /\ (hasBadge "Marathon Master" badges = true ->
      hasFact "Marathon Master - Binged " facts = true)
  /\ (hasBadge "TV Fanatic" badges = true ->
      hasFact "TV Enthusiast - Watched " facts = true)
  /\ (hasBadge "Cinema Enthusiast" badges = true ->
      hasFact "Movie Buff - Watched " facts = true)
  /\ (hasBadge "Content Curator" badges = true ->
      hasFact "Content Curator - Requested " facts = true).
Proof.
  intros history basicStats patterns overseerrStats facts badges.
  subst facts badges.
  destruct (generateFunFacts_eq history basicStats patterns overseerrStats)
    as (marathon & night & early & dedicated & tv & movie & ->).
  destruct (generateBadges_eq history basicStats patterns overseerrStats)
    as (bMarathon & bConsistent & bTv & bCinema & bCurator
        & (Hn1 & Hn2 & Hn3 & Hn4 & Hn5) & ->).
  assert (Hbinge : (240 <? ViewingPatterns.longestBingeMinutes patterns) = true ->
                   (180 <? ViewingPatterns.longestBingeMinutes patterns) = true).
  { intros H. apply Z.ltb_lt in H. apply Z.ltb_lt. lia. }
  assert (Hreq : forall o, (50 <? totalRequests o) = true ->
                           (20 <? totalRequests o) = true).
  { intros o H. apply Z.ltb_lt in H. apply Z.ltb_lt. lia. }
  unfold hasBadge, hasFact.
  rewrite ?map_app, ?length_app, ?existsb_app, ?existsb_whenever,
    ?length_whenever.
  rewrite Hn1, Hn2, Hn3, Hn4.
  set (curated := match overseerrStats with
                  | Some o => whenever (50 <? totalRequests o) bCurator
                  | None => []
                  end).
  assert (Hcurated :
            (List.length curated <= 1)%nat
            /\ (curated = [] \/ curated = [bCurator])
            /\ (curated = [bCurator] ->
                existsb (String.prefix "Content Curator - Requested ")
                  (fst (curatedFacts overseerrStats)) = true)).
  { subst curated. destruct overseerrStats as [o|].
    - specialize (Hreq o). cbn [curatedFacts fst].
      destruct (50 <? totalRequests o); cbn [whenever List.length].
      + rewrite (Hreq eq_refl). split; [lia|]. split; [now right|].
        intros _. cbn [whenever existsb]. rewrite prefix_append. reflexivity.
      + split; [lia|]. split; [now left | discriminate].
    - simpl. split; [lia|]. split; [now left | discriminate]. }
  destruct Hcurated as [Hlen [Hshape Hfact]].
  generalize dependent curated. intros curated Hlen Hshape Hfact.
  generalize dependent (240 <? ViewingPatterns.longestBingeMinutes patterns).
  generalize (180 <? ViewingPatterns.longestBingeMinutes patterns).
  generalize (30 <? ViewingPatterns.longestStreakDays patterns).
  generalize (500 <? BasicStats.totalTvEpisodes basicStats).
  generalize (100 <? BasicStats.totalMovies basicStats).
  generalize ((22 <=? ViewingPatterns.mostActiveHour patterns)
              || (ViewingPatterns.mostActiveHour patterns <=? 4)).
  generalize ((5 <=? ViewingPatterns.mostActiveHour patterns)
              && (ViewingPatterns.mostActiveHour patterns <=? 8)).
  generalize (300 <? BasicStats.daysActive basicStats).
  intros isDedicated isEarly isNight manyMovies manyEpisodes longStreak
    longBinge veryLongBinge Hbinge.
  split; [|split].
  - destruct veryLongBinge, longStreak, manyEpisodes, manyMovies; lia.
  - destruct Hshape as [-> | ->];
      destruct veryLongBinge, longStreak, manyEpisodes, manyMovies;
      cbn [whenever map app]; rewrite ?Hn1, ?Hn2, ?Hn3, ?Hn4, ?Hn5;
      repeat (constructor; [cbn [In]; intuition discriminate|]); constructor.
  - cbn. rewrite ?prefix_empty, ?andb_true_r.
    destruct Hshape as [E | E]; rewrite E in *; cbn [existsb];
      rewrite ?Hn5;
      (destruct veryLongBinge; [rewrite (Hbinge eq_refl)|]);
      destruct manyEpisodes, manyMovies; cbn;
      rewrite ?andb_false_r, ?andb_true_r; cbn; rewrite ?orb_false_r;
      repeat split; intros H; try discriminate H; try reflexivity;
      rewrite ?(Hfact eq_refl), ?orb_true_r; reflexivity.
Qed.

(** X11: at most seven fun facts are listed, at most five when no enrichment
    statistics reach the report; the "Night Owl" and the "Early Bird"
    facts are never listed together. *)
Theorem fun_facts_bounded :
  forall tzOffset userId analysisYear history overseerr w,
    let r := report tzOffset userId analysisYear history overseerr w in
    (List.length (ProcessedStats.funFacts r) <= 7)%nat
    /\ (ProcessedStats.overseerrStats r = None ->
        (List.length (ProcessedStats.funFacts r) <= 5)%nat)
    /\ hasFact "Night Owl - " (ProcessedStats.funFacts r)
       && hasFact "Early Bird - " (ProcessedStats.funFacts r) = false.
Proof.
  intros tzOffset userId analysisYear history overseerr w.
  destruct history as [|e history].
  - run_orchestrator (@nil TautulliHistoryRecord) overseerr w;
      cbn; repeat split; intros; lia.
  - destruct (report_facts_badges tzOffset userId analysisYear e history overseerr w)
      as [Hf [_ Ho]].
    cbv zeta in *. rewrite Hf, Ho. apply generateFunFacts_bounded.
Qed.

(** X12: the badges are at most five and bear different names; the "Marathon
    Master", "TV Fanatic", "Cinema Enthusiast" and "Content Curator"
    badges are each awarded only together with the fun fact on the same
    subject (the thresholds of the badges are at least those of the
    facts). *)
Theorem badges_backed_by_facts :
  forall tzOffset userId analysisYear history overseerr w,
    let r := report tzOffset userId analysisYear history overseerr w in
    let facts := ProcessedStats.funFacts r in
    let badges := ProcessedStats.badges r in
    (List.length badges <= 5)%nat
    /\ NoDup (map Badge.name badges)
    /\ (hasBadge "Marathon Master" badges = true ->
        hasFact "Marathon Master - Binged " facts = true)
    /\ (hasBadge "TV Fanatic" badges = true ->
        hasFact "TV Enthusiast - Watched " facts = true)
    /\ (hasBadge "Cinema Enthusiast" badges = true ->
        hasFact "Movie Buff - Watched " facts = true)
    /\ (hasBadge "Content Curator" badges = true ->
        hasFact "Content Curator - Requested " facts = true).
Proof.
  intros tzOffset userId analysisYear history overseerr w.
  destruct history as [|e history].
  - run_orchestrator (@nil TautulliHistoryRecord) overseerr w;
      cbn; repeat split; try discriminate; try lia; constructor.
  - destruct (report_facts_badges tzOffset userId analysisYear e history overseerr w)
      as [Hf [Hb _]].
    cbv zeta in *. rewrite Hf, Hb. apply generateBadges_backed.
Qed.

(* ================================================================== *)
(** * Failure of the enrichment collaborator                           *)
(* ================================================================== *)

(** X13: when the enrichment collaborator fails, the run returns the report
    of a run without enrichment, enrichment statistics absent, reads the
    clock as often, and writes one more line, at level error, between the
    two lines of a run without enrichment. *)
Theorem enrichment_failure_degrades :
  forall tzOffset userId analysisYear e history w,
    let h := e :: history in
    let failed := calculateUserStats tzOffset userId analysisYear h Unreachable w in
    let absent := calculateUserStats tzOffset userId analysisYear h Disabled w in
    fst failed = fst absent
    /\ ProcessedStats.overseerrStats (fst failed) = None
    /\ Effects.clock (snd failed) = Effects.clock (snd absent)
    /\ exists first last,
         Effects.logged (snd absent) = Effects.logged w ++ [first; last]
         /\ Effects.logged (snd failed)
            = Effects.logged w
              ++ [first; (Effects.LError, "Failed to get Overseerr stats:"%string);
                  last].
Proof.
  intros tzOffset userId analysisYear e history w h failed absent.
  subst failed absent h.
  unfold calculateUserStats, Effects.bind, Effects.logger,
    Effects.Date_now, Effects.ret.
  destruct w as [[|? [|? ?]] ?];
    cbn [fst snd Effects.clock Effects.logged ProcessedStats.overseerrStats];
    (repeat split; try reflexivity);
    do 2 eexists; rewrite <- ?app_assoc; cbn [app]; split; reflexivity.
Qed.

(* ================================================================== *)
(** * Devices and platforms                                            *)
(* ================================================================== *)

Lemma split0_before_separator : forall c s rest,
  JS.split0 c (s ++ String c rest) = JS.split0 c s.
Proof.
  intros c. induction s as [|a s IH]; intros rest; cbn [append JS.split0].
  - now rewrite Ascii.eqb_refl.
  - destruct (Ascii.eqb a c); [reflexivity | now rewrite IH].
Qed.

Lemma Math_round_comp : forall p q : Q, (p == q)%Q -> JS.Math_round p = JS.Math_round q.
Proof.
  intros p q H. unfold JS.Math_round. apply Qfloor_comp. now rewrite H.
Qed.

Lemma sumEntries_Permutation : forall {K V : Type} (measure : V -> Z)
    (o o' : list (K * V)),
  Permutation o o' -> sumEntries measure o = sumEntries measure o'.
Proof.
  intros K V measure o o' H. unfold sumEntries.
  induction H; cbn [map fold_right]; lia.
Qed.

Lemma sumEntries_firstn : forall {K V : Type} (measure : V -> Z) n
    (o : list (K * V)),
  (forall e, In e o -> 0 <= measure (snd e)) ->
  sumEntries measure (firstn n o) <= sumEntries measure o.
Proof.
  intros K V measure. unfold sumEntries.
  induction n as [|n IH]; intros [|e o] Hpos; cbn [firstn map fold_right];
    try lia.
  - assert (H : 0 <= fold_right Z.add 0 (map (fun e => measure (snd e)) o)).
    { clear -Hpos. induction o as [|e' o IH]; cbn [map fold_right]; [lia|].
      assert (0 <= measure (snd e')) by (apply Hpos; right; now left).
      assert (0 <= fold_right Z.add 0 (map (fun e => measure (snd e)) o)).
      { apply IH. intros x [Hx | Hx]; apply Hpos; [now left | right; now right]. }
      lia. }
    pose proof (Hpos e (or_introl eq_refl)). lia.
  - assert (H : fold_right Z.add 0 (map (fun e => measure (snd e)) (firstn n o))
                <= fold_right Z.add 0 (map (fun e => measure (snd e)) o)).
    { apply IH. intros x Hx. apply Hpos. now right. }
    lia.
Qed.

(** X14: every top device describes one group of events, those of one device
    key (player, dash, platform): its name is the player of the first
    event of the group up to the first dash, its platform that of the
    first event, its plays the number of events of the group (at least
    one) and, on a history whose minutes the source adds exactly
    ([exactMinutes]), its minutes the rounded sum of the minutes of the
    group. *)
Theorem top_device_describes_group :
  forall tzOffset userId analysisYear history overseerr w d,
    In d (ProcessedStats.topDevices
            (report tzOffset userId analysisYear history overseerr w)) ->
    exists e,
      firstFor string_eq_dec deviceKey (deviceKey e) history = Some e
      /\ DeviceStat.device d = JS.split0 "-" (player e)
      /\ DeviceStat.platform d = platform e
      /\ DeviceStat.plays d
         = occurrences string_eq_dec (deviceKey e) (map deviceKey history)
      /\ 1 <= DeviceStat.plays d
      /\ (exactMinutes history = true ->
          DeviceStat.minutes d
          = JS.Math_round
              (sumForQ string_eq_dec deviceKey minutesOf (deviceKey e) history)).
Proof.
  intros tzOffset userId analysisYear history overseerr w d Hd.
  destruct (report_top_people_devices tzOffset userId analysisYear history
              overseerr w) as [_ [_ [Hdev _]]].
  rewrite Hdev in Hd. unfold topDevices in Hd.
  apply in_map_iff in Hd. destruct Hd as [[k acc] [<- Hin]].
  unfold rankedDevices in Hin. apply In_firstn, sort_In, entries_In in Hin.
  unfold deviceStats in Hin.
  pose proof Hin as Hcount. pose proof Hin as Hmin.
  eapply grouped_first with (kept := da_platform) (taken := platform) in Hin;
    [| intros; reflexivity | intros; reflexivity].
  destruct Hin as [e [Hfirst Hplat]].
  eapply grouped_sumZ with (measure := da_plays) (weight := fun _ => 1)
    in Hcount; [| intros; reflexivity | intros; reflexivity].
  eapply grouped_sumQ with (measure := da_minutes) (weight := minutesOf)
    in Hmin; [| intros; cbn; ring | intros; cbn; ring].
  destruct (firstFor_Some _ _ _ _ Hfirst) as [He [Hk _]].
  cbn [toDeviceStat DeviceStat.device DeviceStat.platform DeviceStat.plays
       DeviceStat.minutes].
  rewrite sumForZ_count in Hcount. subst k. exists e.
  split; [exact Hfirst|]. split; [|split; [auto|split; [auto|split]]].
  - unfold deviceKey.
    change (player e ++ "-" ++ platform e)%string
      with (player e ++ String "-" (platform e))%string.
    apply split0_before_separator.
  - rewrite Hcount.
    assert (Hpos : 0 < occurrences string_eq_dec (deviceKey e)
                         (map deviceKey history)).
    { apply occurrences_pos. now apply in_map. }
    lia.
  - intros _. now apply Math_round_comp.
Qed.

Lemma top_device_describes_group_witness :
  let d := {| DeviceStat.device := "TV"; DeviceStat.platform := "Roku";
              DeviceStat.plays := 2; DeviceStat.minutes := 120 |} in
  In d (ProcessedStats.topDevices (report DateFns.utc 7 2024 twoMovies Disabled idle))
  /\ exactMinutes twoMovies = true
  /\ exists e,
       firstFor string_eq_dec deviceKey (deviceKey e) twoMovies = Some e
       /\ DeviceStat.device d = JS.split0 "-" (player e)
       /\ DeviceStat.platform d = platform e
       /\ DeviceStat.plays d
          = occurrences string_eq_dec (deviceKey e) (map deviceKey twoMovies)
       /\ 1 <= DeviceStat.plays d
       /\ DeviceStat.minutes d
          = JS.Math_round
              (sumForQ string_eq_dec deviceKey minutesOf (deviceKey e) twoMovies).
Proof.
  intros d.
  assert (Hd : In d (ProcessedStats.topDevices
                       (report DateFns.utc 7 2024 twoMovies Disabled idle))).
  { vm_compute. left. reflexivity. }
  split; [exact Hd|]. split; [reflexivity|].
  destruct (top_device_describes_group DateFns.utc 7 2024 twoMovies Disabled
              idle d Hd) as [e [H1 [H2 [H3 [H4 [H5 H6]]]]]].
  exists e. repeat (split; [assumption|]). apply H6. reflexivity.
Defined.

Lemma platformStats_entry : forall history k acc,
  In (k, acc) (platformStats history) ->
  pa_plays acc = occurrences string_eq_dec k (map platform history)
  /\ 1 <= pa_plays acc
  /\ (pa_minutes acc == sumForQ string_eq_dec platform minutesOf k history)%Q.
Proof.
  intros history k acc Hin. unfold platformStats in Hin.
  pose proof Hin as Hk. apply grouped_key_seen in Hk. cbn [fst] in Hk.
  pose proof Hin as Hmin.
  eapply grouped_sumZ with (measure := pa_plays) (weight := fun _ => 1)
    in Hin; [| intros; reflexivity | intros; reflexivity].
  eapply grouped_sumQ with (measure := pa_minutes) (weight := minutesOf)
    in Hmin; [| intros; cbn; ring | intros; cbn; ring].
  rewrite sumForZ_count in Hin.
  apply (occurrences_pos string_eq_dec) in Hk.
  repeat split; auto. lia.
Qed.

Lemma NoDup_firstn : forall {A : Type} n (l : list A),
  NoDup l -> NoDup (firstn n l).
Proof.
  intros A. induction n as [|n IH]; intros [|x l] H; cbn [firstn];
    try constructor.
  - inversion H; subst. intros Hx. apply In_firstn in Hx. contradiction.
  - inversion H; subst. now apply IH.
Qed.

Lemma sum_ones : forall {R : Type} (rs : list R),
  fold_right Z.add 0 (map (fun _ => 1) rs) = Z.of_nat (List.length rs).
Proof.
  induction rs as [|r rs IH]; cbn [map fold_right List.length]; [reflexivity|].
  rewrite IH. lia.
Qed.

(** X15: the top platforms bear different names; each reports the number of
    events on that platform (at least one) and, on a history whose
    minutes the source adds exactly ([exactMinutes]), the rounded sum of
    their minutes.  Their plays add up to at most the number of events,
    and to exactly that number when the history has at most five
    platforms, none of them named like a member of [Object.prototype]
    (an event on a platform so named is counted in no entry). *)
Theorem top_platforms_count_events :
  forall tzOffset userId analysisYear history overseerr w,
    let r := report tzOffset userId analysisYear history overseerr w in
    let shown := ProcessedStats.topPlatforms r in
    let plays := fold_right Z.add 0 (map PlatformStat.plays shown) in
    NoDup (map PlatformStat.platform shown)
    /\ (forall p, In p shown ->
          PlatformStat.plays p
          = occurrences string_eq_dec (PlatformStat.platform p)
              (map platform history)
          /\ 1 <= PlatformStat.plays p
          /\ (exactMinutes history = true ->
              PlatformStat.minutes p
              = JS.Math_round
                  (sumForQ string_eq_dec platform minutesOf
                     (PlatformStat.platform p) history)))
    /\ plays <= Z.of_nat (List.length history)
    /\ (ownNames platform history = true ->
        (List.length (nodup string_eq_dec (map platform history)) <= 5)%nat ->
        plays = Z.of_nat (List.length history)).
Proof.
  intros tzOffset userId analysisYear history overseerr w r shown plays.
  destruct (report_top_people_devices tzOffset userId analysisYear history
              overseerr w) as [_ [_ [_ [Hp _]]]].
  subst plays shown r. rewrite Hp. unfold topPlatforms, rankedPlatforms, JS.slice0.
  set (sorted := JS.sort (byDescending (fun e : string * PlatformAcc => pa_plays (snd e)))
                   (JS.Object_entries JS.string_index (platformStats history))).
  assert (Hperm : Permutation (platformStats history) sorted).
  { eapply perm_trans; [apply (entries_Permutation JS.string_index)|].
    apply sort_Permutation. }
  assert (Hnames : map PlatformStat.platform (map toPlatformStat (firstn 5 sorted))
                   = firstn 5 (map fst sorted)).
  { rewrite map_map, firstn_map. apply map_ext. now intros [k acc]. }
  assert (Hplays : fold_right Z.add 0
                     (map PlatformStat.plays (map toPlatformStat (firstn 5 sorted)))
                   = sumEntries pa_plays (firstn 5 sorted)).
  { unfold sumEntries. rewrite map_map. f_equal. apply map_ext. now intros [k acc]. }
  assert (Hall : sumEntries pa_plays sorted = Z.of_nat (List.length history)).
  { rewrite <- (sumEntries_Permutation pa_plays Hperm). unfold platformStats.
    rewrite grouped_sumEntries with (weight := fun _ => 1);
      [apply sum_ones | intros; reflexivity | intros; reflexivity]. }
  split; [|split; [|split]].
  - rewrite Hnames. apply NoDup_firstn.
    apply Permutation_NoDup with (l := map fst (platformStats history)).
    + now apply Permutation_map.
    + apply grouped_NoDup.
  - intros p Hin. apply in_map_iff in Hin. destruct Hin as [[k acc] [<- Hin]].
    apply In_firstn in Hin.
    apply (Permutation_in _ (Permutation_sym Hperm)) in Hin.
    destruct (platformStats_entry _ _ _ Hin) as [H1 [H2 H3]].
    cbn [toPlatformStat PlatformStat.platform PlatformStat.plays
         PlatformStat.minutes].
    split; [exact H1|]. split; [exact H2|].
    intros _. now apply Math_round_comp.
  - rewrite Hplays, <- Hall. apply sumEntries_firstn.
    intros [k acc] Hin. apply (Permutation_in _ (Permutation_sym Hperm)) in Hin.
    destruct (platformStats_entry _ _ _ Hin) as [_ [H2 _]]. cbn [snd]. lia.
  - intros _ Hfew. rewrite Hplays, <- Hall. f_equal. apply firstn_all2.
    rewrite <- (Permutation_length Hperm).
    rewrite <- (length_map fst). unfold platformStats. rewrite fold_upsert_keys.
    erewrite Permutation_length; [exact Hfew|].
    apply NoDup_Permutation; [apply Set_of_NoDup | apply NoDup_nodup|].
    intros x. rewrite Set_of_In, nodup_In. tauto.
Qed.

Lemma top_platforms_count_events_witness :
  let shown :=
    ProcessedStats.topPlatforms
      (report DateFns.utc 7 2024 twoMovies Disabled idle) in
  exactMinutes twoMovies = true
  /\ ownNames platform twoMovies = true
  /\ (forall p, In p shown ->
        PlatformStat.minutes p
        = JS.Math_round
            (sumForQ string_eq_dec platform minutesOf
               (PlatformStat.platform p) twoMovies))
  /\ fold_right Z.add 0 (map PlatformStat.plays shown)
     = Z.of_nat (List.length twoMovies).
Proof.
  intros shown.
  destruct (top_platforms_count_events DateFns.utc 7 2024 twoMovies Disabled
              idle) as [_ [Hentry [_ Hall]]].
  split; [reflexivity|]. split; [reflexivity|]. split.
  - intros p Hp. apply (Hentry p Hp). reflexivity.
  - apply Hall; [reflexivity|]. cbn. lia.
Defined.

(* ================================================================== *)
(** * The resolution table                                             *)
(* ================================================================== *)

Lemma qualityStats_resolutions : forall history q,
  QualityStats.resolutions (fold_left qualityStep history q)
  = fold_left (fun o r => bumpAny o (resolutionOf r)) history
      (QualityStats.resolutions q).
Proof.
  induction history as [|r history IH]; intros q; cbn [fold_left].
  - reflexivity.
  - rewrite IH. f_equal. unfold qualityStep, resolutionOf.
    destruct (decisionIs r "transcode"); [|destruct (decisionIs r "copy")];
      reflexivity.
Qed.

Lemma fold_bumpAny_get : forall (rs : list TautulliHistoryRecord) o k,
  JS.get string_eq_dec
    (fold_left (fun o r => bumpAny o (resolutionOf r)) rs o) k
  = if String.eqb k "__proto__" then JS.get string_eq_dec o k
    else Nat.iter (count_occ string_eq_dec (map resolutionOf rs) k)
           (fun held => Some (plusOne k held)) (JS.get string_eq_dec o k).
Proof.
  induction rs as [|r rs IH]; intros o k; cbn [fold_left map count_occ].
  - now destruct (String.eqb k "__proto__").
  - rewrite IH, get_bumpAny.
    destruct (String.eqb_spec k "__proto__") as [-> | Hk].
    + destruct (String.eqb_spec (resolutionOf r) "__proto__") as [E | Hr];
        [reflexivity|].
      destruct (string_eq_dec "__proto__" (resolutionOf r)); congruence.
    + destruct (String.eqb_spec (resolutionOf r) "__proto__") as [E | Hr].
      * destruct (string_eq_dec (resolutionOf r) k); congruence.
      * destruct (string_eq_dec k (resolutionOf r)) as [E | Hne];
          destruct (string_eq_dec (resolutionOf r) k) as [E' | Hne'];
          try congruence.
        rewrite Nat.iter_succ_r. now rewrite <- E.
Qed.

Lemma iter_plusOne : forall k n,
  String.eqb k "__proto__" = false ->
  Nat.iter n (fun held => Some (plusOne k held)) None = heldAfter k n.
Proof.
  intros k n Hk. induction n as [|n IH].
  - reflexivity.
  - rewrite Nat.iter_succ, IH. unfold heldAfter. rewrite Hk.
    destruct n as [|n].
    + cbn [plusOne]. now destruct (inheritedMethod k).
    + destruct (inheritedMethod k); cbn [plusOne]; [reflexivity|].
      now rewrite (Nat2Z.inj_succ (S n)).
Qed.

Lemma fold_bumpAny_NoDup : forall (rs : list TautulliHistoryRecord) o,
  NoDup (map fst o) ->
  NoDup (map fst (fold_left (fun o r => bumpAny o (resolutionOf r)) rs o)).
Proof.
  induction rs as [|r rs IH]; intros o Ho; cbn [fold_left]; auto.
  apply IH. rewrite bumpAny_keys.
  destruct (String.eqb (resolutionOf r) "__proto__"); auto.
  now apply Set_add_NoDup.
Qed.

Lemma resolution_table_get : forall history res,
  JS.get string_eq_dec
    (fold_left (fun o r => bumpAny o (resolutionOf r)) history []) res
  = heldAfter res (count_occ string_eq_dec (map resolutionOf history) res).
Proof.
  intros history res. rewrite fold_bumpAny_get.
  destruct (String.eqb res "__proto__") eqn:E.
  - unfold heldAfter. rewrite E. now destruct (count_occ _ _ _).
  - now apply iter_plusOne.
Qed.

Lemma heldAfter_Some : forall k n v,
  heldAfter k n = Some v ->
  (0 < n)%nat /\ String.eqb k "__proto__" = false
  /\ v = (if inheritedMethod k then MethodText n else Count (Z.of_nat n)).
Proof.
  intros k n v H. unfold heldAfter in H. destruct n as [|n]; [discriminate|].
  destruct (String.eqb k "__proto__"); [discriminate|].
  split; [lia|]. split; [reflexivity|].
  destruct (inheritedMethod k); now inversion H.
Qed.

(** X16: the resolution table, key by key.  A resolution met in [n >= 1]
    events is a key of the table unless it is '__proto__'; it holds the
    number [n] unless it names a method that the table inherits, in which
    case it holds the text of that method followed by [n] times "1".  An
    event without resolution (missing or empty) counts under 'unknown'.
    The table has no other key: none twice, none that is empty, and never
    '__proto__'. *)
Theorem resolution_table_counts :
  forall tzOffset userId analysisYear history overseerr w,
    let table :=
      QualityStats.resolutions
        (ProcessedStats.qualityStats
           (report tzOffset userId analysisYear history overseerr w)) in
    let seen := map resolutionOf history in
    (forall res,
       JS.get string_eq_dec table res
       = heldAfter res (count_occ string_eq_dec seen res))
    /\ (forall res,
          inheritedName res = false ->
          JS.get string_eq_dec table res
          = if in_dec string_eq_dec res seen
            then Some (Count (occurrences string_eq_dec res seen))
            else None)
    /\ (forall res count,
          In (res, Count count) table ->
          inheritedName res = false /\ In res seen
          /\ count = occurrences string_eq_dec res seen /\ 1 <= count)
    /\ (forall res ones,
          In (res, MethodText ones) table ->
          inheritedMethod res = true /\ In res seen
          /\ Z.of_nat ones = occurrences string_eq_dec res seen
          /\ (1 <= ones)%nat)
    /\ NoDup (map fst table)
    /\ ~ In ""%string (map fst table)
    /\ ~ In "__proto__"%string (map fst table).
Proof.
  intros tzOffset userId analysisYear history overseerr w table seen.
  destruct (report_top_people_devices tzOffset userId analysisYear history
              overseerr w) as [_ [_ [_ [_ Hq]]]].
  assert (Htable : table
                   = fold_left (fun o r => bumpAny o (resolutionOf r)) history []).
  { subst table. rewrite Hq. unfold qualityStats.
    rewrite qualityStats_resolutions. reflexivity. }
  assert (Hget : forall res,
             JS.get string_eq_dec table res
             = heldAfter res (count_occ string_eq_dec seen res)).
  { intros res. rewrite Htable. apply resolution_table_get. }
  assert (Hnd : NoDup (map fst table)).
  { rewrite Htable. apply fold_bumpAny_NoDup. constructor. }
  assert (Hentry : forall res v,
             In (res, v) table ->
             In res seen /\ String.eqb res "__proto__" = false
             /\ v = (if inheritedMethod res
                     then MethodText (count_occ string_eq_dec seen res)
                     else Count (occurrences string_eq_dec res seen))
             /\ (1 <= count_occ string_eq_dec seen res)%nat).
  { intros res v Hin. apply (In_get string_eq_dec _ _ _ Hnd) in Hin.
    rewrite Hget in Hin. apply heldAfter_Some in Hin.
    destruct Hin as [Hpos [Hproto Hv]].
    split; [now apply (count_occ_In string_eq_dec)|]. repeat split; auto. }
  assert (Hkey : forall res,
             In res (map fst table) ->
             In res seen /\ String.eqb res "__proto__" = false).
  { intros res Hin. apply in_map_iff in Hin.
    destruct Hin as [[k v] [E Hin]]. cbn [fst] in E. subst k.
    destruct (Hentry _ _ Hin) as [H1 [H2 _]]. now split. }
  split; [exact Hget|]. split; [|split; [|split; [|split; [|split]]]].
  - intros res Hres. rewrite Hget. unfold inheritedName in Hres.
    apply orb_false_elim in Hres. destruct Hres as [Hproto Hmethod].
    unfold heldAfter, occurrences. rewrite Hproto, Hmethod.
    destruct (in_dec string_eq_dec res seen) as [Hin | Hout].
    + apply (count_occ_In string_eq_dec) in Hin.
      now destruct (count_occ string_eq_dec seen res); [lia|].
    + apply (count_occ_not_In string_eq_dec) in Hout. now rewrite Hout.
  - intros res count Hin. destruct (Hentry _ _ Hin) as [H1 [H2 [H3 H4]]].
    destruct (inheritedMethod res) eqn:Em; [discriminate|].
    inversion H3; subst count. unfold inheritedName. rewrite H2, Em.
    unfold occurrences. repeat split; auto. lia.
  - intros res ones Hin. destruct (Hentry _ _ Hin) as [H1 [H2 [H3 H4]]].
    destruct (inheritedMethod res) eqn:Em; [|discriminate].
    inversion H3; subst ones. unfold occurrences. repeat split; auto.
  - exact Hnd.
  - intros Hin. apply Hkey in Hin. destruct Hin as [Hin _].
    subst seen. apply in_map_iff in Hin.
    destruct Hin as [r [E _]]. unfold resolutionOf, orString in E.
    destruct (stream_video_resolution r) as [s|]; [|discriminate].
    destruct (String.eqb s "") eqn:Es; [discriminate|].
    subst s. discriminate.
  - intros Hin. apply Hkey in Hin. destruct Hin as [_ Hin]. discriminate.
Qed.

(* ================================================================== *)
(** * The top lists on sample histories                                *)
(* ================================================================== *)

Lemma top_movie_describes_group_witness :
  let t := {| TopMovie.title := "Alien"; TopMovie.year := 2024;
              TopMovie.plays := 1; TopMovie.durationMinutes := 60;
              TopMovie.thumb := "/t"; TopMovie.ratingKey := 1;
              TopMovie.genres := None |} in
  let movies := filter isMovie twoMovies in
  In t (ProcessedStats.topMovies (report DateFns.utc 7 2024 twoMovies Disabled idle))
  /\ exists e,
       firstFor Z.eq_dec rating_key (TopMovie.ratingKey t) movies = Some e
       /\ TopMovie.title t = title e
       /\ TopMovie.year t = year e
       /\ TopMovie.thumb t = thumb e
       /\ TopMovie.genres t = genres e
       /\ TopMovie.plays t
          = occurrences Z.eq_dec (TopMovie.ratingKey t) (map rating_key movies)
       /\ 1 <= TopMovie.plays t
       /\ TopMovie.durationMinutes t
          = (sumForZ Z.eq_dec rating_key duration (TopMovie.ratingKey t) movies
             + 30) / 60.
Proof.
  intros t movies.
  assert (Ht : In t (ProcessedStats.topMovies
                       (report DateFns.utc 7 2024 twoMovies Disabled idle))).
  { vm_compute. left. reflexivity. }
  split; [exact Ht|].
  exact (top_movie_describes_group DateFns.utc 7 2024 twoMovies Disabled idle t Ht).
Defined.

Lemma top_show_describes_group_witness :
  let t := {| TopShow.title := "X"; TopShow.plays := 3; TopShow.episodes := 2;
              TopShow.durationMinutes := 90; TopShow.thumb := "/g";
              TopShow.ratingKey := 1; TopShow.genres := None |} in
  let episodes := filter isEpisode rewatchedEpisode in
  In t (ProcessedStats.topShows
          (report DateFns.utc 7 2024 rewatchedEpisode Disabled idle))
  /\ exists e,
       firstFor Z.eq_dec grandparent_rating_key (TopShow.ratingKey t) episodes
       = Some e
       /\ TopShow.title t = grandparent_title e
       /\ TopShow.thumb t = grandparent_thumb e
       /\ TopShow.plays t
          = occurrences Z.eq_dec (TopShow.ratingKey t)
              (map grandparent_rating_key episodes)
       /\ TopShow.episodes t
          = distinct
              (map rating_key
                 (filter (fun x => grandparent_rating_key x =? TopShow.ratingKey t)
                    episodes))
       /\ 1 <= TopShow.episodes t <= TopShow.plays t
       /\ TopShow.durationMinutes t
          = (sumForZ Z.eq_dec grandparent_rating_key duration
               (TopShow.ratingKey t) episodes + 30) / 60.
Proof.
  intros t episodes.
  assert (Ht : In t (ProcessedStats.topShows
                       (report DateFns.utc 7 2024 rewatchedEpisode Disabled idle))).
  { vm_compute. left. reflexivity. }
  split; [exact Ht|].
  exact (top_show_describes_group DateFns.utc 7 2024 rewatchedEpisode Disabled
           idle t Ht).
Defined.

Lemma top_people_titles_witness :
  let r := report DateFns.utc 7 2024 withCast Disabled idle in
  let p := {| TopPerson.name := "John Hurt"; TopPerson.count := 1;
              TopPerson.titles := ["Alien"%string] |} in
  (In p (ProcessedStats.topActors r) \/ In p (ProcessedStats.topDirectors r))
  /\ NoDup (TopPerson.titles p)
  /\ (1 <= List.length (TopPerson.titles p) <= 5)%nat
  /\ Z.of_nat (List.length (TopPerson.titles p)) <= TopPerson.count p.
Proof.
  intros r p.
  assert (Hp : In p (ProcessedStats.topActors r)
               \/ In p (ProcessedStats.topDirectors r)).
  { left. vm_compute. right. left. reflexivity. }
  split; [exact Hp|].
  exact (top_people_titles DateFns.utc 7 2024 withCast Disabled idle p Hp).
Defined.

(* ================================================================== *)
(** * The monthly breakdown                                            *)
(* ================================================================== *)

Lemma split0_no_separator : forall c s,
  includes c s = false -> JS.split0 c s = s.
Proof.
  intros c. induction s as [|a s IH]; cbn [includes JS.split0]; intros H.
  - reflexivity.
  - apply orb_false_iff in H. destruct H as [Ha Hs].
    rewrite Ha. now rewrite IH.
Qed.

Lemma split1_after_separator : forall c s rest,
  includes c s = false ->
  JS.split1 c (s ++ String c rest) = JS.split0 c rest.
Proof.
  intros c. induction s as [|a s IH]; intros rest H;
    cbn [append JS.split1 includes] in *.
  - now rewrite Ascii.eqb_refl.
  - apply orb_false_iff in H. destruct H as [Ha Hs].
    rewrite Ha. now apply IH.
Qed.

Lemma includes_append : forall c s1 s2,
  includes c (s1 ++ s2) = includes c s1 || includes c s2.
Proof.
  intros c. induction s1 as [|a s1 IH]; intros s2; cbn [append includes].
  - reflexivity.
  - now rewrite IH, orb_assoc.
Qed.

Lemma string_of_uint_digits : forall u,
  includes "|" (NilEmpty.string_of_uint u) = false.
Proof. induction u; cbn [NilEmpty.string_of_uint includes]; auto. Qed.

Lemma toString_no_bar : forall z, includes "|" (JS.toString z) = false.
Proof.
  intros z. unfold JS.toString, NilZero.string_of_int.
  destruct (Z.to_int z) as [u | u]; unfold NilZero.string_of_uint;
    destruct u; try reflexivity;
    cbn [includes]; try apply (string_of_uint_digits (Decimal.D0 u));
    try apply string_of_uint_digits.
Qed.

Lemma padStart0_no_bar : forall width s,
  includes "|" s = false -> includes "|" (DateFns.padStart0 width s) = false.
Proof.
  induction width as [|w IH]; intros s H; cbn [DateFns.padStart0]; auto.
  destruct (String.length s <? S w)%nat; auto.
  cbn [includes]. now rewrite IH.
Qed.

Lemma addLeadingZeros_no_bar : forall n width,
  includes "|" (DateFns.addLeadingZeros n width) = false.
Proof.
  intros n width. unfold DateFns.addLeadingZeros.
  rewrite includes_append, padStart0_no_bar by apply toString_no_bar.
  now destruct (n <? 0).
Qed.

Lemma format_yyyy_MM_no_bar : forall tzOffset t,
  includes "|" (DateFns.format_yyyy_MM tzOffset t) = false.
Proof.
  intros tzOffset t. unfold DateFns.format_yyyy_MM. cbv zeta.
  rewrite !includes_append, !addLeadingZeros_no_bar. reflexivity.
Qed.

Lemma format_MMMM_no_bar : forall tzOffset t,
  includes "|" (DateFns.format_MMMM tzOffset t) = false.
Proof.
  intros tzOffset t. unfold DateFns.format_MMMM.
  generalize (Z.to_nat (DateFns.getMonth1 tzOffset t - 1)). intros n.
  do 12 (destruct n as [|n]; [reflexivity|]). now destruct n.
Qed.

Lemma monthKey_split : forall tzOffset r,
  JS.split0 "|" (monthKey tzOffset r) = DateFns.format_yyyy_MM tzOffset (started r)
  /\ JS.split1 "|" (monthKey tzOffset r) = DateFns.format_MMMM tzOffset (started r).
Proof.
  intros tzOffset r. unfold monthKey.
  change (DateFns.format_yyyy_MM tzOffset (started r) ++ "|"
            ++ DateFns.format_MMMM tzOffset (started r))%string
    with (DateFns.format_yyyy_MM tzOffset (started r)
            ++ String "|" (DateFns.format_MMMM tzOffset (started r)))%string.
  split.
  - rewrite split0_before_separator. apply split0_no_separator.
    apply format_yyyy_MM_no_bar.
  - rewrite split1_after_separator by apply format_yyyy_MM_no_bar.
    apply split0_no_separator. apply format_MMMM_no_bar.
Qed.

Lemma compare_not_after_trans : forall a b c : string,
  String.compare a b <> Gt -> String.compare b c <> Gt ->
  String.compare a c <> Gt.
Proof.
  intros a b c Hab Hbc.
  destruct (String.compare a b) eqn:Eab; try congruence;
    destruct (String.compare b c) eqn:Ebc; try congruence.
  - apply String.compare_eq_iff in Eab, Ebc. subst.
    pose proof (proj2 (OrderedTypeEx.String_as_OT.cmp_eq c c) eq_refl) as Hcc.
    unfold OrderedTypeEx.String_as_OT.cmp in Hcc. rewrite Hcc. discriminate.
  - apply String.compare_eq_iff in Eab. subst. rewrite Ebc. discriminate.
  - apply String.compare_eq_iff in Ebc. subst. rewrite Eab. discriminate.
  - apply OrderedTypeEx.String_as_OT.cmp_lt in Eab, Ebc.
    pose proof (@OrderedTypeEx.String_as_OT.lt_trans a b c Eab Ebc) as Hac.
    apply OrderedTypeEx.String_as_OT.cmp_lt in Hac.
    unfold OrderedTypeEx.String_as_OT.cmp in Hac. rewrite Hac. discriminate.
Qed.

Lemma monthAfter_asym : forall a b, monthAfter a b = true -> monthAfter b a = false.
Proof.
  intros a b. unfold monthAfter.
  rewrite (String.compare_antisym (MonthlyStat.month b) (MonthlyStat.month a)).
  now destruct (String.compare (MonthlyStat.month a) (MonthlyStat.month b)).
Qed.

Lemma monthAfter_false : forall a b,
  monthAfter a b = false
  <-> String.compare (MonthlyStat.month a) (MonthlyStat.month b) <> Gt.
Proof.
  intros a b. unfold monthAfter.
  destruct (String.compare (MonthlyStat.month a) (MonthlyStat.month b));
    split; congruence.
Qed.

Lemma monthAfter_ntrans : forall a b c,
  monthAfter a b = false -> monthAfter b c = false -> monthAfter a c = false.
Proof.
  intros a b c. rewrite !monthAfter_false. apply compare_not_after_trans.
Qed.

Lemma report_monthly : forall tzOffset userId analysisYear history overseerr w,
  ProcessedStats.monthlyStats
    (report tzOffset userId analysisYear history overseerr w)
  = calculateMonthlyStats tzOffset history.
Proof.
  intros tzOffset userId analysisYear history overseerr w.
  run_orchestrator history overseerr w; reflexivity.
Qed.

(** The rendering of one entry of the monthly dictionary. *)
Lemma monthlyData_entry : forall tzOffset history k acc,
  In (k, acc) (monthlyData tzOffset history) ->
  exists e,
    In e history /\ k = monthKey tzOffset e
    /\ pa_plays acc
       = occurrences string_eq_dec k (map (monthKey tzOffset) history)
    /\ 1 <= pa_plays acc
    /\ (pa_minutes acc
        == sumForQ string_eq_dec (monthKey tzOffset) minutesOf k history)%Q.
Proof.
  intros tzOffset history k acc Hin. unfold monthlyData in Hin.
  change (fun (o : list (string * PlatformAcc)) (r : TautulliHistoryRecord) =>
            let month := DateFns.format_yyyy_MM tzOffset (started r) in
            let monthName := DateFns.format_MMMM tzOffset (started r) in
            let key := (month ++ "|" ++ monthName)%string in
            upsert string_eq_dec o key {| pa_plays := 0; pa_minutes := 0 |}
              (fun p => {| pa_plays := pa_plays p + 1;
                           pa_minutes := pa_minutes p + minutesOf r |}))
    with (fun (o : list (string * PlatformAcc)) (r : TautulliHistoryRecord) =>
            upsert string_eq_dec o (monthKey tzOffset r)
              {| pa_plays := 0; pa_minutes := 0 |}
              (fun p => {| pa_plays := pa_plays p + 1;
                           pa_minutes := pa_minutes p + minutesOf r |})) in Hin.
  pose proof Hin as Hk. apply grouped_key_seen in Hk. cbn [fst] in Hk.
  pose proof Hin as Hmin.
  eapply grouped_sumZ with (measure := pa_plays) (weight := fun _ => 1)
    in Hin; [| intros; reflexivity | intros; reflexivity].
  eapply grouped_sumQ with (measure := pa_minutes) (weight := minutesOf)
    in Hmin; [| intros; cbn; ring | intros; cbn; ring].
  rewrite sumForZ_count in Hin.
  pose proof (proj1 (occurrences_pos string_eq_dec _ _) Hk) as Hpos.
  apply in_map_iff in Hk. destruct Hk as [e [Ek He]].
  exists e. repeat split; auto. lia.
Qed.

Lemma sum_Permutation : forall l l' : list Z,
  Permutation l l' -> fold_right Z.add 0 l = fold_right Z.add 0 l'.
Proof. intros l l' H. induction H; cbn [fold_right]; lia. Qed.

(** X17: the monthly breakdown has one entry for each month key of the
    history (year and month, dash-separated, with the month's name).
    An entry shows the rendered year-month and month name of an event
    of its month, the number of events of the month (at least one) and,
    on a history whose minutes the source adds exactly ([exactMinutes]),
    the rounded sum of their minutes; the plays of the entries add up to
    the number of events, and the entries are in non-decreasing order of
    their rendered year-month. *)
Theorem monthly_breakdown :
  forall tzOffset userId analysisYear history overseerr w,
    let months :=
      ProcessedStats.monthlyStats
        (report tzOffset userId analysisYear history overseerr w) in
    fold_right Z.add 0 (map MonthlyStat.plays months)
    = Z.of_nat (List.length history)
    /\ (forall m, In m months ->
          exists e,
            In e history
            /\ MonthlyStat.month m = DateFns.format_yyyy_MM tzOffset (started e)
            /\ MonthlyStat.monthName m = DateFns.format_MMMM tzOffset (started e)
            /\ MonthlyStat.plays m
               = occurrences string_eq_dec (monthKey tzOffset e)
                   (map (monthKey tzOffset) history)
            /\ 1 <= MonthlyStat.plays m
            /\ (exactMinutes history = true ->
                MonthlyStat.minutes m
                = JS.Math_round
                    (sumForQ string_eq_dec (monthKey tzOffset) minutesOf
                       (monthKey tzOffset e) history)))
    /\ (forall e, In e history ->
          exists m, In m months
                    /\ MonthlyStat.month m
                       = DateFns.format_yyyy_MM tzOffset (started e))
    /\ (forall a b, precedes months a b ->
          String.compare (MonthlyStat.month a) (MonthlyStat.month b) <> Gt).
Proof.
  intros tzOffset userId analysisYear history overseerr w months.
  subst months. rewrite report_monthly. unfold calculateMonthlyStats.
  set (render := fun e : string * PlatformAcc =>
                   let '(key, stats) := e in
                   {| MonthlyStat.month := JS.split0 "|" key;
                      MonthlyStat.monthName := JS.split1 "|" key;
                      MonthlyStat.plays := pa_plays stats;
                      MonthlyStat.minutes := JS.Math_round (pa_minutes stats) |}).
  set (entries := JS.Object_entries JS.string_index (monthlyData tzOffset history)).
  assert (Hperm : Permutation (map render (monthlyData tzOffset history))
                    (JS.sort monthAfter (map render entries))).
  { eapply perm_trans; [|apply sort_Permutation].
    apply Permutation_map. apply entries_Permutation. }
  split; [|split; [|split]].
  - rewrite <- (sum_Permutation (Permutation_map MonthlyStat.plays Hperm)).
    transitivity (sumEntries pa_plays (monthlyData tzOffset history)).
    + unfold sumEntries. rewrite map_map. f_equal. apply map_ext.
      now intros [k acc].
    + unfold monthlyData.
      rewrite grouped_sumEntries with (weight := fun _ => 1);
        [apply sum_ones | intros; reflexivity | intros; reflexivity].
  - intros m Hm. apply (Permutation_in _ (Permutation_sym Hperm)) in Hm.
    apply in_map_iff in Hm. destruct Hm as [[k acc] [<- Hin]].
    destruct (monthlyData_entry _ _ _ _ Hin) as [e [He [-> [Hp [H1 Hq]]]]].
    destruct (monthKey_split tzOffset e) as [Hs0 Hs1].
    exists e. cbn [render MonthlyStat.month MonthlyStat.monthName
                   MonthlyStat.plays MonthlyStat.minutes].
    repeat (split; [solve [auto]|]).
    intros _. now apply Math_round_comp.
  - intros e He.
    assert (Hk : In (monthKey tzOffset e)
                   (map fst (monthlyData tzOffset history))).
    { unfold monthlyData.
      rewrite fold_upsert_keys with
        (key := fun r => (DateFns.format_yyyy_MM tzOffset (started r) ++ "|"
                            ++ DateFns.format_MMMM tzOffset (started r))%string).
      apply Set_of_In. apply (in_map (monthKey tzOffset)) in He. exact He. }
    apply in_map_iff in Hk. destruct Hk as [[k acc] [Ek Hin]]. cbn [fst] in Ek.
    exists (render (k, acc)). split.
    + apply (Permutation_in _ Hperm). now apply in_map.
    + cbn [render MonthlyStat.month]. subst k.
      apply (proj1 (monthKey_split tzOffset e)).
  - intros a b Hab. apply monthAfter_false.
    apply sort_precedes in Hab;
      [tauto | exact monthAfter_asym | exact monthAfter_ntrans].
Qed.

Lemma monthly_breakdown_witness :
  exactMinutes twoMovies = true
  /\ forall m,
       In m (ProcessedStats.monthlyStats
               (report DateFns.utc 7 2024 twoMovies Disabled idle)) ->
       exists e,
         In e twoMovies
         /\ MonthlyStat.minutes m
            = JS.Math_round
                (sumForQ string_eq_dec (monthKey DateFns.utc) minutesOf
                   (monthKey DateFns.utc e) twoMovies).
Proof.
  split; [reflexivity|].
  intros m Hm.
  destruct (monthly_breakdown DateFns.utc 7 2024 twoMovies Disabled idle)
    as [_ [H _]].
  destruct (H m Hm) as [e [He [_ [_ [_ [_ Hmin]]]]]].
  exists e. split; [exact He|]. apply Hmin. reflexivity.
Defined.

(* ================================================================== *)
(** * Top episodes and top genres                                      *)
(* ================================================================== *)

(** X18: every top episode describes one group of episode plays, those of one
    rating key: its title, show, season, number and thumb are those of
    the first play of the group, its plays the number of plays of the
    group, at least one. *)
Theorem top_episode_describes_group :
  forall tzOffset userId analysisYear history overseerr w t,
    In t (ProcessedStats.topEpisodes
            (report tzOffset userId analysisYear history overseerr w)) ->
    let episodes := filter isEpisode history in
    exists e,
      firstFor Z.eq_dec rating_key (rating_key e) episodes = Some e
      /\ TopEpisode.title t = title e
      /\ TopEpisode.show t = grandparent_title e
      /\ TopEpisode.season t = parent_media_index e
      /\ TopEpisode.episode t = media_index e
      /\ TopEpisode.thumb t = thumb e
      /\ TopEpisode.plays t
         = occurrences Z.eq_dec (rating_key e) (map rating_key episodes)
      /\ 1 <= TopEpisode.plays t.
Proof.
  intros tzOffset userId analysisYear history overseerr w t Ht episodes.
  destruct (report_top_content tzOffset userId analysisYear history overseerr w)
    as [_ [_ [He _]]].
  rewrite He in Ht. unfold topEpisodes in Ht.
  apply in_map_iff in Ht. destruct Ht as [p [<- Hp]].
  unfold rankedEpisodes in Hp. apply ranked_value_entry in Hp.
  destruct Hp as [k Hin]. unfold episodePlays in Hin. fold isEpisode in Hin.
  fold episodes in Hin.
  pose proof Hin as Hcount.
  eapply grouped_first with (kept := ep_record) (taken := fun r => r) in Hin;
    [| intros; reflexivity | intros; reflexivity].
  destruct Hin as [e [Hfirst Hrec]].
  eapply grouped_sumZ with (measure := ep_count) (weight := fun _ => 1)
    in Hcount; [| intros; reflexivity | intros; reflexivity].
  destruct (firstFor_Some _ _ _ _ Hfirst) as [Hine [Hk _]].
  cbn [toTopEpisode TopEpisode.title TopEpisode.show TopEpisode.season
       TopEpisode.episode TopEpisode.thumb TopEpisode.plays].
  rewrite sumForZ_count in Hcount. rewrite Hrec. subst k. exists e.
  repeat split; auto.
  rewrite Hcount.
  assert (Hpos : 0 < occurrences Z.eq_dec (rating_key e)
                       (map rating_key episodes)).
  { apply occurrences_pos. now apply in_map. }
  lia.
Qed.

Lemma top_episode_describes_group_witness :
  let t := {| TopEpisode.title := "Pilot"; TopEpisode.show := "X";
              TopEpisode.season := 1; TopEpisode.episode := 1;
              TopEpisode.plays := 1; TopEpisode.thumb := "/t" |} in
  let episodes := filter isEpisode twoShortSessions in
  In t (ProcessedStats.topEpisodes
          (report DateFns.utc 7 2024 twoShortSessions Disabled idle))
  /\ exists e,
       firstFor Z.eq_dec rating_key (rating_key e) episodes = Some e
       /\ TopEpisode.title t = title e
       /\ TopEpisode.show t = grandparent_title e
       /\ TopEpisode.season t = parent_media_index e
       /\ TopEpisode.episode t = media_index e
       /\ TopEpisode.thumb t = thumb e
       /\ TopEpisode.plays t
          = occurrences Z.eq_dec (rating_key e) (map rating_key episodes)
       /\ 1 <= TopEpisode.plays t.
Proof.
  intros t episodes.
  assert (Ht : In t (ProcessedStats.topEpisodes
                       (report DateFns.utc 7 2024 twoShortSessions Disabled idle))).
  { vm_compute. left. reflexivity. }
  split; [exact Ht|].
  exact (top_episode_describes_group DateFns.utc 7 2024 twoShortSessions
           Disabled idle t Ht).
Defined.

Lemma fold_left_flat_map : forall {A B C : Type} (f : A -> C -> A)
    (expand : B -> list C) (l : list B) (a : A),
  fold_left (fun a b => fold_left f (expand b) a) l a
  = fold_left f (flat_map expand l) a.
Proof.
  intros A B C f expand. induction l as [|b l IH]; intros a;
    cbn [fold_left flat_map].
  - reflexivity.
  - now rewrite fold_left_app, IH.
Qed.

Lemma genreStats_listings : forall history,
  genreStats history
  = fold_left
      (fun o listing =>
         upsert string_eq_dec o (fst listing)
           {| gs_count := 0; gs_minutes := 0 |}
           (fun g => {| gs_count := gs_count g + 1;
                        gs_minutes := gs_minutes g + minutesOf (snd listing) |}))
      (genreListings history) [].
Proof.
  intros history. unfold genreStats, genreListings.
  rewrite <- fold_left_flat_map. generalize (@nil (string * GenreStats)).
  induction history as [|r history IH]; intros o; cbn [fold_left].
  - reflexivity.
  - rewrite IH. f_equal.
    generalize o. induction (orNil (genres r)) as [|g gs IHg]; intros o';
      cbn [map fold_left fst snd]; [reflexivity | apply IHg].
Qed.

(** X19: the top genres bear different names; each shows the number of times
    the events of the history list it, at least one, and, on a history
    whose genre sums the source computes exactly ([exactGenreMinutes]),
    the rounded sum of the minutes of those listings. *)
Theorem top_genres_count_listings :
  forall tzOffset userId analysisYear history overseerr w,
    let shown :=
      ProcessedStats.topGenres
        (report tzOffset userId analysisYear history overseerr w) in
    NoDup (map TopGenre.genre shown)
    /\ forall t, In t shown ->
         TopGenre.count t
         = occurrences string_eq_dec (TopGenre.genre t)
             (map fst (genreListings history))
         /\ 1 <= TopGenre.count t
         /\ (exactGenreMinutes history = true ->
             TopGenre.minutes t
             = JS.Math_round (genreMinutes_spec (TopGenre.genre t) history)).
Proof.
  intros tzOffset userId analysisYear history overseerr w shown.
  destruct (report_top_content tzOffset userId analysisYear history overseerr w)
    as [_ [_ [_ Hg]]].
  subst shown. rewrite Hg. unfold calculateTopGenres, rankedGenres, JS.slice0.
  set (sorted := JS.sort (byDescendingQ (fun e : string * GenreStats => gs_minutes (snd e)))
                   (JS.Object_entries JS.string_index (genreStats history))).
  assert (Hperm : Permutation (genreStats history) sorted).
  { eapply perm_trans; [apply (entries_Permutation JS.string_index)|].
    apply sort_Permutation. }
  split.
  - replace (map TopGenre.genre
               (map (toTopGenre (totalMinutes history)) (firstn 10 sorted)))
      with (firstn 10 (map fst sorted))
      by (rewrite map_map, firstn_map; apply map_ext; now intros [k s]).
    apply NoDup_firstn.
    apply Permutation_NoDup with (l := map fst (genreStats history)).
    + now apply Permutation_map.
    + rewrite genreStats_listings. apply grouped_NoDup.
  - intros t Ht. apply in_map_iff in Ht. destruct Ht as [[g s] [<- Hin]].
    apply In_firstn in Hin.
    apply (Permutation_in _ (Permutation_sym Hperm)) in Hin.
    pose proof (genreStats_minutes _ _ _ Hin) as Hmin.
    rewrite genreStats_listings in Hin.
    pose proof Hin as Hk. apply grouped_key_seen in Hk. cbn [fst] in Hk.
    eapply grouped_sumZ with (measure := gs_count) (weight := fun _ => 1)
      in Hin; [| intros; reflexivity | intros; reflexivity].
    rewrite sumForZ_count in Hin.
    pose proof (proj1 (occurrences_pos string_eq_dec _ _) Hk) as Hpos.
    cbn [toTopGenre TopGenre.genre TopGenre.count TopGenre.minutes].
    split; [exact Hin|]. split; [lia|].
    intros _. now apply Math_round_comp.
Qed.

Lemma top_genres_count_listings_witness :
  exactGenreMinutes twoGenres = true
  /\ forall t,
       In t (ProcessedStats.topGenres
               (report DateFns.utc 7 2024 twoGenres Disabled idle)) ->
       TopGenre.minutes t
       = JS.Math_round (genreMinutes_spec (TopGenre.genre t) twoGenres).
Proof.
  split; [reflexivity|].
  intros t Ht.
  destruct (top_genres_count_listings DateFns.utc 7 2024 twoGenres Disabled
              idle) as [_ H].
  apply (H t Ht). reflexivity.
Defined.

(* ================================================================== *)
(** * The history service                                              *)
(* ================================================================== *)

Lemma civil_year_of_era : forall z,
  fst (fst (DateFns.civil_from_days z))
  = yearOfEra ((z + 719468) mod 146097) + (z + 719468) / 146097 * 400.
Proof.
  intros z. unfold DateFns.civil_from_days, yearOfEra. cbv zeta.
  assert (E : z + 719468 - (z + 719468) / 146097 * 146097
              = (z + 719468) mod 146097).
  { pose proof (Z.div_mod (z + 719468) 146097). lia. }
  rewrite E.
  cbn [fst].
  match goal with |- context [if ?c then _ else _] => destruct c end; lia.
Qed.

Lemma year_of_era_bounds : forall doe,
  0 <= doe <= 146096 ->
  let yoe := (doe - doe / 1460 + doe / 36524 - doe / 146096) / 365 in
  0 <= yoe <= 399
  /\ 365 * yoe + yoe / 4 - yoe / 100 <= doe
  /\ (yoe < 399 -> doe < 365 * (yoe + 1) + (yoe + 1) / 4 - (yoe + 1) / 100).
Proof.
  intros doe H yoe. subst yoe.
  Z.div_mod_to_equations. lia.
Qed.

Lemma yearOfEra_spec : forall doe,
  0 <= doe <= 146096 ->
  0 <= yearOfEra doe <= 400
  /\ (1 <= yearOfEra doe -> januaryOfEra (yearOfEra doe) <= doe)
  /\ (yearOfEra doe <= 399 -> doe < januaryOfEra (yearOfEra doe + 1)).
Proof.
  intros doe H. pose proof (year_of_era_bounds H) as Hy.
  unfold yearOfEra, januaryOfEra. cbv zeta in *.
  set (yoe := (doe - doe / 1460 + doe / 36524 - doe / 146096) / 365) in *.
  destruct Hy as [Hrange [Hlo Hhi]]. clearbody yoe.
  set (doy := doe - (365 * yoe + yoe / 4 - yoe / 100)).
  assert (Hdoy : 0 <= doy <= 365).
  { subst doy. split; [lia|].
    destruct (Z.eq_dec yoe 399) as [E | Hne].
    - rewrite E. change (399 / 4) with 99. change (399 / 100) with 3. lia.
    - specialize (Hhi ltac:(lia)). Z.div_mod_to_equations. lia. }
  assert (Hmp : ((5 * doy + 2) / 153 <? 10) = (doy <? 306)).
  { destruct (Z.ltb_spec doy 306); [apply Z.ltb_lt | apply Z.ltb_ge];
      Z.div_mod_to_equations; lia. }
  assert (Hmp0 : 0 <= (5 * doy + 2) / 153 <= 11)
    by (Z.div_mod_to_equations; lia).
  rewrite Hmp.
  destruct (Z.ltb_spec doy 306) as [Hlt | Hge]; cbv iota.
  - destruct (Z.leb_spec ((5 * doy + 2) / 153 + 3) 2) as [Hm | Hm]; [lia|].
    subst doy. split; [lia|].
    split; intros; Z.div_mod_to_equations; lia.
  - destruct (Z.leb_spec ((5 * doy + 2) / 153 - 9) 2) as [Hm | Hm]; [|lia].
    subst doy. split; [lia|].
    split; intros Hc; [|specialize (Hhi ltac:(lia))];
      Z.div_mod_to_equations; lia.
Qed.

Lemma january_first : forall y,
  days_from_civil y 1 1
  = (y - 1) / 400 * 146097 + januaryOfEra ((y - 1) mod 400 + 1) - 719468.
Proof.
  intros y. unfold days_from_civil, januaryOfEra. cbv zeta.
  change (1 <=? 2) with true. change (2 <? 1) with false. cbv iota.
  change ((153 * (1 + 9) + 2) / 5) with 306.
  replace ((y - 1) mod 400 + 1 - 1) with ((y - 1) mod 400) by lia.
  pose proof (Z.div_mod (y - 1) 400).
  replace (y - 1 - (y - 1) / 400 * 400) with ((y - 1) mod 400) by lia.
  lia.
Qed.

Lemma december_last : forall y,
  days_from_civil y 12 31 + 1 = days_from_civil (y + 1) 1 1.
Proof.
  intros y. unfold days_from_civil. cbv zeta.
  change (12 <=? 2) with false. change (2 <? 12) with true.
  change (1 <=? 2) with true. change (2 <? 1) with false. cbv iota.
  change ((153 * (12 - 3) + 2) / 5) with 275.
  change ((153 * (1 + 9) + 2) / 5) with 306.
  replace (y + 1 - 1) with y by lia. lia.
Qed.

Lemma year_starts_increase : forall y,
  days_from_civil y 1 1 < days_from_civil (y + 1) 1 1.
Proof.
  intros y. rewrite !january_first. unfold januaryOfEra.
  replace (y + 1 - 1) with y by lia.
  Z.div_mod_to_equations. lia.
Qed.

Lemma year_starts_monotone : forall y y',
  y <= y' -> days_from_civil y 1 1 <= days_from_civil y' 1 1.
Proof.
  intros y y' H.
  replace y' with (y + Z.of_nat (Z.to_nat (y' - y))) by lia.
  induction (Z.to_nat (y' - y)) as [|n IH].
  - replace (y + Z.of_nat 0) with y by lia. lia.
  - rewrite Nat2Z.inj_succ.
    replace (y + Z.succ (Z.of_nat n)) with (y + Z.of_nat n + 1) by lia.
    pose proof (year_starts_increase (y + Z.of_nat n)). lia.
Qed.

Lemma civil_year_window : forall d,
  let y := fst (fst (DateFns.civil_from_days d)) in
  days_from_civil y 1 1 <= d < days_from_civil (y + 1) 1 1.
Proof.
  intros d y. subst y. rewrite civil_year_of_era, !january_first.
  pose proof (Z.mod_pos_bound (d + 719468) 146097 ltac:(lia)) as Hdoe.
  pose proof (Z.div_mod (d + 719468) 146097 ltac:(lia)) as Hd.
  destruct (@yearOfEra_spec ((d + 719468) mod 146097) ltac:(lia))
    as [Hc [Hlo Hhi]].
  set (c := yearOfEra ((d + 719468) mod 146097)) in *.
  set (doe := (d + 719468) mod 146097) in *.
  set (era := (d + 719468) / 146097) in *.
  clearbody c doe era.
  replace (c + era * 400 + 1 - 1) with (c + era * 400) by lia.
  assert (Hcase : c = 0 \/ 1 <= c <= 399 \/ c = 400) by lia.
  destruct Hcase as [-> | [Hmid | ->]].
  - replace ((0 + era * 400 - 1) / 400) with (era - 1)
      by (Z.div_mod_to_equations; lia).
    replace ((0 + era * 400 - 1) mod 400) with 399
      by (Z.div_mod_to_equations; lia).
    replace ((0 + era * 400) / 400) with era by (Z.div_mod_to_equations; lia).
    replace ((0 + era * 400) mod 400) with 0 by (Z.div_mod_to_equations; lia).
    specialize (Hhi ltac:(lia)).
    change (januaryOfEra (399 + 1)) with 146037.
    change (januaryOfEra (0 + 1)) with 306 in *. lia.
  - replace ((c + era * 400 - 1) / 400) with era
      by (Z.div_mod_to_equations; lia).
    replace ((c + era * 400 - 1) mod 400) with (c - 1)
      by (Z.div_mod_to_equations; lia).
    replace ((c + era * 400) / 400) with era by (Z.div_mod_to_equations; lia).
    replace ((c + era * 400) mod 400) with c by (Z.div_mod_to_equations; lia).
    replace (c - 1 + 1) with c by lia.
    specialize (Hlo ltac:(lia)). specialize (Hhi ltac:(lia)). lia.
  - replace ((400 + era * 400 - 1) / 400) with era
      by (Z.div_mod_to_equations; lia).
    replace ((400 + era * 400 - 1) mod 400) with 399
      by (Z.div_mod_to_equations; lia).
    replace ((400 + era * 400) / 400) with (era + 1)
      by (Z.div_mod_to_equations; lia).
    replace ((400 + era * 400) mod 400) with 0 by (Z.div_mod_to_equations; lia).
    specialize (Hlo ltac:(lia)).
    change (januaryOfEra 400) with 146037 in Hlo.
    change (januaryOfEra (399 + 1)) with 146037.
    change (januaryOfEra (0 + 1)) with 306. lia.
Qed.

(** The day numbers of a calendar year are those from its first of
    January to its 31st of December. *)
Lemma year_of_day : forall d y,
  fst (fst (DateFns.civil_from_days d)) = y
  <-> days_from_civil y 1 1 <= d <= days_from_civil y 12 31.
Proof.
  intros d y. pose proof (civil_year_window d) as Hw. cbv zeta in Hw.
  pose proof (december_last y) as Hdec.
  set (y0 := fst (fst (DateFns.civil_from_days d))) in *. clearbody y0.
  split.
  - intros <-. pose proof (december_last y0). lia.
  - intros Hd.
    destruct (Z.lt_trichotomy y0 y) as [Hlt | [E | Hgt]]; [|exact E|].
    + pose proof (@year_starts_monotone (y0 + 1) y ltac:(lia)). lia.
    + pose proof (@year_starts_monotone (y + 1) y0 ltac:(lia)). lia.
Qed.

(** X20: a row passes the filter of [getAllHistoryForYear] exactly when the
    UTC calendar year of its date is the year asked for (a year written
    with four digits); the window of a year ends one second before that
    of the next year starts. *)
Theorem year_filter_is_utc_year :
  forall (Row : Type) (date : Row -> Z) (year : Z) (record : Row),
    1000 <= year <= 9999 ->
    (TautulliService.inYear date year record = true
     <-> DateFns.getFullYear DateFns.utc (date record) = year)
    /\ TautulliService.endTimestamp year + 1
       = TautulliService.startTimestamp (year + 1).
Proof.
  intros Row date year record _.
  unfold TautulliService.inYear, TautulliService.startTimestamp,
    TautulliService.endTimestamp, DateFns.getFullYear, DateFns.localDay,
    DateFns.localSeconds, DateFns.utc.
  split.
  - rewrite year_of_day, andb_true_iff, !Z.leb_le.
    replace (date record + 0) with (date record) by lia.
    pose proof (Z.div_mod (date record) 86400 ltac:(lia)).
    pose proof (Z.mod_pos_bound (date record) 86400 ltac:(lia)).
    lia.
  - pose proof (december_last year). lia.
Qed.

Lemma year_filter_is_utc_year_witness :
  1000 <= 2024 <= 9999
  /\ (TautulliService.inYear (fun t : Z => t) 2024 1704067200 = true
      <-> DateFns.getFullYear DateFns.utc 1704067200 = 2024)
  /\ TautulliService.endTimestamp 2024 + 1 = TautulliService.startTimestamp 2025.
Proof.
  split; [lia|].
  apply (@year_filter_is_utc_year Z (fun t : Z => t) 2024 1704067200). lia.
Defined.

Section Pages.
Variable Row : Type.
Variable date : Row -> Z.
Variable table : list Row.
Variable year : Z.

Let fetch := TautulliService.fetchPages date (TautulliService.tableServer table).

Lemma page_of_table : forall seen rest,
  table = seen ++ rest ->
  TautulliService.tableServer table (Z.of_nat (List.length seen))
    TautulliService.pageSize
  = Some {| TautulliService.data := firstn 1000 rest;
            TautulliService.recordsFiltered :=
              Z.of_nat (List.length seen + List.length rest) |}.
Proof.
  intros seen rest ->. unfold TautulliService.tableServer. rewrite Nat2Z.id.
  rewrite skipn_app, skipn_all, Nat.sub_diag, length_app. reflexivity.
Qed.

Lemma fetch_remaining : forall fuel seen rest allData,
  table = seen ++ rest ->
  (1 <= fuel)%nat -> (List.length rest <= 1000 * fuel)%nat ->
  fetch fuel year allData (Z.of_nat (List.length seen))
  = TautulliService.Fulfilled
      (allData ++ filter (TautulliService.inYear date year) rest).
Proof.
  induction fuel as [|fuel IH]; intros seen rest allData Htable Hfuel Hlen;
    [lia|].
  unfold fetch in *. cbn [TautulliService.fetchPages].
  rewrite (page_of_table _ _ Htable). cbv zeta.
  cbn [TautulliService.data TautulliService.recordsFiltered].
  pose proof (firstn_skipn 1000 rest) as Hsplit.
  pose proof (length_firstn 1000 rest) as Hpage.
  pose proof (length_skipn 1000 rest) as Hrest.
  unfold TautulliService.pageSize.
  destruct ((Z.of_nat (List.length (firstn 1000 rest)) =? 1000)
            && (Z.of_nat (List.length seen) + 1000
                <? Z.of_nat (List.length seen + List.length rest))) eqn:Hmore.
  - apply andb_true_iff in Hmore. destruct Hmore as [Hfull Hnext].
    apply Z.eqb_eq in Hfull. apply Z.ltb_lt in Hnext.
    replace (Z.of_nat (List.length seen) + 1000)
      with (Z.of_nat (List.length (seen ++ firstn 1000 rest)))
      by (rewrite length_app; lia).
    rewrite IH with (rest := skipn 1000 rest).
    + rewrite <- app_assoc, <- filter_app, Hsplit. reflexivity.
    + rewrite <- app_assoc, Hsplit. exact Htable.
    + lia.
    + lia.
  - assert (Hall : firstn 1000 rest = rest).
    { apply firstn_all2. apply andb_false_iff in Hmore.
      destruct Hmore as [Hfull | Hnext].
      - apply Z.eqb_neq in Hfull. lia.
      - apply Z.ltb_ge in Hnext. lia. }
    rewrite Hall. reflexivity.
Qed.

Lemma fetch_unfinished : forall fuel seen rest allData,
  table = seen ++ rest ->
  (1000 * fuel < List.length rest)%nat ->
  fetch fuel year allData (Z.of_nat (List.length seen)) = TautulliService.Running.
Proof.
  induction fuel as [|fuel IH]; intros seen rest allData Htable Hlen;
    [reflexivity|].
  unfold fetch in *. cbn [TautulliService.fetchPages].
  rewrite (page_of_table _ _ Htable). cbv zeta.
  cbn [TautulliService.data TautulliService.recordsFiltered].
  pose proof (firstn_skipn 1000 rest) as Hsplit.
  pose proof (length_firstn 1000 rest) as Hpage.
  pose proof (length_skipn 1000 rest) as Hrest.
  unfold TautulliService.pageSize.
  replace (Z.of_nat (List.length (firstn 1000 rest)) =? 1000) with true
    by (symmetry; apply Z.eqb_eq; lia).
  replace (Z.of_nat (List.length seen) + 1000
           <? Z.of_nat (List.length seen + List.length rest)) with true
    by (symmetry; apply Z.ltb_lt; lia).
  cbn [andb].
  replace (Z.of_nat (List.length seen) + 1000)
    with (Z.of_nat (List.length (seen ++ firstn 1000 rest)))
    by (rewrite length_app; lia).
  apply IH with (rest := skipn 1000 rest).
  - rewrite <- app_assoc, Hsplit. exact Htable.
  - lia.
Qed.
End Pages.

(** X21: against a server that holds a fixed table and serves it in slices,
    and for a year written with four digits (the two bounds of the
    filter are dates only then), [getAllHistoryForYear] returns the rows
    of the table that pass the year filter, in the order of the table,
    each once, as soon as it may make one request for every thousand
    rows of the table, and at least one; with fewer requests the loop is
    still running. *)
Theorem history_of_a_fixed_table :
  forall (Row : Type) (date : Row -> Z) (table : list Row) (year : Z)
         (fuel : nat),
    (1 <= fuel)%nat ->
    1000 <= year <= 9999 ->
    ((List.length table <= 1000 * fuel)%nat ->
     TautulliService.getAllHistoryForYear date
       (TautulliService.tableServer table) fuel year
     = TautulliService.Fulfilled
         (filter (TautulliService.inYear date year) table))
    /\ ((1000 * fuel < List.length table)%nat ->
        TautulliService.getAllHistoryForYear date
          (TautulliService.tableServer table) fuel year
        = TautulliService.Running).
Proof.
  intros Row date table year fuel Hfuel _.
  unfold TautulliService.getAllHistoryForYear. split; intros Hlen.
  - apply (@fetch_remaining Row date table year fuel [] table []);
      [reflexivity | exact Hfuel | exact Hlen].
  - apply (@fetch_unfinished Row date table year fuel [] table []);
      [reflexivity | exact Hlen].
Qed.

Lemma history_of_a_fixed_table_witness :
  (1 <= 1)%nat
  /\ 1000 <= 2024 <= 9999
  /\ TautulliService.getAllHistoryForYear (fun t : Z => t)
       (TautulliService.tableServer aroundNewYear) 1 2024
     = TautulliService.Fulfilled [1704067200; 1735689599].
Proof.
  assert (Hyear : 1000 <= 2024 <= 9999) by lia.
  split; [lia|]. split; [exact Hyear|].
  apply (proj1 (@history_of_a_fixed_table Z (fun t : Z => t) aroundNewYear
                  2024 1%nat (le_n 1) Hyear)).
  simpl. lia.
Defined.

Section AnyServer.
Variable Row : Type.
Variable date : Row -> Z.
Variable getUserHistory : Z -> Z -> option (TautulliService.TautulliHistory Row).
Variable year : Z.

Let fetch := TautulliService.fetchPages date getUserHistory.

Lemma fetch_rows_in_year : forall fuel allData start rows,
  (forall record, In record allData ->
                  TautulliService.inYear date year record = true) ->
  fetch fuel year allData start = TautulliService.Fulfilled rows ->
  forall record, In record rows ->
                 TautulliService.inYear date year record = true.
Proof.
  unfold fetch.
  induction fuel as [|fuel IH]; intros allData start rows Hall;
    cbn [TautulliService.fetchPages]; [discriminate|].
  destruct (getUserHistory start TautulliService.pageSize) as [result|];
    [|discriminate].
  cbv zeta.
  assert (Hnext : forall record,
             In record (allData ++ filter (TautulliService.inYear date year)
                                     (TautulliService.data result)) ->
             TautulliService.inYear date year record = true).
  { intros record Hin. apply in_app_or in Hin. destruct Hin as [Hin | Hin].
    - now apply Hall.
    - now apply filter_In in Hin. }
  destruct ((Z.of_nat (List.length (TautulliService.data result))
             =? TautulliService.pageSize)
            && (start + TautulliService.pageSize
                <? TautulliService.recordsFiltered result)).
  - now apply IH.
  - intros E. inversion E; subst. exact Hnext.
Qed.

Lemma fetch_terminates : forall total fuel allData start,
  (forall from length page,
     getUserHistory from length = Some page ->
     TautulliService.recordsFiltered page <= total) ->
  (1 <= fuel)%nat -> total <= start + 1000 * Z.of_nat fuel ->
  fetch fuel year allData start <> TautulliService.Running.
Proof.
  unfold fetch. intros total.
  induction fuel as [|fuel IH]; intros allData start Hbound Hfuel Htotal;
    [lia|].
  cbn [TautulliService.fetchPages].
  destruct (getUserHistory start TautulliService.pageSize) as [result|] eqn:E;
    [|discriminate].
  cbv zeta. specialize (Hbound _ _ _ E) as Hr.
  unfold TautulliService.pageSize.
  destruct ((Z.of_nat (List.length (TautulliService.data result)) =? 1000)
            && (start + 1000 <? TautulliService.recordsFiltered result))
    eqn:Hmore; [|discriminate].
  apply andb_true_iff in Hmore. destruct Hmore as [_ Hnext].
  apply Z.ltb_lt in Hnext.
  apply IH; [exact Hbound | lia | lia].
Qed.
End AnyServer.

(** X22: whatever the server answers, every row that [getAllHistoryForYear]
    returns passes the year filter.  When the server never reports more
    than [total] rows, the loop ends, fulfilled or rejected, within one
    request for every thousand of [total], and at least one. *)
Theorem history_rows_pass_the_filter :
  forall (Row : Type) (date : Row -> Z)
         (getUserHistory : Z -> Z -> option (TautulliService.TautulliHistory Row))
         (year total : Z) (fuel : nat),
    (forall from length page,
       getUserHistory from length = Some page ->
       TautulliService.recordsFiltered page <= total) ->
    (1 <= fuel)%nat -> total <= 1000 * Z.of_nat fuel ->
    let outcome :=
      TautulliService.getAllHistoryForYear date getUserHistory fuel year in
    outcome <> TautulliService.Running
    /\ (getUserHistory 0 1000 = None -> outcome = TautulliService.Rejected)
    /\ forall rows,
         outcome = TautulliService.Fulfilled rows ->
         forall record, In record rows ->
                        TautulliService.inYear date year record = true.
Proof.
  intros Row date getUserHistory year total fuel Hbound Hfuel Htotal outcome.
  subst outcome. unfold TautulliService.getAllHistoryForYear.
  split; [|split].
  - apply fetch_terminates with (total := total);
      [exact Hbound | exact Hfuel | lia].
  - intros Hnone. destruct fuel as [|fuel]; [lia|].
    cbn [TautulliService.fetchPages]. unfold TautulliService.pageSize.
    now rewrite Hnone.
  - intros rows Hrows. eapply fetch_rows_in_year; [|exact Hrows].
    intros record [].
Qed.

Lemma history_rows_pass_the_filter_witness :
  (forall from length page,
     TautulliService.tableServer aroundNewYear from length = Some page ->
     TautulliService.recordsFiltered page <= 3)
  /\ (1 <= 1)%nat /\ 3 <= 1000 * Z.of_nat 1
  /\ TautulliService.getAllHistoryForYear (fun t : Z => t)
       (TautulliService.tableServer aroundNewYear) 1 2024
     <> TautulliService.Running.
Proof.
  assert (Hserved : forall from length page,
             TautulliService.tableServer aroundNewYear from length = Some page ->
             TautulliService.recordsFiltered page <= 3).
  { intros from length page E. unfold TautulliService.tableServer in E.
    inversion E; subst. simpl. lia. }
  split; [exact Hserved|]. split; [lia|]. split; [lia|].
  apply (@history_rows_pass_the_filter Z (fun t : Z => t)
           (TautulliService.tableServer aroundNewYear) 2024 3 1%nat Hserved);
    lia.
Defined.

(* ================================================================== *)
(** * The detailed health check                                        *)
(* ================================================================== *)

(** X23: [GET /api/health/detailed].  The handler first asks for the two
    services; when [getTautulliService()] or [getOverseerrService()]
    throws, the error handler answers with the status code of the error,
    500 when it has none or the code is 0.  A first call of
    [getTautulliService()] throws when the URL or the API key of the
    history service is not set: the answer is then 500.  Once both
    services are at hand the route answers 200 and 'healthy' exactly
    when the database check resolves to true, a cache client exists and
    its ping resolves to 'PONG', and the server information of the
    history service is obtained; in every other case, a rejected check
    included, it answers 503 and 'unhealthy'.  The check of the request
    service has no part in the status.  A failure of the history service
    is reported with the message of its error. *)
Theorem detailed_health_status :
  forall tautulli overseerr dbHealthCheck client now,
    let answer :=
      Health.detailedRoute tautulli overseerr dbHealthCheck client now in
    (forall err,
       tautulli = ErrorMiddleware.Throws err
       \/ ((exists getServerInfo,
              tautulli = ErrorMiddleware.Returns getServerInfo)
           /\ overseerr = ErrorMiddleware.Throws err) ->
       answer = Health.Failed (ErrorMiddleware.errorHandler err)
       /\ ErrorMiddleware.status (ErrorMiddleware.errorHandler err)
          = match ErrorMiddleware.statusCode err with
            | Some c => if c =? 0 then 500 else c
            | None => 500
            end)
    /\ (forall (Client : Type) TAUTULLI_URL TAUTULLI_API_KEY
               cacheServiceInstance (redisClient : option Client) service,
          orString TAUTULLI_URL "" = ""%string
          \/ orString TAUTULLI_API_KEY "" = ""%string ->
          tautulli
          = Health.getTautulliService None TAUTULLI_URL TAUTULLI_API_KEY
              cacheServiceInstance redisClient service ->
          answer
          = Health.Failed
              {| ErrorMiddleware.status := 500;
                 ErrorMiddleware.error := "Tautulli URL and API key are required";
                 ErrorMiddleware.errorCode := "INTERNAL_ERROR" |})
    /\ (forall getServerInfo service,
          tautulli = ErrorMiddleware.Returns getServerInfo ->
          overseerr = ErrorMiddleware.Returns service ->
          let response :=
            Health.detailed dbHealthCheck client getServerInfo
              (Health.overseerrHealthCheck service) (Health.isEnabled service)
              now in
          answer = Health.Detailed response
          /\ (Health.statusCode response = 200
              <-> dbHealthCheck = Health.Resolves true
                  /\ client = Some (Health.Resolves "PONG"%string)
                  /\ exists serverInfo,
                       getServerInfo = Health.Resolves serverInfo)
          /\ (Health.statusCode response <> 200 ->
              Health.statusCode response = 503)
          /\ (Health.status response = "healthy"%string
              <-> Health.statusCode response = 200)
          /\ (forall otherCheck otherEnabled,
                Health.statusCode
                  (Health.detailed dbHealthCheck client getServerInfo otherCheck
                     otherEnabled now)
                = Health.statusCode response)
          /\ (forall error_message,
                getServerInfo = Health.Rejects error_message ->
                Health.tautulli response
                = {| Health.healthy := false;
                     Health.message := error_message |})).
Proof.
  intros tautulli overseerr dbHealthCheck client now answer.
  split; [|split].
  - intros err [-> | [[getServerInfo ->] ->]]; split; reflexivity.
  - intros Client TAUTULLI_URL TAUTULLI_API_KEY cacheServiceInstance
      redisClient service Hunset Htautulli.
    subst answer. rewrite Htautulli.
    unfold Health.getTautulliService, Health.newTautulliService. cbv zeta.
    assert (E : String.eqb (orString TAUTULLI_URL "") ""
                || String.eqb (orString TAUTULLI_API_KEY "") "" = true).
    { destruct Hunset as [-> | ->]; [reflexivity|].
      now rewrite orb_true_r. }
    rewrite E. reflexivity.
  - intros getServerInfo service -> -> response.
    subst answer response. split; [reflexivity|].
    generalize (Health.overseerrHealthCheck service) as overseerrHealthCheck.
    generalize (Health.isEnabled service) as isEnabled.
    intros isEnabled overseerrHealthCheck.
    unfold Health.detailed. cbv zeta.
    cbn [Health.statusCode Health.status Health.tautulli].
    split; [|split; [|split; [|split]]].
    + destruct dbHealthCheck as [[|]|]; cbn [Health.catch andb];
        try (split; [discriminate | intros [H _]; discriminate H]).
      destruct client as [[pong|]|]; cbn [Health.redisHealthCheck Health.catch andb];
        try (split; [discriminate | intros [_ [H _]]; discriminate H]).
      destruct (String.eqb_spec pong "PONG") as [-> | Hne]; cbn [andb].
      * destruct getServerInfo as [serverInfo|];
          cbn [Health.healthCheck Health.catch Health.healthy].
        -- split; [intros _; repeat split; eauto | reflexivity].
        -- split; [discriminate | intros [_ [_ [serverInfo H]]]; discriminate H].
      * split; [discriminate | intros [_ [H _]]; congruence].
    + destruct (Health.catch dbHealthCheck false
                && Health.catch (Health.redisHealthCheck client) false
                && Health.healthy
                     (Health.catch (Health.healthCheck getServerInfo)
                        {| Health.healthy := false;
                           Health.message := Some "Connection failed"%string |}));
        [congruence | reflexivity].
    + destruct (Health.catch dbHealthCheck false
                && Health.catch (Health.redisHealthCheck client) false
                && Health.healthy
                     (Health.catch (Health.healthCheck getServerInfo)
                        {| Health.healthy := false;
                           Health.message := Some "Connection failed"%string |}));
        split; try reflexivity; discriminate.
    + reflexivity.
    + intros error_message ->. reflexivity.
Qed.

(** X24: whenever the cache client is given a delay before its next
    connection attempt, the delay is 100 ms for each attempt made and at
    most one second: the attempts end after the tenth, before the cap of
    three seconds can apply. *)
Theorem reconnect_delay_never_capped :
  forall retries delay,
    Health.reconnectStrategy retries = Some delay ->
    delay = retries * 100 /\ delay <= 1000 /\ retries <= 10.
Proof.
  intros retries delay. unfold Health.reconnectStrategy.
  destruct (Z.ltb_spec 10 retries) as [Hgt | Hle]; [discriminate|].
  intros E. inversion E; subst. lia.
Qed.

Lemma reconnect_delay_never_capped_witness :
  Health.reconnectStrategy 10 = Some 1000
  /\ 1000 = 10 * 100 /\ 1000 <= 1000 /\ 10 <= 10.
Proof.
  assert (H : Health.reconnectStrategy 10 = Some 1000) by reflexivity.
  split; [exact H|].
  exact (reconnect_delay_never_capped 10 H).
Defined.

(* ================================================================== *)
(** * What a top person reports                                        *)
(* ================================================================== *)

Lemma personCounts_listings : forall people history,
  personCounts people history
  = fold_left
      (fun o listing =>
         upsert string_eq_dec o (fst listing)
           {| pc_count := 0; pc_titles := [] |}
           (fun p => {| pc_count := pc_count p + 1;
                        pc_titles :=
                          JS.Set_add string_eq_dec (pc_titles p)
                            (title (snd listing)) |}))
      (personListings people history) [].
Proof.
  intros people history. unfold personCounts, personListings.
  rewrite <- fold_left_flat_map. generalize (@nil (string * PersonCounts)).
  induction history as [|r history IH]; intros o; cbn [fold_left].
  - reflexivity.
  - rewrite IH. f_equal.
    generalize o. induction (orNil (people r)) as [|g gs IHg]; intros o';
      cbn [map fold_left fst snd]; [reflexivity | apply IHg].
Qed.

Lemma personCounts_titles_listed : forall people history name data,
  In (name, data) (personCounts people history) ->
  forall t, In t (pc_titles data) ->
    exists e, In e history /\ In name (orNil (people e)) /\ title e = t.
Proof.
  intros people history name data Hin.
  rewrite personCounts_listings in Hin.
  apply In_get with (eq_dec := string_eq_dec) in Hin; [|apply grouped_NoDup].
  revert name data Hin.
  apply (fold_get_invariant_In string_eq_dec _
           (fun (name : string) data =>
              forall t, In t (pc_titles data) ->
                exists e, In e history /\ In name (orNil (people e))
                          /\ title e = t)).
  - intros o [person r] Hr Ho k v. cbn [fst snd]. rewrite get_upsert.
    destruct (string_eq_dec k person) as [-> | Hne]; [|apply Ho].
    assert (Hsrc : In r history /\ In person (orNil (people r))).
    { unfold personListings in Hr. apply in_flat_map in Hr.
      destruct Hr as [r' [Hr' Hl]]. apply in_map_iff in Hl.
      destruct Hl as [g [E Hg]]. inversion E; subst. auto. }
    intros E t Ht.
    assert (Hcases : t = title r
                     \/ exists v0, JS.get string_eq_dec o person = Some v0
                                   /\ In t (pc_titles v0)).
    { destruct (JS.get string_eq_dec o person) as [v0|] eqn:E0;
        inversion E; subst; clear E; cbn [pc_titles] in Ht;
        apply Set_add_In in Ht; destruct Ht as [Ht | Ht]; eauto.
      contradiction. }
    destruct Hcases as [-> | [v0 [E0 Ht0]]].
    + exists r. tauto.
    + eapply Ho; eauto.
  - simpl. discriminate.
Qed.

(** X25: every top actor shows the number of times the events of the
    history list the actor, at least one, and only titles of events that
    list the actor; likewise every top director. *)
Theorem top_people_count_listings :
  forall tzOffset userId analysisYear history overseerr w people p,
    let r := report tzOffset userId analysisYear history overseerr w in
    (people = actors /\ In p (ProcessedStats.topActors r))
    \/ (people = directors /\ In p (ProcessedStats.topDirectors r)) ->
    TopPerson.count p
    = occurrences string_eq_dec (TopPerson.name p)
        (map fst (personListings people history))
    /\ 1 <= TopPerson.count p
    /\ forall t, In t (TopPerson.titles p) ->
         exists e, In e history /\ In (TopPerson.name p) (orNil (people e))
                   /\ title e = t.
Proof.
  intros tzOffset userId analysisYear history overseerr w people p r Hp.
  destruct (report_top_people_devices tzOffset userId analysisYear history
              overseerr w) as [Ha [Hd _]].
  assert (Hin : In p (topPeople people history)).
  { subst r. destruct Hp as [[-> Hp] | [-> Hp]]; congruence. }
  clear Hp Ha Hd. unfold topPeople in Hin.
  apply in_map_iff in Hin. destruct Hin as [[name data] [<- Hin]].
  unfold rankedPeople in Hin. apply In_firstn, sort_In, entries_In in Hin.
  pose proof (personCounts_titles_listed _ _ _ _ Hin) as Htitles.
  rewrite personCounts_listings in Hin.
  pose proof Hin as Hk. apply grouped_key_seen in Hk. cbn [fst] in Hk.
  eapply grouped_sumZ with (measure := pc_count) (weight := fun _ => 1)
    in Hin; [| intros; reflexivity | intros; reflexivity].
  rewrite sumForZ_count in Hin.
  pose proof (proj1 (occurrences_pos string_eq_dec _ _) Hk) as Hpos.
  cbn [toTopPerson TopPerson.name TopPerson.count TopPerson.titles].
  repeat split; auto; [lia|].
  intros t Ht. apply Htitles. unfold JS.slice0 in Ht. now apply In_firstn in Ht.
Qed.

Lemma top_people_count_listings_witness :
  let r := report DateFns.utc 7 2024 withCast Disabled idle in
  let p := {| TopPerson.name := "Ridley Scott"; TopPerson.count := 1;
              TopPerson.titles := ["Alien"%string] |} in
  ((directors = actors /\ In p (ProcessedStats.topActors r))
   \/ (directors = directors /\ In p (ProcessedStats.topDirectors r)))
  /\ TopPerson.count p
     = occurrences string_eq_dec (TopPerson.name p)
         (map fst (personListings directors withCast))
  /\ 1 <= TopPerson.count p
  /\ forall t, In t (TopPerson.titles p) ->
       exists e, In e withCast /\ In (TopPerson.name p) (orNil (directors e))
                 /\ title e = t.
Proof.
  intros r p.
  assert (Hp : (directors = actors /\ In p (ProcessedStats.topActors r))
               \/ (directors = directors
                   /\ In p (ProcessedStats.topDirectors r))).
  { right. split; [reflexivity|]. vm_compute. left. reflexivity. }
  split; [exact Hp|].
  exact (@top_people_count_listings DateFns.utc 7 2024 withCast Disabled idle
           directors p Hp).
Defined.
